(** * AI-Life-Simulator: agents, behaviour patterns and the orchestrator

    A shallow embedding of [agent.py], [behavior_model.py] and of the social
    and the suggestion phase of [simulation.py], followed by the properties
    of the decision core, the pattern miner and the two phases.

    Conventions of the embedding.
    - Python floats are rationals ([Q]); comparisons, [min] and [max] are
      Python's (the first argument wins a tie).
    - Python ints that count things are [Z]; list positions, agent ids and
      the pattern counter, which index lists or are printed in ids, are
      [nat].
    - [random] and [time.time()] are inputs: a function that draws takes
      the drawn values as arguments; the engine carries a stream of draws
      and the clock in its state.
    - A Python exception is a value of [exn].  Code that mutates objects in
      place before it raises returns the state at the raise together with
      the exception. *)

From Stdlib Require Import QArith Qround Lqa ZArith Lia List String Ascii Bool.
From Stdlib Require Import DecimalString.
Import ListNotations.

Local Open Scope Q_scope.

(* ================================================================= *)
(** ** Numbers *)

Module PyNum.

(** [a < b] on floats. *)
Definition Qltb (a b : Q) : bool :=
  match a ?= b with Lt => true | _ => false end.

(** [a >= b]. *)
Definition Qgeb (a b : Q) : bool := negb (Qltb a b).

(** Python's [min(a, b)]: [b] only when [b < a]. *)
Definition py_min (a b : Q) : Q := if Qltb b a then b else a.

(** Python's [max(a, b)]: [b] only when [b > a]. *)
Definition py_max (a b : Q) : Q := if Qltb a b then b else a.

(** [abs(x)]. *)
Definition py_abs (x : Q) : Q := if Qltb x 0 then - x else x.

(** [x % m] for a positive modulus. *)
Definition py_mod (x m : Q) : Q := x - m * inject_Z (Qfloor (x / m)).

(** [random.uniform(a, b)] from the [random()] draw [r] under it. *)
Definition uniform (a b r : Q) : Q := a + (b - a) * r.

End PyNum.
Import PyNum.

(* ================================================================= *)
(** ** Exceptions and outcomes *)

Inductive exn : Type :=
| KeyError (key : string)
| AttributeError (cls attr : string)
| IndexError
| ValueError (what : string)
| TypeError (what : string)
| JSONDecodeError
| FileNotFoundError.

Inductive result (A : Type) : Type :=
| Ok (a : A)
| Raise (e : exn).
Arguments Ok {A} a.
Arguments Raise {A} e.

Definition rbind {A B} (r : result A) (k : A -> result B) : result B :=
  match r with
  | Ok a => k a
  | Raise e => Raise e
  end.

Declare Scope result_scope.
Delimit Scope result_scope with res.
Notation "x <- c ;; k" := (rbind c (fun x => k))
  (at level 61, c at next level, right associativity) : result_scope.

(* ================================================================= *)
(** ** Python dicts

    Insertion-ordered association lists.  A key occurs once ([dict_wf]);
    assignment to a present key replaces the value where it stands, to an
    absent key appends. *)

Section Dict.
Context {K V : Type} (eqb : K -> K -> bool).

Definition dict := list (K * V).

Fixpoint dict_get (k : K) (d : dict) : option V :=
  match d with
  | [] => None
  | (k', v) :: d' => if eqb k k' then Some v else dict_get k d'
  end.

(** [k in d]. *)
Definition dict_mem (k : K) (d : dict) : bool :=
  match dict_get k d with Some _ => true | None => false end.

(** [d[k] = v]. *)
Fixpoint dict_set (k : K) (v : V) (d : dict) : dict :=
  match d with
  | [] => [(k, v)]
  | (k', v') :: d' =>
      if eqb k k' then (k', v) :: d' else (k', v') :: dict_set k v d'
  end.

(** [del d[k]]. *)
Fixpoint dict_del (k : K) (d : dict) : dict :=
  match d with
  | [] => []
  | (k', v') :: d' =>
      if eqb k k' then d' else (k', v') :: dict_del k d'
  end.

(** In-place mutation of the object stored under [k]. *)
Fixpoint dict_update (k : K) (f : V -> V) (d : dict) : dict :=
  match d with
  | [] => []
  | (k', v') :: d' =>
      if eqb k k' then (k', f v') :: d' else (k', v') :: dict_update k f d'
  end.

Definition dict_keys (d : dict) : list K := map fst d.

Definition dict_values (d : dict) : list V := map snd d.

Definition dict_wf (d : dict) : Prop := NoDup (dict_keys d).

End Dict.

Arguments dict K V : clear implicits.

(* ================================================================= *)
(** ** agent.py *)

Inductive ActionType : Type := EAT | WORK | SLEEP | SOCIALIZE | IDLE.

(** [ActionType.value]. *)
Definition action_value (a : ActionType) : string :=
  match a with
  | EAT => "eat" | WORK => "work" | SLEEP => "sleep"
  | SOCIALIZE => "socialize" | IDLE => "idle"
  end.

(** Iteration order of [for action in ActionType]. *)
Definition all_actions : list ActionType := [EAT; WORK; SLEEP; SOCIALIZE; IDLE].

Definition action_eqb (a b : ActionType) : bool :=
  match a, b with
  | EAT, EAT | WORK, WORK | SLEEP, SLEEP
  | SOCIALIZE, SOCIALIZE | IDLE, IDLE => true
  | _, _ => false
  end.

(** A dict whose keys are all five actions
    ([{action: 0.0 for action in ActionType}]). *)
Record PerAction (A : Type) : Type := mkPerAction {
  at_eat : A; at_work : A; at_sleep : A; at_socialize : A; at_idle : A
}.
Arguments mkPerAction {A}.
Arguments at_eat {A}.
Arguments at_work {A}.
Arguments at_sleep {A}.
Arguments at_socialize {A}.
Arguments at_idle {A}.

Definition pa_get {A} (t : PerAction A) (a : ActionType) : A :=
  match a with
  | EAT => at_eat t | WORK => at_work t | SLEEP => at_sleep t
  | SOCIALIZE => at_socialize t | IDLE => at_idle t
  end.

Definition pa_set {A} (t : PerAction A) (a : ActionType) (x : A) : PerAction A :=
  match a with
  | EAT => mkPerAction x (at_work t) (at_sleep t) (at_socialize t) (at_idle t)
  | WORK => mkPerAction (at_eat t) x (at_sleep t) (at_socialize t) (at_idle t)
  | SLEEP => mkPerAction (at_eat t) (at_work t) x (at_socialize t) (at_idle t)
  | SOCIALIZE => mkPerAction (at_eat t) (at_work t) (at_sleep t) x (at_idle t)
  | IDLE => mkPerAction (at_eat t) (at_work t) (at_sleep t) (at_socialize t) x
  end.

Record Need : Type := mkNeed {
  value : Q;
  decay_rate : Q;
  satisfaction_threshold : Q
}.

Module NeedOps.

(** [Need.update]. *)
Definition update (n : Need) (dt : Q) : Need :=
  mkNeed (py_max 0 (value n - decay_rate n * dt))
         (decay_rate n) (satisfaction_threshold n).

(** [Need.satisfy]. *)
Definition satisfy (n : Need) (amount : Q) : Need :=
  mkNeed (py_min 100 (value n + amount))
         (decay_rate n) (satisfaction_threshold n).

(** [Need.is_critical]. *)
Definition is_critical (n : Need) : bool :=
  Qltb (satisfaction_threshold n) (value n).

(** A call made on a need. *)
Inductive call : Type :=
| CallUpdate (dt : Q)
| CallSatisfy (amount : Q).

Definition call_arg (c : call) : Q :=
  match c with CallUpdate dt => dt | CallSatisfy amount => amount end.

Definition do_call (n : Need) (c : call) : Need :=
  match c with
  | CallUpdate dt => update n dt
  | CallSatisfy amount => satisfy n amount
  end.

Definition run (n : Need) (cs : list call) : Need := fold_left do_call cs n.

Definition in_range (n : Need) : Prop := 0 <= value n /\ value n <= 100.

End NeedOps.

Definition with_value (n : Need) (v : Q) : Need :=
  mkNeed v (decay_rate n) (satisfaction_threshold n).

(** [self.needs]: the dict of [__init__], whose keys are exactly
    ['hunger'], ['energy'], ['happiness'] and ['social_need']. *)
Record Needs : Type := mkNeeds {
  hunger : Need;
  energy : Need;
  happiness : Need;
  social_need : Need
}.

(** [needs[key]]. *)
Definition needs_getitem (n : Needs) (key : string) : result Need :=
  if String.eqb key "hunger" then Ok (hunger n)
  else if String.eqb key "energy" then Ok (energy n)
  else if String.eqb key "happiness" then Ok (happiness n)
  else if String.eqb key "social_need" then Ok (social_need n)
  else Raise (KeyError key).

(** Writing back the need object found under [key] after a method mutated
    it; the key is one [needs_getitem] has found. *)
Definition needs_store (n : Needs) (key : string) (x : Need) : Needs :=
  if String.eqb key "hunger" then mkNeeds x (energy n) (happiness n) (social_need n)
  else if String.eqb key "energy" then mkNeeds (hunger n) x (happiness n) (social_need n)
  else if String.eqb key "happiness" then mkNeeds (hunger n) (energy n) x (social_need n)
  else if String.eqb key "social_need" then mkNeeds (hunger n) (energy n) (happiness n) x
  else n.

(** [{k: v.value for k, v in self.needs.items()}]. *)
Definition needs_values (n : Needs) : dict string Q :=
  [("hunger"%string, value (hunger n)); ("energy"%string, value (energy n));
   ("happiness"%string, value (happiness n));
   ("social_need"%string, value (social_need n))].

Record PersonalityTrait : Type := mkPersonalityTrait {
  discipline : Q;
  sociability : Q;
  ambition : Q;
  creativity : Q;
  openness : Q;
  conscientiousness : Q;
  extraversion : Q;
  agreeableness : Q;
  neuroticism : Q
}.

Record Habit : Type := mkHabit {
  action : ActionType;
  strength : Q;
  time_preference : Q;
  success_count : Z;
  total_attempts : Z
}.

(** [Habit.__init__]. *)
Definition Habit_init (a : ActionType) (s : Q) : Habit := mkHabit a s (1#2) 0 0.

(** [Habit.reinforce]. *)
Definition reinforce (h : Habit) (success : bool) : Habit :=
  if success then
    mkHabit (action h) (py_min 1 (strength h + (1#100))) (time_preference h)
            (success_count h + 1) (total_attempts h + 1)
  else
    mkHabit (action h) (py_max 0 (strength h - (5#1000))) (time_preference h)
            (success_count h) (total_attempts h + 1).

(** [Habit.get_success_rate]. *)
Definition get_success_rate (h : Habit) : Q :=
  if Z.eqb (total_attempts h) 0 then 1#2
  else inject_Z (success_count h) / inject_Z (total_attempts h).

Definition with_strength (h : Habit) (s : Q) : Habit :=
  mkHabit (action h) s (time_preference h) (success_count h) (total_attempts h).

Record DecisionWeights : Type := mkDecisionWeights {
  need_urgency : Q;
  habit_strength : Q;
  personality_weight : Q;
  money_factor : Q;
  mood_factor : Q
}.

(** One entry of [self.memory]: the dict literal appended by
    [perform_action], with its eight keys. *)
Record MemoryRecord : Type := mkMemoryRecord {
  m_action : ActionType;
  m_success : bool;
  m_reward : Q;
  m_cost : Q;
  m_timestamp : Q;
  m_needs_state : dict string Q;
  m_money : Q;
  m_mood : Q
}.

(** The values a memory entry holds. *)
Inductive pyval : Type :=
| PyAction (a : ActionType)
| PyBool (b : bool)
| PyFloat (q : Q)
| PyDict (d : dict string Q).

(** [memory[key]]. *)
Definition memory_getitem (m : MemoryRecord) (key : string) : result pyval :=
  if String.eqb key "action" then Ok (PyAction (m_action m))
  else if String.eqb key "success" then Ok (PyBool (m_success m))
  else if String.eqb key "reward" then Ok (PyFloat (m_reward m))
  else if String.eqb key "cost" then Ok (PyFloat (m_cost m))
  else if String.eqb key "timestamp" then Ok (PyFloat (m_timestamp m))
  else if String.eqb key "needs_state" then Ok (PyDict (m_needs_state m))
  else if String.eqb key "money" then Ok (PyFloat (m_money m))
  else if String.eqb key "mood" then Ok (PyFloat (m_mood m))
  else Raise (KeyError key).

(** Truth value of an object in [if x:]. *)
Definition truthy (v : pyval) : bool :=
  match v with
  | PyAction _ => true
  | PyBool b => b
  | PyFloat q => negb (Qeq_bool q 0)
  | PyDict d => match d with [] => false | _ => true end
  end.

(** The operand of [number += x]. *)
Definition as_number (v : pyval) : result Q :=
  match v with
  | PyFloat q => Ok q
  | PyBool b => Ok (if b then 1 else 0)
  | PyAction _ => Raise (TypeError "unsupported operand type(s) for +=: 'int' and 'ActionType'")
  | PyDict _ => Raise (TypeError "unsupported operand type(s) for +=: 'int' and 'dict'")
  end.

(** The key of [action_performance]. *)
Definition as_action (v : pyval) : result ActionType :=
  match v with
  | PyAction a => Ok a
  | _ => Raise (TypeError "not an ActionType")
  end.

Record VirtualHuman : Type := mkVirtualHuman {
  agent_id : nat;
  name : string;
  needs : Needs;
  money : Q;
  mood : Q;
  personality : PersonalityTrait;
  habits : dict ActionType Habit;
  current_action : ActionType;
  action_duration : Q;
  position : Q * Q;
  energy_level : Q;
  decision_weights : DecisionWeights;
  learning_rate : Q;
  action_rewards : PerAction Q;
  action_counts : PerAction Z;
  memory : list MemoryRecord;
  total_actions : Z;
  action_history : list ActionType;
  satisfaction_history : list Q
}.

(** Decimal rendering of a non-negative int in an f-string. *)
Definition str_of_nat (n : nat) : string := NilEmpty.string_of_uint (Nat.to_uint n).

(** [VirtualHuman.__init__]; [r k] is the [k]-th call of [random.random()]
    underlying the [random.uniform] calls, in program order. *)
Definition VirtualHuman_init (id : nat) (given_name : option string)
    (r : nat -> Q) : VirtualHuman :=
  let discipline := uniform (2#10) (8#10) (r 6%nat) in
  let sociability := uniform (2#10) (8#10) (r 7%nat) in
  mkVirtualHuman
    id
    (match given_name with
     | Some s => if String.eqb s "" then ("Agent_" ++ str_of_nat id)%string else s
     | None => ("Agent_" ++ str_of_nat id)%string
     end)
    (mkNeeds (mkNeed (uniform 20 50 (r 0%nat)) 2 30)
             (mkNeed (uniform 60 90 (r 1%nat)) (15#10) 30)
             (mkNeed (uniform 40 70 (r 2%nat)) (8#10) 30)
             (mkNeed (uniform 20 50 (r 3%nat)) 1 30))
    (uniform 100 500 (r 4%nat))
    (uniform (3#10) (7#10) (r 5%nat))
    (mkPersonalityTrait
       discipline sociability
       (uniform (2#10) (8#10) (r 8%nat))
       (uniform (2#10) (8#10) (r 9%nat))
       (uniform (2#10) (8#10) (r 10%nat))
       discipline sociability
       (uniform (2#10) (8#10) (r 11%nat))
       (uniform (2#10) (8#10) (r 12%nat)))
    [(EAT, Habit_init EAT (uniform (1#10) (3#10) (r 13%nat)));
     (WORK, Habit_init WORK (uniform (1#10) (3#10) (r 14%nat)));
     (SLEEP, Habit_init SLEEP (uniform (1#10) (3#10) (r 15%nat)));
     (SOCIALIZE, Habit_init SOCIALIZE (uniform (1#10) (3#10) (r 16%nat)))]
    IDLE
    0
    (uniform 0 100 (r 17%nat), uniform 0 100 (r 18%nat))
    (uniform (5#10) 1 (r 19%nat))
    (mkDecisionWeights (4#10) (2#10) (2#10) (1#10) (1#10))
    (1#10)
    (mkPerAction 0 0 0 0 0)
    (mkPerAction 0%Z 0%Z 0%Z 0%Z 0%Z)
    []
    0%Z
    []
    [].

(** [VirtualHuman.get_time_of_day]; [now] is [time.time()]. *)
Definition get_time_of_day (now : Q) : Q := py_mod now 86400 / 86400.

(** What the action branch of [perform_action] leaves behind: the needs and
    the money after it, and the locals [success], [reward], [cost]. *)
Record ActionEffect : Type := mkActionEffect {
  e_needs : Needs;
  e_money : Q;
  e_success : bool;
  e_reward : Q;
  e_cost : Q
}.

(** The [if action == ...] chain of [perform_action]. *)
Definition action_branch (self : VirtualHuman) (act : ActionType) (dt : Q)
    : ActionEffect :=
  let n := needs self in
  let failed := mkActionEffect n (money self) false 0 0 in
  match act with
  | EAT =>
      if Qltb 10 (value (hunger n)) && Qgeb (money self) 5 then
        let hunger_reduction := py_min (30 * dt) (value (hunger n)) in
        let cost := 5 * dt in
        mkActionEffect
          (mkNeeds (with_value (hunger n) (value (hunger n) - hunger_reduction))
                   (energy n)
                   (with_value (happiness n)
                      (py_min 100 (value (happiness n) + 5 * dt)))
                   (social_need n))
          (money self - cost) true (hunger_reduction * (1#10)) cost
      else failed
  | SLEEP =>
      if Qltb (value (energy n)) 90 then
        let energy_gain := py_min (40 * dt) (100 - value (energy n)) in
        mkActionEffect
          (mkNeeds (hunger n)
                   (with_value (energy n) (value (energy n) + energy_gain))
                   (happiness n)
                   (with_value (social_need n)
                      (py_min 100 (value (social_need n) + 2 * dt))))
          (money self) true (energy_gain * (5#100)) 0
      else failed
  | SOCIALIZE =>
      if Qltb 5 (value (social_need n)) && Qgeb (money self) 3 then
        let social_reduction := py_min (25 * dt) (value (social_need n)) in
        let cost := 3 * dt in
        mkActionEffect
          (mkNeeds (hunger n)
                   (energy n)
                   (with_value (happiness n)
                      (py_min 100 (value (happiness n) + 8 * dt)))
                   (with_value (social_need n)
                      (value (social_need n) - social_reduction)))
          (money self - cost) true
          (social_reduction * (8#100) + sociability (personality self) * (1#10))
          cost
      else failed
  | WORK =>
      if Qltb 20 (value (energy n)) then
        let money_earned := (10 + ambition (personality self) * 5) * dt in
        mkActionEffect
          (mkNeeds (with_value (hunger n)
                      (py_min 100 (value (hunger n) + 8 * dt)))
                   (with_value (energy n)
                      (py_max 0 (value (energy n) - 15 * dt)))
                   (with_value (happiness n)
                      (py_max 0 (value (happiness n) - 3 * dt)))
                   (social_need n))
          (money self + money_earned) true
          (money_earned * (2#100) + ambition (personality self) * (1#10)) 0
      else failed
  | IDLE => mkActionEffect n (money self) true 0 0
  end.

(** [self.memory.append(...)] followed by the trim to 100 entries. *)
Definition remember (mem : list MemoryRecord) (m : MemoryRecord)
    : list MemoryRecord :=
  let mem' := mem ++ [m] in
  if Nat.ltb 100 (List.length mem') then tl mem' else mem'.

(** [VirtualHuman.perform_action]; [now] is the [time.time()] of the memory
    record.  Returns the agent after the call and the returned flag. *)
Definition perform_action (self : VirtualHuman) (act : ActionType)
    (dt now : Q) : VirtualHuman * bool :=
  let e := action_branch self act dt in
  let success := e_success e in
  let reward := e_reward e in
  let mood' :=
    if success then py_min 1 (mood self + (2#100))
    else py_max 0 (mood self - (5#100)) in
  let counts' :=
    pa_set (action_counts self) act (pa_get (action_counts self) act + 1)%Z in
  let rewards' :=
    if success then
      pa_set (action_rewards self) act (pa_get (action_rewards self) act + reward)
    else
      pa_set (action_rewards self) act (pa_get (action_rewards self) act - (1#10)) in
  let dw := decision_weights self in
  let weights' :=
    if success && Qltb (5#10) reward then
      mkDecisionWeights (need_urgency dw)
        (py_min (5#10) (habit_strength dw + (1#100)))
        (personality_weight dw) (money_factor dw) (mood_factor dw)
    else dw in
  let habits' :=
    if dict_mem action_eqb act (habits self)
    then dict_update action_eqb act (fun h => reinforce h success) (habits self)
    else habits self in
  let record :=
    mkMemoryRecord act success reward (e_cost e) now
      (needs_values (e_needs e)) (e_money e) mood' in
  (mkVirtualHuman
     (agent_id self) (name self) (e_needs e) (e_money e) mood'
     (personality self) habits' (current_action self) (action_duration self)
     (position self) (energy_level self) weights' (learning_rate self)
     rewards' counts' (remember (memory self) record)
     (total_actions self) (action_history self) (satisfaction_history self),
   success).

(** The entry of [action_performance] kept per action. *)
Record Perf : Type := mkPerf {
  successes : Z;
  attempts : Z;
  satisfaction : Q
}.

(** [xs[-n:]]. *)
Definition last_n {A} (n : nat) (xs : list A) : list A :=
  skipn (List.length xs - n) xs.

(** A [for] loop whose body may raise. *)
Fixpoint for_each {A S} (body : S -> A -> result S) (xs : list A) (s : S)
    : result S :=
  match xs with
  | [] => Ok s
  | x :: xs' => rbind (body s x) (for_each body xs')
  end.

(** Body of the first loop of [evolve_behavior]. *)
Definition tally (perf : dict ActionType Perf) (m : MemoryRecord)
    : result (dict ActionType Perf) :=
  (av <- memory_getitem m "action";;
   act <- as_action av;;
   let perf1 :=
     if dict_mem action_eqb act perf then perf
     else dict_set action_eqb act (mkPerf 0 0 0) perf in
   let perf2 :=
     dict_update action_eqb act
       (fun p => mkPerf (successes p) (attempts p + 1) (satisfaction p)) perf1 in
   sv <- memory_getitem m "success";;
   let perf3 :=
     if truthy sv then
       dict_update action_eqb act
         (fun p => mkPerf (successes p + 1) (attempts p) (satisfaction p)) perf2
     else perf2 in
   gv <- memory_getitem m "satisfaction_gain";;
   gain <- as_number gv;;
   Ok (dict_update action_eqb act
         (fun p => mkPerf (successes p) (attempts p) (satisfaction p + gain))
         perf3))%res.

(** Body of the second loop of [evolve_behavior]. *)
Definition adjust_habit (hs : dict ActionType Habit) (entry : ActionType * Perf)
    : dict ActionType Habit :=
  let (act, perf) := entry in
  if Z.ltb 0 (attempts perf) then
    let success_rate := inject_Z (successes perf) / inject_Z (attempts perf) in
    let avg_satisfaction := satisfaction perf / inject_Z (attempts perf) in
    if dict_mem action_eqb act hs then
      if Qltb (7#10) success_rate && Qltb (1#10) avg_satisfaction then
        dict_update action_eqb act
          (fun h => with_strength h (py_min 1 (strength h + (2#100)))) hs
      else if Qltb success_rate (3#10) || Qltb avg_satisfaction (5#100) then
        dict_update action_eqb act
          (fun h => with_strength h (py_max 0 (strength h - (1#100)))) hs
      else hs
    else hs
  else hs.

Definition with_habits (self : VirtualHuman) (hs : dict ActionType Habit)
    : VirtualHuman :=
  mkVirtualHuman
    (agent_id self) (name self) (needs self) (money self) (mood self)
    (personality self) hs (current_action self) (action_duration self)
    (position self) (energy_level self) (decision_weights self)
    (learning_rate self) (action_rewards self) (action_counts self)
    (memory self) (total_actions self) (action_history self)
    (satisfaction_history self).

(** [VirtualHuman.evolve_behavior]: the agent after the call, and [Ok tt]
    when the call returns or the exception that leaves it. *)
Definition evolve_behavior (self : VirtualHuman) : VirtualHuman * result unit :=
  if Nat.ltb (List.length (memory self)) 10 then (self, Ok tt)
  else
    let recent_memory := last_n 20 (memory self) in
    match for_each tally recent_memory [] with
    | Raise e => (self, Raise e)
    | Ok action_performance =>
        (with_habits self (fold_left adjust_habit action_performance (habits self)),
         Ok tt)
    end.

(* ================================================================= *)
(** ** behavior_model.py *)

(** The values of the [json] module. *)
#[local] Unset Elimination Schemes.
Inductive json : Type :=
| JNull
| JBool (b : bool)
| JInt (z : Z)
| JFloat (q : Q)
| JStr (s : string)
| JList (l : list json)
| JDict (d : list (string * json)).
#[local] Set Elimination Schemes.

(** [isinstance(v, (int, float))] together with the number [v] then is;
    [bool] is a subclass of [int]. *)
Definition json_number (v : json) : option Q :=
  match v with
  | JInt z => Some (inject_Z z)
  | JFloat q => Some q
  | JBool b => Some (if b then 1 else 0)
  | _ => None
  end.

Record BehaviorPattern : Type := mkBehaviorPattern {
  pattern_id : string;
  conditions : dict string json;
  actions : list ActionType;
  success_rate : Q;
  usage_count : Z;
  last_used : Z;
  effectiveness_history : list bool
}.

(** [BehaviorPattern.__init__]. *)
Definition BehaviorPattern_init (id : string) (conds : dict string json)
    (acts : list ActionType) (rate : Q) (usage : Z) : BehaviorPattern :=
  mkBehaviorPattern id conds acts rate usage 0 [].

Definition with_last_used (p : BehaviorPattern) (n : Z) : BehaviorPattern :=
  mkBehaviorPattern (pattern_id p) (conditions p) (actions p) (success_rate p)
    (usage_count p) n (effectiveness_history p).

Definition with_history (p : BehaviorPattern) (h : list bool) : BehaviorPattern :=
  mkBehaviorPattern (pattern_id p) (conditions p) (actions p) (success_rate p)
    (usage_count p) (last_used p) h.

(** Body of the loop of [matches_conditions] on the pair
    [(matches, total)]; a float never equals a non-numeric expected value. *)
Definition count_condition (agent_state : dict string Q) (acc : Z * Z)
    (item : string * json) : Z * Z :=
  let (matches, total) := acc in
  let (condition, expected_value) := item in
  match dict_get String.eqb condition agent_state with
  | Some current_value =>
      match json_number expected_value with
      | Some expected =>
          if Qltb (py_abs (current_value - expected)) (2#10)
          then (matches + 1, total + 1)%Z
          else (matches, total + 1)%Z
      | None => (matches, total + 1)%Z
      end
  | None => (matches, total)
  end.

(** [BehaviorPattern.matches_conditions]. *)
Definition matches_conditions (self : BehaviorPattern)
    (agent_state : dict string Q) (threshold : Q) : bool :=
  let (matches, total) :=
    fold_left (count_condition agent_state) (conditions self) (0, 0)%Z in
  if Z.ltb 0 total
  then Qgeb (inject_Z matches / inject_Z total) threshold
  else false.

(** [sum(history)]. *)
Definition count_true (h : list bool) : Z :=
  fold_left (fun n (b : bool) => if b then (n + 1)%Z else n) h 0%Z.

(** [BehaviorPattern.update_effectiveness]. *)
Definition update_effectiveness (self : BehaviorPattern) (success : bool)
    : BehaviorPattern :=
  let appended := effectiveness_history self ++ [success] in
  let history :=
    if Nat.ltb 20 (List.length appended) then tl appended else appended in
  mkBehaviorPattern (pattern_id self) (conditions self) (actions self)
    (match history with
     | [] => success_rate self
     | _ => inject_Z (count_true history)
            / inject_Z (Z.of_nat (List.length history))
     end)
    (usage_count self + 1) (last_used self) history.

(** The attributes of [GenerativeBehaviorModel] the pattern operations read
    or write; the scaler and the clusterer belong to [discover_patterns]. *)
Record GenerativeBehaviorModel : Type := mkGenerativeBehaviorModel {
  patterns : dict string BehaviorPattern;
  pattern_counter : nat;
  model_learning_rate : Q;
  exploration_rate : Q;
  min_pattern_usage : Z
}.

(** [GenerativeBehaviorModel.__init__]. *)
Definition GenerativeBehaviorModel_init : GenerativeBehaviorModel :=
  mkGenerativeBehaviorModel [] 0 (1#10) (2#10) 5.

Definition with_patterns (self : GenerativeBehaviorModel)
    (ps : dict string BehaviorPattern) : GenerativeBehaviorModel :=
  mkGenerativeBehaviorModel ps (pattern_counter self)
    (model_learning_rate self) (exploration_rate self) (min_pattern_usage self).

(** The [agent_state] dict of [suggest_action] and
    [update_pattern_effectiveness]. *)
Definition agent_state_of (agent : VirtualHuman) (now : Q) : dict string Q :=
  [("hunger"%string, value (hunger (needs agent)));
   ("energy"%string, value (energy (needs agent)));
   ("social_need"%string, value (social_need (needs agent)));
   ("happiness"%string, value (happiness (needs agent)));
   ("time_of_day"%string, get_time_of_day now)].

(** [max(first :: rest, key=key)]: the first item whose key is maximal. *)
Fixpoint py_max_by {A} (key : A -> Q) (best : A) (rest : list A) : A :=
  match rest with
  | [] => best
  | x :: rest' =>
      py_max_by key (if Qltb (key best) (key x) then x else best) rest'
  end.

(** The key of the [max] in [suggest_action]. *)
Definition recency_score (p : BehaviorPattern) : Q :=
  success_rate p * (1 + (1#10) * (100 - inject_Z (last_used p))).

(** The filter of [suggest_action]. *)
Definition eligible (self : GenerativeBehaviorModel)
    (agent_state : dict string Q) (p : BehaviorPattern) : bool :=
  matches_conditions p agent_state (8#10)
  && Z.leb (min_pattern_usage self) (usage_count p)
  && Qltb (6#10) (success_rate p).

(** [GenerativeBehaviorModel.suggest_action]; [roll] is the value of
    [random.random()], [now] the clock.  A pattern object is carried with
    the key it is stored under, so that resetting its [last_used] updates
    the store. *)
Definition suggest_action (self : GenerativeBehaviorModel)
    (agent : VirtualHuman) (roll now : Q)
    : GenerativeBehaviorModel * option ActionType :=
  if Qltb roll (exploration_rate self) then (self, None)
  else
    let agent_state := agent_state_of agent now in
    let matching_patterns :=
      filter (fun kp => eligible self agent_state (snd kp)) (patterns self) in
    match matching_patterns with
    | [] => (self, None)
    | first :: rest =>
        let best_pattern :=
          py_max_by (fun kp => recency_score (snd kp)) first rest in
        match actions (snd best_pattern) with
        | [] => (self, None)
        | a :: _ =>
            (with_patterns self
               (dict_update String.eqb (fst best_pattern)
                  (fun p => with_last_used p 0) (patterns self)),
             Some a)
        end
    end.

(** The loop of [update_pattern_effectiveness]: the first pattern that
    matches and starts with the suggested action is updated, then [break]. *)
Fixpoint update_first_match (agent_state : dict string Q)
    (suggested_action : ActionType) (success : bool)
    (ps : dict string BehaviorPattern) : dict string BehaviorPattern :=
  match ps with
  | [] => []
  | (k, p) :: ps' =>
      if matches_conditions p agent_state (8#10)
         && match actions p with
            | [] => false
            | a :: _ => action_eqb a suggested_action
            end
      then (k, update_effectiveness p success) :: ps'
      else (k, p) :: update_first_match agent_state suggested_action success ps'
  end.

(** [GenerativeBehaviorModel.update_pattern_effectiveness]. *)
Definition update_pattern_effectiveness (self : GenerativeBehaviorModel)
    (agent : VirtualHuman) (suggested_action : ActionType) (success : bool)
    (now : Q) : GenerativeBehaviorModel :=
  with_patterns self
    (update_first_match (agent_state_of agent now) suggested_action success
       (patterns self)).

(** The two [if]/[elif] tests of [evolve_patterns], on a pattern already
    aged. *)
Definition ineffective (min_usage : Z) (p : BehaviorPattern) : bool :=
  Z.leb (min_usage * 2) (usage_count p) && Qltb (success_rate p) (3#10).

Definition unused_old (min_usage : Z) (p : BehaviorPattern) : bool :=
  Z.ltb 100 (last_used p) && Z.ltb (usage_count p) min_usage.

Definition to_remove (min_usage : Z) (p : BehaviorPattern) : bool :=
  if ineffective min_usage p then true
  else if unused_old min_usage p then true
  else false.

(** [pattern.last_used += 1]. *)
Definition age (p : BehaviorPattern) : BehaviorPattern :=
  with_last_used p (last_used p + 1).

(** First loop of [evolve_patterns]: every pattern is aged; the ids of
    those to remove are collected in store order. *)
Definition age_all (ps : dict string BehaviorPattern)
    : dict string BehaviorPattern :=
  map (fun kp => (fst kp, age (snd kp))) ps.

Definition patterns_to_remove (min_usage : Z)
    (aged : dict string BehaviorPattern) : list string :=
  map fst (filter (fun kp => to_remove min_usage (snd kp)) aged).

(** Second loop: [del self.patterns[pattern_id]]. *)
Definition remove_patterns (ids : list string)
    (ps : dict string BehaviorPattern) : dict string BehaviorPattern :=
  fold_left (fun d id => dict_del String.eqb id d) ids ps.

(** The store after the two loops. *)
Definition prune (self : GenerativeBehaviorModel) : GenerativeBehaviorModel :=
  let aged := age_all (patterns self) in
  with_patterns self
    (remove_patterns (patterns_to_remove (min_pattern_usage self) aged) aged).

(** The draws of one round of the mutation loop: the [random.random()]
    compared with 0.1, the draws under the [random.uniform(-0.1, 0.1)] of
    each numeric condition in order, the [random.random()] compared with
    0.3, and the two positions of [random.sample]. *)
Record MutationDraws : Type := mkMutationDraws {
  mutate_roll : Q;
  perturb_rolls : nat -> Q;
  swap_roll : Q;
  swap_positions : nat * nat
}.

(** The loop over [new_conditions.items()]: [k] counts the draws made. *)
Fixpoint perturb_conditions (rolls : nat -> Q) (k : nat)
    (conds : dict string json) : dict string json :=
  match conds with
  | [] => []
  | (key, v) :: rest =>
      match json_number v with
      | Some x =>
          let moved := x + uniform (- (1#10)) (1#10) (rolls k) in
          (key, JFloat (py_max 0 (py_min 1 moved)))
            :: perturb_conditions rolls (S k) rest
      | None => (key, v) :: perturb_conditions rolls k rest
      end
  end.

(** [xs[i] = x] inside the list. *)
Fixpoint list_set {A} (i : nat) (x : A) (xs : list A) : list A :=
  match xs, i with
  | [], _ => []
  | _ :: xs', O => x :: xs'
  | y :: xs', S i' => y :: list_set i' x xs'
  end.

(** [xs[i], xs[j] = xs[j], xs[i]]. *)
Definition swap {A} (i j : nat) (xs : list A) : list A :=
  match nth_error xs i, nth_error xs j with
  | Some xi, Some xj => list_set j xi (list_set i xj xs)
  | _, _ => xs
  end.

(** The pattern built by [_create_pattern_mutation] and the id it is
    stored under. *)
Definition mutation_of (counter : nat) (d : MutationDraws)
    (original_pattern : BehaviorPattern) : string * BehaviorPattern :=
  let new_conditions :=
    perturb_conditions (perturb_rolls d) 0 (conditions original_pattern) in
  let new_actions :=
    if Nat.ltb 1 (List.length (actions original_pattern))
       && Qltb (swap_roll d) (3#10)
    then swap (fst (swap_positions d)) (snd (swap_positions d))
              (actions original_pattern)
    else actions original_pattern in
  let mutation_id :=
    ("mutation_" ++ str_of_nat counter ++ "_"
       ++ pattern_id original_pattern)%string in
  (mutation_id,
   BehaviorPattern_init mutation_id new_conditions new_actions
     (success_rate original_pattern * (9#10)) 0).

(** [GenerativeBehaviorModel._create_pattern_mutation]. *)
Definition _create_pattern_mutation (self : GenerativeBehaviorModel)
    (d : MutationDraws) (original_pattern : BehaviorPattern)
    : GenerativeBehaviorModel :=
  let (mutation_id, mutated_pattern) :=
    mutation_of (pattern_counter self) d original_pattern in
  mkGenerativeBehaviorModel
    (dict_set String.eqb mutation_id mutated_pattern (patterns self))
    (S (pattern_counter self))
    (model_learning_rate self) (exploration_rate self) (min_pattern_usage self).

(** The list comprehension of [_mutate_successful_patterns]. *)
Definition successful_patterns (self : GenerativeBehaviorModel)
    : list BehaviorPattern :=
  filter (fun p => Qltb (8#10) (success_rate p)
                   && Z.leb (min_pattern_usage self) (usage_count p))
         (dict_values (patterns self)).

(** The loop of [_mutate_successful_patterns] over
    [successful_patterns[:3]]; [draws k] are the draws of round [k]. *)
Fixpoint mutate_loop (draws : nat -> MutationDraws) (k : nat)
    (todo : list BehaviorPattern) (self : GenerativeBehaviorModel)
    : GenerativeBehaviorModel :=
  match todo with
  | [] => self
  | p :: todo' =>
      mutate_loop draws (S k) todo'
        (if Qltb (mutate_roll (draws k)) (1#10)
         then _create_pattern_mutation self (draws k) p
         else self)
  end.

(** [GenerativeBehaviorModel._mutate_successful_patterns]. *)
Definition _mutate_successful_patterns (draws : nat -> MutationDraws)
    (self : GenerativeBehaviorModel) : GenerativeBehaviorModel :=
  mutate_loop draws 0 (firstn 3 (successful_patterns self)) self.

(** [GenerativeBehaviorModel.evolve_patterns]. *)
Definition evolve_patterns (draws : nat -> MutationDraws)
    (self : GenerativeBehaviorModel) : GenerativeBehaviorModel :=
  _mutate_successful_patterns draws (prune self).

(** The mutants one call of [evolve_patterns] stores, in the order they
    are stored, with their ids. *)
Fixpoint minted_from (draws : nat -> MutationDraws) (k : nat) (counter : nat)
    (todo : list BehaviorPattern) : list (string * BehaviorPattern) :=
  match todo with
  | [] => []
  | p :: todo' =>
      if Qltb (mutate_roll (draws k)) (1#10)
      then mutation_of counter (draws k) p
             :: minted_from draws (S k) (S counter) todo'
      else minted_from draws (S k) counter todo'
  end.

Definition minted (draws : nat -> MutationDraws)
    (self : GenerativeBehaviorModel) : list (string * BehaviorPattern) :=
  let pruned := prune self in
  minted_from draws 0 (pattern_counter pruned)
    (firstn 3 (successful_patterns pruned)).

(** *** Persistence

    The codec is the standard [json] module, which is not part of this
    repository.  A file is represented by what [json.load] makes of its
    text: a decoded document, or text that does not decode.  [json.dump]
    writes a text that decodes to the dumped value (dict keys are strings
    and the leaves are floats, ints, bools and strings throughout). *)

Inductive file_content : Type :=
| Undecodable (text : string)
| Document (v : json).

(** File name to content; an absent name is a missing file. *)
Definition filesystem := dict string file_content.

(** [open(filename, 'r')]. *)
Definition open_read (fs : filesystem) (filename : string)
    : result file_content :=
  match dict_get String.eqb filename fs with
  | Some c => Ok c
  | None => Raise FileNotFoundError
  end.

(** [json.load(f)]. *)
Definition json_load (c : file_content) : result json :=
  match c with
  | Undecodable _ => Raise JSONDecodeError
  | Document v => Ok v
  end.

(** [open(filename, 'w')] followed by [json.dump(v, f, indent=2)]. *)
Definition json_dump (fs : filesystem) (filename : string) (v : json)
    : filesystem :=
  dict_set String.eqb filename (Document v) fs.

(** The dict stored per pattern by [save_patterns]. *)
Definition pattern_to_json (p : BehaviorPattern) : json :=
  JDict [("conditions"%string, JDict (conditions p));
         ("actions"%string, JList (map (fun a => JStr (action_value a)) (actions p)));
         ("success_rate"%string, JFloat (success_rate p));
         ("usage_count"%string, JInt (usage_count p));
         ("effectiveness_history"%string,
          JList (map JBool (effectiveness_history p)))].

(** The [pattern_data] dict of [save_patterns]. *)
Definition pattern_data_of (ps : dict string BehaviorPattern)
    : dict string json :=
  fold_left (fun data kp => dict_set String.eqb (fst kp) (pattern_to_json (snd kp)) data)
            ps [].

(** [GenerativeBehaviorModel.save_patterns]. *)
Definition save_patterns (self : GenerativeBehaviorModel) (fs : filesystem)
    (filename : string) : filesystem :=
  json_dump fs filename (JDict (pattern_data_of (patterns self))).

(** [obj.items()]. *)
Definition json_items (v : json) : result (list (string * json)) :=
  match v with
  | JDict d => Ok d
  | JNull => Raise (AttributeError "NoneType" "items")
  | JBool _ => Raise (AttributeError "bool" "items")
  | JInt _ => Raise (AttributeError "int" "items")
  | JFloat _ => Raise (AttributeError "float" "items")
  | JStr _ => Raise (AttributeError "str" "items")
  | JList _ => Raise (AttributeError "list" "items")
  end.

(** [obj[key]] with a string key. *)
Definition json_getitem (v : json) (key : string) : result json :=
  match v with
  | JDict d =>
      match dict_get String.eqb key d with
      | Some x => Ok x
      | None => Raise (KeyError key)
      end
  | JList _ => Raise (TypeError "list indices must be integers or slices, not str")
  | JStr _ => Raise (TypeError "string indices must be integers, not 'str'")
  | _ => Raise (TypeError "object is not subscriptable")
  end.

(** The characters of a string as one-character strings. *)
Fixpoint chars (s : string) : list json :=
  match s with
  | EmptyString => []
  | String c s' => JStr (String c EmptyString) :: chars s'
  end.

(** [for x in obj]. *)
Definition json_iter (v : json) : result (list json) :=
  match v with
  | JList l => Ok l
  | JStr s => Ok (chars s)
  | JDict d => Ok (map (fun kv => JStr (fst kv)) d)
  | _ => Raise (TypeError "object is not iterable")
  end.

(** [ActionType(action_str)]: lookup of a member by value. *)
Definition ActionType_of_value (v : json) : result ActionType :=
  match v with
  | JStr s =>
      if String.eqb s "eat" then Ok EAT
      else if String.eqb s "work" then Ok WORK
      else if String.eqb s "sleep" then Ok SLEEP
      else if String.eqb s "socialize" then Ok SOCIALIZE
      else if String.eqb s "idle" then Ok IDLE
      else Raise (ValueError "is not a valid ActionType")
  | _ => Raise (ValueError "is not a valid ActionType")
  end.

(** A list comprehension whose element expression may raise. *)
Fixpoint map_result {A B} (f : A -> result B) (xs : list A) : result (list B) :=
  match xs with
  | [] => Ok []
  | x :: xs' =>
      (y <- f x;;
       ys <- map_result f xs';;
       Ok (y :: ys))%res
  end.

(** [data.get(key, default)] on the dict [data]. *)
Definition json_get (v : json) (key : string) (default : json) : json :=
  match v with
  | JDict d =>
      match dict_get String.eqb key d with
      | Some x => x
      | None => default
      end
  | _ => default
  end.

(** A [BehaviorPattern] object whose attributes hold values of any type.
    [BehaviorPattern.__init__] stores its arguments as they are and
    [load_patterns] passes it what the file holds, without a test of its
    type: after a load the store holds such objects. *)
Record UntypedPattern : Type := mkUntypedPattern {
  u_pattern_id : string;
  u_conditions : json;
  u_actions : list ActionType;
  u_success_rate : json;
  u_usage_count : json;
  u_last_used : Z;
  u_effectiveness_history : json
}.

(** A pattern whose attributes have the annotated types ([Dict], [float],
    [int], a list of bools), as such an object. *)
Definition untyped (p : BehaviorPattern) : UntypedPattern :=
  mkUntypedPattern (pattern_id p) (JDict (conditions p)) (actions p)
    (JFloat (success_rate p)) (JInt (usage_count p)) (last_used p)
    (JList (map JBool (effectiveness_history p))).

Definition untyped_store (ps : dict string BehaviorPattern)
    : dict string UntypedPattern :=
  map (fun kp => (fst kp, untyped (snd kp))) ps.

(** The pattern built from one item of [pattern_data] in [load_patterns]:
    the action names are looked up, every other field is stored as found,
    and [last_used] starts at 0. *)
Definition pattern_of_json (id : string) (data : json) : result UntypedPattern :=
  (stored_actions <- json_getitem data "actions";;
   action_strs <- json_iter stored_actions;;
   acts <- map_result ActionType_of_value action_strs;;
   stored_conditions <- json_getitem data "conditions";;
   stored_rate <- json_getitem data "success_rate";;
   stored_usage <- json_getitem data "usage_count";;
   Ok (mkUntypedPattern id stored_conditions acts stored_rate stored_usage 0
         (json_get data "effectiveness_history" (JList []))))%res.

(** The [for pattern_id, data in pattern_data.items()] loop: patterns
    stored before an item raises stay in [self.patterns]. *)
Fixpoint load_items (items : list (string * json))
    (ps : dict string UntypedPattern)
    : dict string UntypedPattern * result unit :=
  match items with
  | [] => (ps, Ok tt)
  | (id, data) :: items' =>
      match pattern_of_json id data with
      | Ok pattern => load_items items' (dict_set String.eqb id pattern ps)
      | Raise e => (ps, Raise e)
      end
  end.

(** The [try] block of [load_patterns] on the [patterns] dict of the
    miner, with the dict as the block leaves it. *)
Definition load_try (ps : dict string UntypedPattern) (fs : filesystem)
    (filename : string) : dict string UntypedPattern * result unit :=
  match (f <- open_read fs filename;;
         pattern_data <- json_load f;;
         json_items pattern_data)%res with
  | Raise e => (ps, Raise e)
  | Ok items => load_items items ps
  end.

(** [GenerativeBehaviorModel.load_patterns]: the [patterns] dict of the
    miner after the call, which assigns to no other attribute, and
    [Ok tt] when the call returns or the exception that leaves it.  The
    only handler is [except FileNotFoundError: pass]. *)
Definition load_patterns (self : GenerativeBehaviorModel) (fs : filesystem)
    (filename : string) : dict string UntypedPattern * result unit :=
  let (ps, r) := load_try (untyped_store (patterns self)) fs filename in
  match r with
  | Raise FileNotFoundError => (ps, Ok tt)
  | _ => (ps, r)
  end.

(* ================================================================= *)
(** ** environment.py: what the orchestrator phases use *)

Inductive LocationType : Type := HOME | WORKPLACE | RESTAURANT | SOCIAL_AREA | PARK.

Record Location : Type := mkLocation {
  loc_name : string;
  location_type : LocationType;
  capacity : nat;
  current_occupants : list nat
}.

Record SimulationEnvironment : Type := mkSimulationEnvironment {
  locations : dict string Location;
  social_network : dict nat (dict nat Q);
  total_interactions : Z
}.

(** [d.get(k, 0.0)]. *)
Definition get_or_zero (d : dict nat Q) (k : nat) : Q :=
  match dict_get Nat.eqb k d with Some x => x | None => 0 end.

(** [network[a]] once [a] is known to be a key. *)
Definition row (network : dict nat (dict nat Q)) (a : nat) : dict nat Q :=
  match dict_get Nat.eqb a network with Some r => r | None => [] end.

(** [SimulationEnvironment.create_social_connection]. *)
Definition create_social_connection (env : SimulationEnvironment)
    (agent1_id agent2_id : nat) (strength : Q) : SimulationEnvironment :=
  let n0 := social_network env in
  let n1 := if dict_mem Nat.eqb agent1_id n0 then n0
            else dict_set Nat.eqb agent1_id [] n0 in
  let n2 := if dict_mem Nat.eqb agent2_id n1 then n1
            else dict_set Nat.eqb agent2_id [] n1 in
  let current_strength1 := get_or_zero (row n2 agent1_id) agent2_id in
  let current_strength2 := get_or_zero (row n2 agent2_id) agent1_id in
  let n3 :=
    dict_update Nat.eqb agent1_id
      (dict_set Nat.eqb agent2_id (py_min 1 (current_strength1 + strength))) n2 in
  let n4 :=
    dict_update Nat.eqb agent2_id
      (dict_set Nat.eqb agent1_id (py_min 1 (current_strength2 + strength))) n3 in
  mkSimulationEnvironment (locations env) n4 (total_interactions env + 1).

(* ================================================================= *)
(** ** simulation.py: the social and the suggestion phase *)

(** The payloads handed to [trigger_event]. *)
Inductive Event : Type :=
| social_interaction (agent1 agent2 location : string) (time : Q)
| agent_action (agent act : string) (ai_suggested success : bool) (time : Q).

(** A row written by [metrics.record_agent_action]. *)
Record ActionRow : Type := mkActionRow {
  row_agent : nat;
  row_action : ActionType;
  row_success : bool;
  row_reward : Q
}.

(** The engine.  [events] lists the calls of [trigger_event] and
    [metrics_rows] those of [record_agent_action], oldest first;
    [rng k] is the value of the [k]-th [random.random()] and [draws] counts
    the calls made; [clock] is [time.time()]. *)
Record SimulationEngine : Type := mkSimulationEngine {
  agents : list VirtualHuman;
  environment : SimulationEnvironment;
  behavior_model : GenerativeBehaviorModel;
  time_step : Q;
  social_interactions : Z;
  total_time : Q;
  events : list Event;
  metrics_rows : list ActionRow;
  rng : nat -> Q;
  draws : nat;
  clock : Q
}.

(** Code that mutates the engine and may raise: the engine at the end, or
    at the raise. *)
Definition Sim (A : Type) : Type := SimulationEngine -> SimulationEngine * result A.

Definition sim_ret {A} (a : A) : Sim A := fun s => (s, Ok a).

Definition sim_bind {A B} (c : Sim A) (k : A -> Sim B) : Sim B :=
  fun s =>
    match c s with
    | (s', Ok a) => k a s'
    | (s', Raise e) => (s', Raise e)
    end.

Definition sim_lift {A} (r : result A) : Sim A := fun s => (s, r).

Definition sim_get : Sim SimulationEngine := fun s => (s, Ok s).

Definition sim_modify (f : SimulationEngine -> SimulationEngine) : Sim unit :=
  fun s => (f s, Ok tt).

Declare Scope sim_scope.
Delimit Scope sim_scope with sim.
Notation "x <- c ;; k" := (sim_bind c (fun x => k))
  (at level 61, c at next level, right associativity) : sim_scope.
Notation "c ;;; k" := (sim_bind c (fun _ => k))
  (at level 61, right associativity) : sim_scope.

(** A [for] loop over a list fixed before the loop starts. *)
Fixpoint sim_for {A} (xs : list A) (body : A -> Sim unit) : Sim unit :=
  match xs with
  | [] => sim_ret tt
  | x :: xs' => sim_bind (body x) (fun _ => sim_for xs' body)
  end.

Definition with_agents (s : SimulationEngine) (l : list VirtualHuman)
    : SimulationEngine :=
  mkSimulationEngine l (environment s) (behavior_model s) (time_step s)
    (social_interactions s) (total_time s) (events s) (metrics_rows s)
    (rng s) (draws s) (clock s).

Definition with_environment (s : SimulationEngine) (e : SimulationEnvironment)
    : SimulationEngine :=
  mkSimulationEngine (agents s) e (behavior_model s) (time_step s)
    (social_interactions s) (total_time s) (events s) (metrics_rows s)
    (rng s) (draws s) (clock s).

Definition with_behavior_model (s : SimulationEngine)
    (m : GenerativeBehaviorModel) : SimulationEngine :=
  mkSimulationEngine (agents s) (environment s) m (time_step s)
    (social_interactions s) (total_time s) (events s) (metrics_rows s)
    (rng s) (draws s) (clock s).

(** [random.random()]. *)
Definition random_random : Sim Q :=
  fun s =>
    (mkSimulationEngine (agents s) (environment s) (behavior_model s)
       (time_step s) (social_interactions s) (total_time s) (events s)
       (metrics_rows s) (rng s) (S (draws s)) (clock s),
     Ok (rng s (draws s))).

(** [SimulationEngine.trigger_event]: every subscriber is handed the
    payload; what a subscriber raises is caught there. *)
Definition trigger_event (e : Event) : Sim unit :=
  sim_modify (fun s =>
    mkSimulationEngine (agents s) (environment s) (behavior_model s)
      (time_step s) (social_interactions s) (total_time s) (events s ++ [e])
      (metrics_rows s) (rng s) (draws s) (clock s)).

(** [self.metrics.record_agent_action(...)]. *)
Definition record_agent_action (r : ActionRow) : Sim unit :=
  sim_modify (fun s =>
    mkSimulationEngine (agents s) (environment s) (behavior_model s)
      (time_step s) (social_interactions s) (total_time s) (events s)
      (metrics_rows s ++ [r]) (rng s) (draws s) (clock s)).

(** [self.stats['social_interactions'] += 1]. *)
Definition count_social_interaction : Sim unit :=
  sim_modify (fun s =>
    mkSimulationEngine (agents s) (environment s) (behavior_model s)
      (time_step s) (social_interactions s + 1) (total_time s) (events s)
      (metrics_rows s) (rng s) (draws s) (clock s)).

(** [self.agents[i]]. *)
Definition agent_at (i : nat) : Sim VirtualHuman :=
  fun s =>
    match nth_error (agents s) i with
    | Some a => (s, Ok a)
    | None => (s, Raise IndexError)
    end.

(** In-place mutation of the agent object [self.agents[i]]. *)
Definition update_agent (i : nat) (f : VirtualHuman -> VirtualHuman) : Sim unit :=
  sim_modify (fun s =>
    match nth_error (agents s) i with
    | Some a => with_agents s (list_set i (f a) (agents s))
    | None => s
    end).

Definition with_needs (a : VirtualHuman) (n : Needs) : VirtualHuman :=
  mkVirtualHuman
    (agent_id a) (name a) n (money a) (mood a) (personality a) (habits a)
    (current_action a) (action_duration a) (position a) (energy_level a)
    (decision_weights a) (learning_rate a) (action_rewards a)
    (action_counts a) (memory a) (total_actions a) (action_history a)
    (satisfaction_history a).

(** [self.agents[i].needs[key].satisfy(amount)]. *)
Definition satisfy_need (i : nat) (key : string) (amount : Q) : Sim unit :=
  (a <- agent_at i;;
   need <- sim_lift (needs_getitem (needs a) key);;
   update_agent i (fun a' =>
     with_needs a' (needs_store (needs a') key (NeedOps.satisfy need amount))))%sim.

(** The pairs [(xs[i], y)] with [y] in [xs[i+1:]], in loop order. *)
Fixpoint pairs_after (xs : list nat) : list (nat * nat) :=
  match xs with
  | [] => []
  | x :: xs' => map (fun y => (x, y)) xs' ++ pairs_after xs'
  end.

(** [interaction_prob] of [process_social_interactions]. *)
Definition interaction_prob (agent1 agent2 : VirtualHuman) : Q :=
  (extraversion (personality agent1) + extraversion (personality agent2)) / 2
  * (agreeableness (personality agent1) + agreeableness (personality agent2)) / 2.

(** Body of the innermost loop of [process_social_interactions]. *)
Definition interact (location : Location) (pair : nat * nat) : Sim unit :=
  let (agent1_id, agent2_id) := pair in
  (agent1 <- agent_at agent1_id;;
   agent2 <- agent_at agent2_id;;
   if action_eqb (current_action agent1) SOCIALIZE
      || action_eqb (current_action agent2) SOCIALIZE
   then
     roll <- random_random;;
     if Qltb roll (interaction_prob agent1 agent2 * (3#10)) then
       sim_modify (fun s =>
         with_environment s
           (create_social_connection (environment s) agent1_id agent2_id (5#100)));;;
       satisfy_need agent1_id "social" (1#10);;;
       satisfy_need agent2_id "social" (1#10);;;
       count_social_interaction;;;
       s <- sim_get;;
       trigger_event
         (social_interaction (name agent1) (name agent2) (loc_name location)
            (total_time s))
     else sim_ret tt
   else sim_ret tt)%sim.

(** [SimulationEngine.process_social_interactions]. *)
Definition process_social_interactions : Sim unit :=
  (s <- sim_get;;
   sim_for (dict_values (locations (environment s))) (fun location =>
     if Nat.ltb 1 (List.length (current_occupants location))
     then sim_for (pairs_after (current_occupants location)) (interact location)
     else sim_ret tt))%sim.

(** The names bound on a [SimulationEngine] object: the attributes set by
    [__init__] and the methods of the class body.  The class defines no
    [__getattr__]. *)
Definition SimulationEngine_attributes : list string :=
  ["num_agents"; "world_size"; "environment"; "behavior_model"; "agents";
   "metrics"; "running"; "paused"; "simulation_speed"; "time_step";
   "real_time_factor"; "stats"; "step_start_time"; "event_callbacks";
   "log_data"; "log_interval"; "last_log_time";
   "_create_agents"; "add_event_callback"; "trigger_event";
   "update_agent_locations"; "process_social_interactions";
   "apply_behavior_model_suggestions"; "update_simulation_statistics";
   "log_simulation_data"; "step"; "run"; "pause"; "resume"; "stop";
   "set_speed"; "get_agent_by_id"; "get_agent_by_name";
   "get_simulation_state"; "save_log_data"; "load_log_data"]%string.

(** The attribute lookup [self.attr] on the engine. *)
Definition engine_getattr (attr : string) : result unit :=
  if existsb (String.eqb attr) SimulationEngine_attributes then Ok tt
  else Raise (AttributeError "SimulationEngine" attr).

Definition with_current_action (a : VirtualHuman) (act : ActionType)
    (duration : Q) : VirtualHuman :=
  mkVirtualHuman
    (agent_id a) (name a) (needs a) (money a) (mood a) (personality a)
    (habits a) act duration (position a) (energy_level a)
    (decision_weights a) (learning_rate a) (action_rewards a)
    (action_counts a) (memory a) (total_actions a) (action_history a)
    (satisfaction_history a).

(** [agent.total_actions += 1; agent.action_history.append(act)]. *)
Definition count_action (a : VirtualHuman) (act : ActionType) : VirtualHuman :=
  mkVirtualHuman
    (agent_id a) (name a) (needs a) (money a) (mood a) (personality a)
    (habits a) (current_action a) (action_duration a) (position a)
    (energy_level a) (decision_weights a) (learning_rate a)
    (action_rewards a) (action_counts a) (memory a) (total_actions a + 1)
    (action_history a ++ [act]) (satisfaction_history a).

(** [agent.perform_action(act, dt)] on the agent object [self.agents[i]]. *)
Definition agent_perform_action (i : nat) (act : ActionType) (dt : Q) : Sim bool :=
  (a <- agent_at i;;
   s <- sim_get;;
   let (a', success) := perform_action a act dt (clock s) in
   update_agent i (fun _ => a');;;
   sim_ret success)%sim.

(** [agent.memory[-1]['reward'] if agent.memory else 0.0]. *)
Definition last_reward (a : VirtualHuman) : result Q :=
  match last_n 1 (memory a) with
  | m :: _ => (v <- memory_getitem m "reward";; as_number v)%res
  | [] => Ok 0
  end.

(** Body of the loop of [apply_behavior_model_suggestions] for the agent
    at position [i].  The call [self.perform_action(...)] looks the name up
    on the engine; the lines after it are those of the source, with the
    call read as the agent's method. *)
Definition apply_suggestion (i : nat) : Sim unit :=
  (agent <- agent_at i;;
   roll <- random_random;;
   s <- sim_get;;
   let (model', suggestion) :=
     suggest_action (behavior_model s) agent roll (clock s) in
   sim_modify (fun s' => with_behavior_model s' model');;;
   match suggestion with
   | None => sim_ret tt
   | Some suggested_action =>
       let old_action := current_action agent in
       r <- random_random;;
       update_agent i (fun a =>
         with_current_action a suggested_action (uniform 1 3 r));;;
       sim_lift (engine_getattr "perform_action");;;
       success <- agent_perform_action i suggested_action (time_step s);;
       update_agent i (fun a => count_action a suggested_action);;;
       agent' <- agent_at i;;
       reward <- sim_lift (last_reward agent');;
       record_agent_action (mkActionRow (agent_id agent') suggested_action success reward);;;
       s1 <- sim_get;;
       sim_modify (fun s' =>
         with_behavior_model s'
           (update_pattern_effectiveness (behavior_model s') agent'
              suggested_action success (clock s1)));;;
       if negb (action_eqb old_action suggested_action) then
         s2 <- sim_get;;
         trigger_event
           (agent_action (name agent') (action_value suggested_action) true
              success (total_time s2))
       else sim_ret tt
   end)%sim.

(** [SimulationEngine.apply_behavior_model_suggestions]. *)
Definition apply_behavior_model_suggestions : Sim unit :=
  (s <- sim_get;;
   sim_for (seq 0 (List.length (agents s))) apply_suggestion)%sim.

(* ================================================================= *)
(** ** Concrete agents, stores and engines used by the examples *)

Module Scenario.

(** An agent built by [__init__] when every draw is 0.5: hunger 35,
    energy 75, happiness 55, social need 35, money 300, every trait 0.5. *)
Definition alice : VirtualHuman := VirtualHuman_init 0 (Some "Alice"%string) (fun _ => 1#2).

Definition bob : VirtualHuman := VirtualHuman_init 1 (Some "Bob"%string) (fun _ => 1#2).

Definition with_money (a : VirtualHuman) (m : Q) : VirtualHuman :=
  mkVirtualHuman
    (agent_id a) (name a) (needs a) m (mood a) (personality a) (habits a)
    (current_action a) (action_duration a) (position a) (energy_level a)
    (decision_weights a) (learning_rate a) (action_rewards a)
    (action_counts a) (memory a) (total_actions a) (action_history a)
    (satisfaction_history a).

Definition with_hunger (a : VirtualHuman) (h : Q) : VirtualHuman :=
  with_needs a
    (mkNeeds (with_value (hunger (needs a)) h) (energy (needs a))
       (happiness (needs a)) (social_need (needs a))).

(** Hunger 50 and money 10. *)
Definition hungry : VirtualHuman := with_money (with_hunger alice 50) 10.

(** Money 5: just enough to pass the guard of EAT. *)
Definition poor : VirtualHuman := with_money alice 5.

(** [n] idle steps of 0.1 at clock 0. *)
Fixpoint idle_for (n : nat) (a : VirtualHuman) : VirtualHuman :=
  match n with
  | O => a
  | S n' => idle_for n' (fst (perform_action a IDLE (1#10) 0))
  end.

(** An agent with ten memory records. *)
Definition veteran : VirtualHuman := idle_for 10 alice.

(** Conditions that describe [alice] at clock 0. *)
Definition like_alice : dict string json :=
  [("hunger"%string, JFloat 35); ("energy"%string, JFloat 75);
   ("happiness"%string, JFloat 55); ("social_need"%string, JFloat 35);
   ("time_of_day"%string, JFloat 0)].

(** Used ten times, one success in ten. *)
Definition failing : BehaviorPattern :=
  mkBehaviorPattern "pattern_0_0" like_alice [EAT; WORK; SLEEP] (1#10) 10 3
    [false; false; false; false; true; false; false; false; false; false].

(** Established and successful. *)
Definition proven : BehaviorPattern :=
  mkBehaviorPattern "pattern_1_1" like_alice [SLEEP; EAT; WORK] (9#10) 7 0
    [true; true; true; true; true; true; true; true; true; false].

Definition miner : GenerativeBehaviorModel :=
  mkGenerativeBehaviorModel
    [("pattern_0_0"%string, failing); ("pattern_1_1"%string, proven)]
    2 (1#10) (2#10) 5.



(** Draws under which the first successful pattern is mutated and its
    first two actions are swapped. *)
Definition eager_draws : nat -> MutationDraws :=
  fun _ => mkMutationDraws 0 (fun _ => 1#2) 0 (0%nat, 1%nat).

(** Two agents in one place, the first of them socializing. *)
Definition cafe : Location := mkLocation "Cafe" SOCIAL_AREA 10 [0%nat; 1%nat].

Definition party : SimulationEngine :=
  mkSimulationEngine
    [with_current_action alice SOCIALIZE 2; bob]
    (mkSimulationEnvironment [("Cafe"%string, cafe)] [] 0)
    GenerativeBehaviorModel_init
    (1#10) 0 0 [] [] (fun _ => 0) 0 0.

(** Two idle agents and a miner holding an established pattern that
    matches them. *)
Definition advised : SimulationEngine :=
  mkSimulationEngine
    [alice; bob]
    (mkSimulationEnvironment [] [] 0)
    miner
    (1#10) 0 0 [] [] (fun _ => 1#2) 0 0.

End Scenario.

(* ================================================================= *)
(** ** Predicates used in the statements *)



(** The removal test of [evolve_patterns] in words: used at least twice
    the establishment minimum with a success rate under 0.3, or aged
    beyond 100 with fewer uses than the establishment minimum. *)
Definition removal_condition (min_usage : Z) (p : BehaviorPattern) : Prop :=
  ((min_usage * 2 <= usage_count p)%Z /\ success_rate p < 3#10)
  \/ ((100 < last_used p)%Z /\ (usage_count p < min_usage)%Z).

(** What one call of [evolve_patterns] leaves under [id] of the patterns
    that were in the store: nothing when the aged pattern meets the
    removal test, the aged pattern otherwise. *)
Definition aged_survivor (min_usage : Z) (old : option BehaviorPattern)
    : option BehaviorPattern :=
  match old with
  | Some p => if to_remove min_usage (age p) then None else Some (age p)
  | None => None
  end.

(** The pattern [load_patterns] rebuilds under [id] from what
    [save_patterns] stored for [p]: the recency counter starts again at 0
    and the id is the key. *)
Definition reloaded (id : string) (p : BehaviorPattern) : BehaviorPattern :=
  mkBehaviorPattern id (conditions p) (actions p) (success_rate p)
    (usage_count p) 0 (effectiveness_history p).

(** The phase left no trace on the agents, on the interaction counter or
    on the event log, and a phase that returned left none on the
    environment either. *)
Definition no_interaction (s s' : SimulationEngine) (r : result unit) : Prop :=
  agents s' = agents s
  /\ social_interactions s' = social_interactions s
  /\ events s' = events s
  /\ (r = Ok tt -> environment s' = environment s).

(** The phase performed no action and reported none: memories, needs and
    money of the agents, the metrics rows and the event log are as they
    were, and a phase that returned left the agents as they were. *)
Definition no_performance (s s' : SimulationEngine) (r : result unit) : Prop :=
  map memory (agents s') = map memory (agents s)
  /\ map needs (agents s') = map needs (agents s)
  /\ map money (agents s') = map money (agents s)
  /\ metrics_rows s' = metrics_rows s
  /\ events s' = events s
  /\ (r = Ok tt -> agents s' = agents s).

From Stdlib Require Import Permutation.

(* ================================================================= *)
(** ** agent.py: needs over time, utilities and the update step *)

(** A run of [Habit.reinforce] calls, oldest outcome first. *)
Definition reinforce_all (h : Habit) (outcomes : list bool) : Habit :=
  fold_left reinforce outcomes h.

Definition with_needs_mood (a : VirtualHuman) (n : Needs) (m : Q) : VirtualHuman :=
  mkVirtualHuman
    (agent_id a) (name a) n (money a) m (personality a) (habits a)
    (current_action a) (action_duration a) (position a) (energy_level a)
    (decision_weights a) (learning_rate a) (action_rewards a)
    (action_counts a) (memory a) (total_actions a) (action_history a)
    (satisfaction_history a).

(** [VirtualHuman.update_needs]. *)
Definition update_needs (self : VirtualHuman) (dt : Q) : VirtualHuman :=
  let n := needs self in
  let hunger' :=
    with_value (hunger n)
      (py_min 100 (value (hunger n) + decay_rate (hunger n) * dt)) in
  let energy' :=
    if negb (action_eqb (current_action self) SLEEP) then
      with_value (energy n)
        (py_max 0 (value (energy n) - decay_rate (energy n) * dt))
    else energy n in
  let social_need' :=
    with_value (social_need n)
      (py_min 100 (value (social_need n) + decay_rate (social_need n) * dt)) in
  let happiness' :=
    with_value (happiness n)
      (py_max 0 (value (happiness n) - decay_rate (happiness n) * dt)) in
  let overall_satisfaction :=
    (100 - value hunger' + value energy'
     + 100 - value social_need' + value happiness') / 400 in
  with_needs_mood self
    (mkNeeds hunger' energy' happiness' social_need')
    ((7#10) * mood self + (3#10) * overall_satisfaction).

(** The need-based term of [calculate_action_utility]. *)
Definition need_utility (self : VirtualHuman) (act : ActionType) : Q :=
  let n := needs self in
  match act with
  | EAT =>
      0 + value (hunger n) / 100 * 3 - money self * (1#1000)
  | SLEEP =>
      0 + (100 - value (energy n)) / 100 * (25#10)
  | SOCIALIZE =>
      0 + value (social_need n) / 100 * sociability (personality self) * 2
        - money self * (5#10000)
  | WORK =>
      0 + ambition (personality self) * (15#10)
        + (if Qltb (money self) 200 then 1 else 5#10)
        - (100 - value (energy n)) / 100 * (5#10)
  | IDLE => 0
  end.

(** The habit term: present for the actions that have a habit. *)
Definition habit_utility (self : VirtualHuman) (act : ActionType) (now : Q) : Q :=
  match dict_get action_eqb act (habits self) with
  | Some habit =>
      let time_of_day := get_time_of_day now in
      let time_match := 1 - py_abs (time_of_day - time_preference habit) in
      strength habit * time_match * habit_strength (decision_weights self) * 5
  | None => 0
  end.

(** The personality multiplier. *)
Definition personality_factor (self : VirtualHuman) (act : ActionType) : Q :=
  match act with
  | SOCIALIZE => (3#10) + sociability (personality self) * (7#10)
  | WORK => (3#10) + discipline (personality self) * (7#10)
  | EAT => (5#10) + discipline (personality self) * (5#10)
  | _ => 1
  end.

(** The reinforcement term. *)
Definition learned_utility (self : VirtualHuman) (act : ActionType) : Q :=
  if Z.ltb 0 (pa_get (action_counts self) act) then
    pa_get (action_rewards self) act / inject_Z (pa_get (action_counts self) act)
    * (5#10)
  else 0.

(** [VirtualHuman.calculate_action_utility]; [now] is the clock read by
    [get_time_of_day] and [noise_roll] the draw under
    [random.uniform(-0.3, 0.3)]. *)
Definition calculate_action_utility (self : VirtualHuman) (act : ActionType)
    (now noise_roll : Q) : Q :=
  let utility := need_utility self act + habit_utility self act now in
  let utility := utility * personality_factor self act in
  let utility := utility * ((7#10) + mood self * (6#10)) in
  let utility := utility + learned_utility self act in
  let utility := utility + uniform (- (3#10)) (3#10) noise_roll in
  py_max 0 utility.

(** [a <= b] on floats. *)
Definition Qleb (a b : Q) : bool := negb (Qltb b a).

Definition with_action_duration (a : VirtualHuman) (d : Q) : VirtualHuman :=
  with_current_action a (current_action a) d.

Definition with_satisfaction (a : VirtualHuman) (x : Q) : VirtualHuman :=
  mkVirtualHuman
    (agent_id a) (name a) (needs a) (money a) (mood a) (personality a)
    (habits a) (current_action a) (action_duration a) (position a)
    (energy_level a) (decision_weights a) (learning_rate a)
    (action_rewards a) (action_counts a) (memory a) (total_actions a)
    (action_history a) (satisfaction_history a ++ [x]).

(** [sum(need.value for need in self.needs.values()) / len(self.needs)]. *)
Definition satisfaction_of (n : Needs) : Q :=
  (0 + value (hunger n) + value (energy n) + value (happiness n)
   + value (social_need n)) / 4.

(** [VirtualHuman.update].  [decide_action] samples an action from the
    softmax of the utilities; the action it returns is the input
    [decided], used only when the agent is due to decide.
    [duration_roll] is the draw under [random.uniform(1.0, 3.0)], [now]
    the clock. *)
Definition update (self : VirtualHuman) (dt : Q) (decided : ActionType)
    (duration_roll now : Q) : VirtualHuman :=
  let s1 := update_needs self dt in
  let s2 :=
    if Qleb (action_duration s1) 0 then
      let s := with_current_action s1 decided (uniform 1 3 duration_roll) in
      let s' := fst (perform_action s decided dt now) in
      let s'' := count_action s' decided in
      with_satisfaction s'' (satisfaction_of (needs s''))
    else s1 in
  with_action_duration s2 (action_duration s2 - dt).

(** All four needs on their scale. *)
Definition needs_in_range (n : Needs) : Prop :=
  NeedOps.in_range (hunger n) /\ NeedOps.in_range (energy n)
  /\ NeedOps.in_range (happiness n) /\ NeedOps.in_range (social_need n).

(** No decay rate is negative. *)
Definition rates_nonneg (n : Needs) : Prop :=
  0 <= decay_rate (hunger n) /\ 0 <= decay_rate (energy n)
  /\ 0 <= decay_rate (happiness n) /\ 0 <= decay_rate (social_need n).

Definition unit_interval (x : Q) : Prop := 0 <= x /\ x <= 1.

Definition with_energy (a : VirtualHuman) (e : Q) : VirtualHuman :=
  with_needs a
    (mkNeeds (hunger (needs a)) (with_value (energy (needs a)) e)
       (happiness (needs a)) (social_need (needs a))).

(** The guard that [perform_action] checks for an action. *)
Definition feasible (self : VirtualHuman) (act : ActionType) : Prop :=
  match act with
  | EAT => 10 < value (hunger (needs self)) /\ 5 <= money self
  | SLEEP => value (energy (needs self)) < 90
  | SOCIALIZE => 5 < value (social_need (needs self)) /\ 3 <= money self
  | WORK => 20 < value (energy (needs self))
  | IDLE => True
  end.

(** Every habit strength in [0,1]. *)
Definition strengths_in_range (hs : dict ActionType Habit) : Prop :=
  Forall (fun kh => unit_interval (strength (snd kh))) hs.

(* ================================================================= *)
(** ** behavior_model.py: predicates of the statements *)

(** The test of the loop of [update_pattern_effectiveness]: the pattern
    matches the agent's state and starts with the suggested action. *)
Definition credited (agent_state : dict string Q) (suggested : ActionType)
    (p : BehaviorPattern) : bool :=
  matches_conditions p agent_state (8#10)
  && match actions p with
     | [] => false
     | a :: _ => action_eqb a suggested
     end.

(** How [_create_pattern_mutation] turns a condition value: a number
    becomes a float in [0,1], anything else is kept. *)
Definition perturbed (v v' : json) : Prop :=
  match json_number v with
  | Some _ => exists q, v' = JFloat q /\ unit_interval q
  | None => v' = v
  end.

(* ================================================================= *)
(** ** environment.py: occupancy and the social network *)

Definition with_occupants (l : Location) (occupants : list nat) : Location :=
  mkLocation (loc_name l) (location_type l) (capacity l) occupants.

(** [Location.can_accommodate]. *)
Definition can_accommodate (l : Location) (agent_id : nat) : bool :=
  Nat.ltb (List.length (current_occupants l)) (capacity l).

(** [agent_id in self.current_occupants]. *)
Definition is_occupant (l : Location) (agent_id : nat) : bool :=
  existsb (Nat.eqb agent_id) (current_occupants l).

(** [Location.add_occupant]. *)
Definition add_occupant (l : Location) (agent_id : nat) : Location :=
  if can_accommodate l agent_id && negb (is_occupant l agent_id)
  then with_occupants l (current_occupants l ++ [agent_id])
  else l.





(** [SimulationEnvironment.get_social_opportunities]. *)
Definition get_social_opportunities (env : SimulationEnvironment)
    (agent_id : nat) (location_name : string) : list nat :=
  match dict_get String.eqb location_name (locations env) with
  | None => []
  | Some location =>
      filter (fun occupant => negb (Nat.eqb occupant agent_id))
             (current_occupants location)
  end.

(** [SimulationEnvironment.get_social_connections]. *)
Definition get_social_connections (env : SimulationEnvironment)
    (agent_id : nat) : dict nat Q :=
  row (social_network env) agent_id.

(** The strength [get_social_connections(x).get(y, 0.0)]. *)
Definition connection (env : SimulationEnvironment) (x y : nat) : Q :=
  get_or_zero (get_social_connections env x) y.

(* ================================================================= *)
(** ** simulation.py: predicates of the statements *)

(** [s'] is [s] after [k] more draws: nothing else differs. *)
Definition after_draws (k : nat) (s s' : SimulationEngine) : Prop :=
  agents s' = agents s
  /\ environment s' = environment s
  /\ behavior_model s' = behavior_model s
  /\ social_interactions s' = social_interactions s
  /\ events s' = events s
  /\ metrics_rows s' = metrics_rows s
  /\ total_time s' = total_time s
  /\ time_step s' = time_step s
  /\ clock s' = clock s
  /\ rng s' = rng s
  /\ draws s' = (draws s + k)%nat.

(** Every occupant of every location is the position of an agent. *)
Definition occupants_known (s : SimulationEngine) : Prop :=
  Forall (fun kl =>
            Forall (fun id => (id < List.length (agents s))%nat)
                   (current_occupants (snd kl)))
         (locations (environment s)).

(** No stored pattern is both established and successful. *)
Definition cold (m : GenerativeBehaviorModel) : Prop :=
  Forall (fun kp => (usage_count (snd kp) < min_pattern_usage m)%Z
                    \/ success_rate (snd kp) <= 6#10)
         (patterns m).

(* ================================================================= *)
(** ** behavior_model.py: from a cluster to a pattern *)

(** [GenerativeBehaviorModel.extract_agent_state_vector]: the needs in
    dict order, five traits, the time of day, the current action one-hot
    in enum order, and the four habit strengths.  [now] is the clock that
    [agent.get_time_of_day()] reads in this call. *)
Definition extract_agent_state_vector (agent : VirtualHuman) (now : Q)
    : list Q :=
  map snd (needs_values (needs agent))
  ++ [openness (personality agent); conscientiousness (personality agent);
      extraversion (personality agent); agreeableness (personality agent);
      neuroticism (personality agent)]
  ++ [get_time_of_day now]
  ++ map (fun action_type =>
            if action_eqb (current_action agent) action_type then 1 else 0)
         all_actions
  ++ map (fun action_type =>
            match dict_get action_eqb action_type (habits agent) with
            | Some h => strength h
            | None => 0
            end)
         [EAT; WORK; SLEEP; SOCIALIZE].

Definition Qsum (xs : list Q) : Q := fold_right Qplus 0 xs.

(** The mean of a list of floats. *)
Definition mean (xs : list Q) : Q :=
  Qsum xs / inject_Z (Z.of_nat (List.length xs)).

(** [np.mean(states, axis=0)]: one mean per column of the vectors, which
    all have the length of the first. *)
Definition mean_axis0 (states : list (list Q)) : list Q :=
  match states with
  | [] => []
  | first :: _ =>
      map (fun i => mean (map (fun state => nth i state 0) states))
          (seq 0 (List.length first))
  end.

(** [float(avg_state[i])]. *)
Definition column (avg_state : list Q) (i : nat) : result Q :=
  match nth_error avg_state i with
  | Some x => Ok x
  | None => Raise IndexError
  end.

Fixpoint actions_eqb (xs ys : list ActionType) : bool :=
  match xs, ys with
  | [], [] => true
  | x :: xs', y :: ys' => action_eqb x y && actions_eqb xs' ys'
  | _, _ => false
  end.

(** The [action_counter] dict: each sequence seen, in first-seen order,
    with the number of times it was seen. *)
Definition count_sequences (action_sequences : list (list ActionType))
    : dict (list ActionType) Z :=
  fold_left
    (fun counter seq_key =>
       dict_set actions_eqb seq_key
         (match dict_get actions_eqb seq_key counter with
          | Some n => n
          | None => 0%Z
          end + 1)%Z
         counter)
    action_sequences [].

(** [GenerativeBehaviorModel._create_pattern_from_cluster]. *)
Definition _create_pattern_from_cluster (self : GenerativeBehaviorModel)
    (cluster_id : nat) (states : list (list Q))
    (action_sequences : list (list ActionType))
    : result GenerativeBehaviorModel :=
  let avg_state := mean_axis0 states in
  (c_hunger <- column avg_state 0;;
   c_energy <- column avg_state 1;;
   c_happiness <- column avg_state 2;;
   c_social_need <- column avg_state 3;;
   c_time_of_day <- column avg_state 9;;
   let conds :=
     [("hunger"%string, JFloat c_hunger); ("energy"%string, JFloat c_energy);
      ("happiness"%string, JFloat c_happiness);
      ("social_need"%string, JFloat c_social_need);
      ("time_of_day"%string, JFloat c_time_of_day)] in
   match count_sequences action_sequences with
   | [] => Ok self
   | first :: rest =>
       let most_common_seq :=
         fst (py_max_by (fun kv => inject_Z (snd kv)) first rest) in
       let id :=
         ("pattern_" ++ str_of_nat (pattern_counter self) ++ "_"
            ++ str_of_nat cluster_id)%string in
       Ok (mkGenerativeBehaviorModel
             (dict_set String.eqb id
                (BehaviorPattern_init id conds most_common_seq (1#2) 0)
                (patterns self))
             (S (pattern_counter self))
             (model_learning_rate self) (exploration_rate self)
             (min_pattern_usage self))
   end)%res.

(** How often [x] occurs in [xs]. *)
Definition occurrences (x : list ActionType) (xs : list (list ActionType)) : Z :=
  Z.of_nat (List.length (filter (actions_eqb x) xs)).

(** What the counter holds while the sequences are being counted. *)
Definition counts (c : dict (list ActionType) Z)
    (done : list (list ActionType)) : Prop :=
  dict_wf c
  /\ forall s, dict_get actions_eqb s c
               = if Z.eqb (occurrences s done) 0 then None
                 else Some (occurrences s done).

(* ================================================================= *)
(** * Properties *)

(** ** Arithmetic of the Python primitives *)

Module PyNumFacts.

Lemma Qltb_lt a b : Qltb a b = true <-> a < b.
Proof.
  unfold Qltb. rewrite Qlt_alt. destruct (a ?= b); split; congruence.
Qed.

Lemma Qltb_ge a b : Qltb a b = false <-> b <= a.
Proof.
  unfold Qltb. split; intro H.
  - apply Qnot_lt_le. rewrite Qlt_alt. destruct (a ?= b); congruence.
  - apply Qle_not_lt in H. rewrite Qlt_alt in H.
    destruct (a ?= b); congruence.
Qed.

Lemma Qltb_spec a b : reflect (a < b) (Qltb a b).
Proof.
  destruct (Qltb a b) eqn:E; constructor.
  - now apply Qltb_lt.
  - apply Qle_not_lt. now apply Qltb_ge.
Qed.

Lemma Qgeb_ge a b : Qgeb a b = true <-> b <= a.
Proof. unfold Qgeb. rewrite negb_true_iff. apply Qltb_ge. Qed.

Lemma py_min_le_l a b : py_min a b <= a.
Proof. unfold py_min. destruct (Qltb_spec b a); lra. Qed.

Lemma py_min_le_r a b : py_min a b <= b.
Proof. unfold py_min. destruct (Qltb_spec b a); lra. Qed.

Lemma py_min_glb a b c : c <= a -> c <= b -> c <= py_min a b.
Proof. unfold py_min. destruct (Qltb_spec b a); lra. Qed.

Lemma py_max_ge_l a b : a <= py_max a b.
Proof. unfold py_max. destruct (Qltb_spec a b); lra. Qed.

Lemma py_max_lub a b c : a <= c -> b <= c -> py_max a b <= c.
Proof. unfold py_max. destruct (Qltb_spec a b); lra. Qed.

End PyNumFacts.
Import PyNumFacts.

(* ================================================================= *)
(** ** Needs stay within their scale *)

Module NeedFacts.
Import NeedOps.

Lemma update_nonneg (n : Need) (dt : Q) : 0 <= value (update n dt).
Proof. apply py_max_ge_l. Qed.

Lemma satisfy_le_100 (n : Need) (amount : Q) : value (satisfy n amount) <= 100.
Proof. apply py_min_le_l. Qed.

Lemma update_in_range (n : Need) (dt : Q) :
  in_range n -> 0 <= decay_rate n -> 0 <= dt -> in_range (update n dt).
Proof.
  intros [Hlo Hhi] Hr Hdt. split; [apply update_nonneg|].
  simpl. apply py_max_lub; [lra|].
  pose proof (Qmult_le_0_compat _ _ Hr Hdt). lra.
Qed.

Lemma satisfy_in_range (n : Need) (amount : Q) :
  in_range n -> 0 <= amount -> in_range (satisfy n amount).
Proof.
  intros [Hlo Hhi] Ha. split; [|apply satisfy_le_100].
  simpl. apply py_min_glb; lra.
Qed.

Lemma do_call_decay_rate (n : Need) (c : call) :
  decay_rate (do_call n c) = decay_rate n.
Proof. destruct c; reflexivity. Qed.

(** C4: a need whose value lies in [0,100] and whose decay rate is not
    negative keeps its value in [0,100] through every finite sequence of
    [update(dt)] and [satisfy(amount)] calls with non-negative arguments;
    moreover no [update] leaves the value below 0 and no [satisfy] leaves
    it above 100, whatever the arguments. *)
Theorem need_value_stays_in_range (n : Need) (cs : list call) :
  in_range n ->
  0 <= decay_rate n ->
  Forall (fun c => 0 <= call_arg c) cs ->
  in_range (run n cs)
  /\ (forall m dt, 0 <= value (update m dt))
  /\ (forall m amount, value (satisfy m amount) <= 100).
Proof.
  intros Hn Hr Hcs.
  split; [|split; [apply update_nonneg | apply satisfy_le_100]].
  revert n Hn Hr. induction Hcs as [|c cs Hc _ IH]; intros n Hn Hr.
  - exact Hn.
  - simpl. apply IH.
    + destruct c; simpl in *.
      * now apply update_in_range.
      * now apply satisfy_in_range.
    + now rewrite do_call_decay_rate.
Qed.

Lemma need_value_stays_in_range_witness :
  let n := mkNeed 50 2 30 in
  let cs := [CallUpdate 30; CallSatisfy 200; CallUpdate (1#2)] in
  in_range (run n cs)
  /\ (forall m dt, 0 <= value (update m dt))
  /\ (forall m amount, value (satisfy m amount) <= 100).
Proof.
  apply (need_value_stays_in_range (mkNeed 50 2 30)
           [CallUpdate 30; CallSatisfy 200; CallUpdate (1#2)]).
  - split; simpl; lra.
  - simpl; lra.
  - repeat constructor; simpl; lra.
Defined.

End NeedFacts.

(* ================================================================= *)
(** ** perform_action *)

Module PerformFacts.

Lemma perform_action_needs self act dt now :
  needs (fst (perform_action self act dt now)) = e_needs (action_branch self act dt).
Proof. reflexivity. Qed.

Lemma perform_action_money self act dt now :
  money (fst (perform_action self act dt now)) = e_money (action_branch self act dt).
Proof. reflexivity. Qed.

Lemma perform_action_success self act dt now :
  snd (perform_action self act dt now) = e_success (action_branch self act dt).
Proof. reflexivity. Qed.

Lemma eat_guard self :
  10 < value (hunger (needs self)) -> 5 <= money self ->
  Qltb 10 (value (hunger (needs self))) && Qgeb (money self) 5 = true.
Proof.
  intros Hh Hm. apply andb_true_intro. split.
  - now apply Qltb_lt.
  - now apply Qgeb_ge.
Qed.

(** C5: on an agent with hunger 50 and money 10, whatever its other
    needs, [perform_action(EAT, 1.0)] succeeds, takes exactly
    [min(30*1.0, 50) = 30] off hunger, which becomes 20, and exactly
    [5*1.0 = 5] off money, which becomes 5. *)
Theorem eat_scenario (self : VirtualHuman) (now : Q) :
  value (hunger (needs self)) == 50 ->
  money self == 10 ->
  let self' := fst (perform_action self EAT 1 now) in
  snd (perform_action self EAT 1 now) = true
  /\ value (hunger (needs self)) - value (hunger (needs self')) == py_min (30 * 1) 50
  /\ py_min (30 * 1) 50 == 30
  /\ value (hunger (needs self')) == 20
  /\ money self - money self' == 5 * 1
  /\ money self' == 5.
Proof.
  intros Hh Hm self'. subst self'.
  rewrite perform_action_success, perform_action_needs, perform_action_money.
  unfold action_branch.
  rewrite eat_guard by lra.
  cbn [e_success e_needs e_money hunger with_value value].
  assert (Hmin : py_min (30 * 1) (value (hunger (needs self))) == 30).
  { unfold py_min. destruct (Qltb_spec (value (hunger (needs self))) (30 * 1)); lra. }
  assert (Hmin' : py_min (30 * 1) 50 == 30).
  { unfold py_min. destruct (Qltb_spec 50 (30 * 1)); lra. }
  repeat split; lra.
Qed.

Lemma eat_scenario_witness :
  let self' := fst (perform_action Scenario.hungry EAT 1 0) in
  snd (perform_action Scenario.hungry EAT 1 0) = true
  /\ value (hunger (needs Scenario.hungry)) - value (hunger (needs self'))
     == py_min (30 * 1) 50
  /\ py_min (30 * 1) 50 == 30
  /\ value (hunger (needs self')) == 20
  /\ money Scenario.hungry - money self' == 5 * 1
  /\ money self' == 5.
Proof.
  apply (eat_scenario Scenario.hungry 0); reflexivity.
Defined.

(** The money an action leaves is never below what the agent had, less
    the stake its guard has checked, scaled by [dt]. *)
Lemma money_after_action self act dt :
  0 <= money self -> 0 < dt -> dt <= 1 ->
  0 <= ambition (personality self) ->
  0 <= e_money (action_branch self act dt).
Proof.
  intros Hm Hdt Hdt1 Hamb.
  destruct act; unfold action_branch; cbn zeta.
  - destruct (Qltb_spec 10 (value (hunger (needs self)))); cbn [andb]; [|exact Hm].
    destruct (Qgeb (money self) 5) eqn:E; [|exact Hm].
    apply Qgeb_ge in E. cbn [e_money]. lra.
  - destruct (Qltb 20 (value (energy (needs self)))); [|exact Hm].
    cbn [e_money].
    assert (0 <= (10 + ambition (personality self) * 5) * dt).
    { apply Qmult_le_0_compat; lra. }
    lra.
  - destruct (Qltb (value (energy (needs self))) 90); exact Hm.
  - destruct (Qltb_spec 5 (value (social_need (needs self)))); cbn [andb]; [|exact Hm].
    destruct (Qgeb (money self) 3) eqn:E; [|exact Hm].
    apply Qgeb_ge in E. cbn [e_money]. lra.
  - exact Hm.
Qed.

(** C7, as the code has it: for an agent with money >= 0 (and a
    non-negative ambition trait), every action and every step
    0 < dt <= 1, [perform_action] leaves money >= 0. *)
Theorem perform_action_keeps_money_nonneg
    (self : VirtualHuman) (act : ActionType) (dt now : Q) :
  0 <= money self ->
  0 < dt -> dt <= 1 ->
  0 <= ambition (personality self) ->
  0 <= money (fst (perform_action self act dt now)).
Proof.
  intros. rewrite perform_action_money. now apply money_after_action.
Qed.

Lemma perform_action_keeps_money_nonneg_witness :
  0 <= money (fst (perform_action Scenario.poor EAT 1 0)).
Proof.
  apply (perform_action_keeps_money_nonneg Scenario.poor EAT 1 0);
    vm_compute; congruence.
Defined.

(** C7 as stated fails: with money 5 the guard of EAT passes, and a step
    of dt = 2 takes 10. *)
Lemma perform_action_money_counterexample :
  ~ (forall (self : VirtualHuman) (act : ActionType) (dt now : Q),
       0 <= money self -> 0 < dt ->
       0 <= money (fst (perform_action self act dt now))).
Proof.
  intro H.
  specialize (H Scenario.poor EAT 2 0).
  assert (Hneg : money (fst (perform_action Scenario.poor EAT 2 0)) == - (5))
    by reflexivity.
  rewrite Hneg in H.
  assert (Hle : 0 <= - (5)) by (apply H; vm_compute; congruence).
  vm_compute in Hle. now apply Hle.
Qed.

End PerformFacts.

(* ================================================================= *)
(** ** evolve_behavior *)

Module EvolveBehaviorFacts.

(** No memory record has the key the first loop reads last. *)
Lemma no_satisfaction_gain (m : MemoryRecord) :
  memory_getitem m "satisfaction_gain" = Raise (KeyError "satisfaction_gain").
Proof. reflexivity. Qed.

Lemma tally_raises (perf : dict ActionType Perf) (m : MemoryRecord) :
  tally perf m = Raise (KeyError "satisfaction_gain").
Proof. reflexivity. Qed.

Lemma last_n_length {A} (n : nat) (xs : list A) :
  List.length (last_n n xs) = Nat.min n (List.length xs).
Proof. unfold last_n. rewrite length_skipn. lia. Qed.

Lemma for_each_tally_raises (ms : list MemoryRecord) :
  ms <> [] -> for_each tally ms [] = Raise (KeyError "satisfaction_gain").
Proof. destruct ms as [|m ms]; [congruence | reflexivity]. Qed.

(** With fewer than ten records the call returns and changes nothing. *)
Lemma evolve_behavior_short (self : VirtualHuman) :
  (List.length (memory self) < 10)%nat ->
  evolve_behavior self = (self, Ok tt).
Proof.
  intro H. unfold evolve_behavior.
  apply Nat.ltb_lt in H. now rewrite H.
Qed.

(** C3 fails on the code: from ten memory records on, [evolve_behavior]
    does not adjust any habit; the first pass over the recent records
    raises [KeyError: 'satisfaction_gain'] and the agent is left as it
    was. *)
Theorem evolve_behavior_raises (self : VirtualHuman) :
  (10 <= List.length (memory self))%nat ->
  evolve_behavior self = (self, Raise (KeyError "satisfaction_gain")).
Proof.
  intro H. unfold evolve_behavior.
  destruct (Nat.ltb_spec (List.length (memory self)) 10) as [Hlt|_]; [lia|].
  rewrite for_each_tally_raises; [reflexivity|].
  intro E. apply (f_equal (@List.length _)) in E.
  rewrite last_n_length in E. cbn [List.length] in E. lia.
Qed.

Lemma evolve_behavior_raises_witness :
  evolve_behavior Scenario.veteran
  = (Scenario.veteran, Raise (KeyError "satisfaction_gain")).
Proof.
  apply (evolve_behavior_raises Scenario.veteran).
  vm_compute. lia.
Defined.

End EvolveBehaviorFacts.

(* ================================================================= *)
(** ** Dicts *)

Section DictFacts.
Context {K V : Type} (eqb : K -> K -> bool).
Hypothesis eqb_spec : forall a b, reflect (a = b) (eqb a b).

Lemma dict_get_In k v (d : dict K V) :
  dict_get eqb k d = Some v -> In (k, v) d.
Proof.
  induction d as [|[k' v'] d IH]; simpl; [discriminate|].
  destruct (eqb_spec k k') as [->|_]; intro H.
  - left. congruence.
  - right. auto.
Qed.

Lemma dict_get_None k (d : dict K V) :
  dict_get eqb k d = None <-> ~ In k (dict_keys d).
Proof.
  induction d as [|[k' v'] d IH]; simpl; [tauto|].
  destruct (eqb_spec k k') as [->|Hne].
  - split; [discriminate | intro H; exfalso; auto].
  - rewrite IH. split; intro H; [intros [E|E]; [congruence | auto] | auto].
Qed.

Lemma In_dict_get k v (d : dict K V) :
  dict_wf d -> In (k, v) d -> dict_get eqb k d = Some v.
Proof.
  unfold dict_wf.
  induction d as [|[k' v'] d IH]; simpl; [tauto|].
  intros Hnd [E|Hin]; inversion Hnd; subst.
  - inversion E; subst. now destruct (eqb_spec k k).
  - destruct (eqb_spec k k') as [->|_]; [|auto].
    exfalso. apply H1. change k' with (fst (k', v)). now apply in_map.
Qed.

Lemma dict_get_app k (d1 d2 : dict K V) :
  dict_get eqb k (d1 ++ d2)
  = match dict_get eqb k d1 with
    | Some v => Some v
    | None => dict_get eqb k d2
    end.
Proof.
  induction d1 as [|[k' v'] d1 IH]; simpl; [reflexivity|].
  now destruct (eqb k k').
Qed.

Lemma dict_get_set k k' v (d : dict K V) :
  dict_get eqb k (dict_set eqb k' v d)
  = if eqb k k' then Some v else dict_get eqb k d.
Proof.
  induction d as [|[k0 v0] d IH]; simpl.
  - reflexivity.
  - destruct (eqb_spec k' k0) as [->|Hne]; simpl.
    + now destruct (eqb k k0).
    + destruct (eqb_spec k k0) as [->|_].
      * destruct (eqb_spec k0 k'); [congruence | reflexivity].
      * exact IH.
Qed.

Lemma dict_set_fresh k v (d : dict K V) :
  ~ In k (dict_keys d) -> dict_set eqb k v d = d ++ [(k, v)].
Proof.
  induction d as [|[k0 v0] d IH]; simpl; [reflexivity|].
  intro H. destruct (eqb_spec k k0) as [->|_]; [tauto|].
  rewrite IH; tauto.
Qed.

Lemma dict_keys_update k f (d : dict K V) :
  dict_keys (dict_update eqb k f d) = dict_keys d.
Proof.
  induction d as [|[k0 v0] d IH]; simpl; [reflexivity|].
  destruct (eqb k k0); simpl; [reflexivity | now rewrite IH].
Qed.

Lemma dict_keys_del_incl k (d : dict K V) x :
  In x (dict_keys (dict_del eqb k d)) -> In x (dict_keys d).
Proof.
  induction d as [|[k0 v0] d IH]; simpl; [tauto|].
  destruct (eqb k k0); simpl; [auto | intros [E|H]; auto].
Qed.

Lemma dict_wf_del k (d : dict K V) : dict_wf d -> dict_wf (dict_del eqb k d).
Proof.
  unfold dict_wf.
  induction d as [|[k0 v0] d IH]; simpl; [auto|].
  intro H. inversion H; subst.
  destruct (eqb k k0); simpl; [assumption|].
  constructor; [|auto].
  intro Hin. apply H2. eapply dict_keys_del_incl. exact Hin.
Qed.

Lemma dict_get_del k k' (d : dict K V) :
  dict_wf d ->
  dict_get eqb k (dict_del eqb k' d)
  = if eqb k k' then None else dict_get eqb k d.
Proof.
  unfold dict_wf.
  induction d as [|[k0 v0] d IH]; simpl; intro Hnd.
  - now destruct (eqb k k').
  - inversion Hnd; subst.
    destruct (eqb_spec k' k0) as [->|Hne]; simpl.
    + destruct (eqb_spec k k0) as [->|_]; [|reflexivity].
      now apply dict_get_None.
    + destruct (eqb_spec k k0) as [->|_].
      * destruct (eqb_spec k0 k'); [congruence | reflexivity].
      * auto.
Qed.

Lemma dict_get_del_all k (ids : list K) (d : dict K V) :
  dict_wf d ->
  dict_get eqb k (fold_left (fun d id => dict_del eqb id d) ids d)
  = if existsb (eqb k) ids then None else dict_get eqb k d.
Proof.
  revert d. induction ids as [|id ids IH]; simpl; intros d Hd; [reflexivity|].
  rewrite IH by now apply dict_wf_del.
  rewrite dict_get_del by assumption.
  destruct (eqb k id); simpl; [|reflexivity].
  now destruct (existsb (eqb k) ids).
Qed.

Lemma dict_get_set_all k (l : list (K * V)) (d : dict K V) :
  dict_get eqb k (fold_left (fun d kv => dict_set eqb (fst kv) (snd kv) d) l d)
  = match dict_get eqb k (rev l) with
    | Some v => Some v
    | None => dict_get eqb k d
    end.
Proof.
  revert d. induction l as [|[k0 v0] l IH]; simpl; intro d; [reflexivity|].
  rewrite IH, dict_get_app, dict_get_set. simpl.
  destruct (dict_get eqb k (rev l)); [reflexivity|].
  now destruct (eqb k k0).
Qed.

End DictFacts.

Lemma action_eqb_spec a b : reflect (a = b) (action_eqb a b).
Proof. destruct a, b; constructor; congruence. Qed.

Module ScenarioFacts.

Lemma miner_wf : dict_wf (patterns Scenario.miner).
Proof.
  unfold dict_wf. simpl.
  repeat constructor; simpl; intuition discriminate.
Defined.

End ScenarioFacts.

(* ================================================================= *)
(** ** suggest_action touches recency only *)

Module SuggestFacts.






Lemma py_max_by_In {A} (key : A -> Q) (best : A) (rest : list A) :
  In (py_max_by key best rest) (best :: rest).
Proof.
  revert best. induction rest as [|x rest IH]; intro best; simpl.
  - now left.
  - destruct (IH (if Qltb (key best) (key x) then x else best)) as [E|H].
    + rewrite <- E. destruct (Qltb (key best) (key x)); auto.
    + auto.
Qed.



End SuggestFacts.

(* ================================================================= *)
(** ** evolve_patterns *)

Module EvolvePatternsFacts.

Lemma to_remove_iff min_usage p :
  to_remove min_usage p = true <-> removal_condition min_usage p.
Proof.
  unfold to_remove, removal_condition, ineffective, unused_old.
  rewrite <- Z.leb_le, <- Qltb_lt, <- !Z.ltb_lt, <- !andb_true_iff.
  destruct (_ && _); [tauto|].
  destruct (_ && _); intuition discriminate.
Qed.

Lemma age_spec p :
  last_used (age p) = (last_used p + 1)%Z
  /\ pattern_id (age p) = pattern_id p
  /\ conditions (age p) = conditions p
  /\ actions (age p) = actions p
  /\ success_rate (age p) = success_rate p
  /\ usage_count (age p) = usage_count p
  /\ effectiveness_history (age p) = effectiveness_history p.
Proof. repeat split. Qed.

Lemma dict_keys_age_all ps : dict_keys (age_all ps) = dict_keys ps.
Proof. unfold age_all, dict_keys. rewrite map_map. reflexivity. Qed.

Lemma dict_get_age_all id ps :
  dict_get String.eqb id (age_all ps)
  = option_map age (dict_get String.eqb id ps).
Proof.
  induction ps as [|[k p] ps IH]; simpl; [reflexivity|].
  now destruct (String.eqb id k).
Qed.

(** Under unique keys, an id is collected for removal exactly when the
    pattern it names meets the test. *)
Lemma collected_iff min_usage id (aged : dict string BehaviorPattern) :
  dict_wf aged ->
  existsb (String.eqb id) (patterns_to_remove min_usage aged)
  = match dict_get String.eqb id aged with
    | Some p => to_remove min_usage p
    | None => false
    end.
Proof.
  unfold dict_wf, patterns_to_remove.
  induction aged as [|[k p] aged IH]; simpl; intro Hnd; [reflexivity|].
  inversion Hnd; subst.
  destruct (String.eqb_spec id k) as [->|Hne].
  - destruct (to_remove min_usage p) eqn:E; simpl.
    + now rewrite String.eqb_refl.
    + rewrite IH by assumption.
      apply (dict_get_None String.eqb String.eqb_spec) in H1. now rewrite H1.
  - destruct (to_remove min_usage p); simpl; [|auto].
    destruct (String.eqb_spec id k); [congruence | auto].
Qed.

(** The store after the two loops, id by id. *)
Lemma prune_lookup self id :
  dict_wf (patterns self) ->
  dict_get String.eqb id (patterns (prune self))
  = aged_survivor (min_pattern_usage self)
      (dict_get String.eqb id (patterns self)).
Proof.
  intro Hwf.
  assert (Hwf' : dict_wf (age_all (patterns self))).
  { unfold dict_wf. now rewrite dict_keys_age_all. }
  unfold prune, remove_patterns. cbn [patterns with_patterns].
  rewrite (dict_get_del_all String.eqb String.eqb_spec) by assumption.
  rewrite collected_iff by assumption.
  rewrite dict_get_age_all.
  unfold aged_survivor.
  destruct (dict_get String.eqb id (patterns self)) as [p|]; simpl; [|reflexivity].
  now destruct (to_remove (min_pattern_usage self) (age p)).
Qed.

Lemma mutate_loop_patterns draws k todo self :
  patterns (mutate_loop draws k todo self)
  = fold_left (fun d kv => dict_set String.eqb (fst kv) (snd kv) d)
      (minted_from draws k (pattern_counter self) todo) (patterns self).
Proof.
  revert k self. induction todo as [|p todo IH]; intros k self; simpl.
  - reflexivity.
  - destruct (Qltb (mutate_roll (draws k)) (1#10)).
    + rewrite IH. unfold _create_pattern_mutation.
      destruct (mutation_of (pattern_counter self) (draws k) p) as [mid mp].
      reflexivity.
    + apply IH.
Qed.

Lemma mutate_loop_min_usage draws k todo self :
  min_pattern_usage (mutate_loop draws k todo self) = min_pattern_usage self.
Proof.
  revert k self. induction todo as [|p todo IH]; intros k self; simpl.
  - reflexivity.
  - rewrite IH. destruct (Qltb (mutate_roll (draws k)) (1#10)); [|reflexivity].
    unfold _create_pattern_mutation.
    now destruct (mutation_of (pattern_counter self) (draws k) p).
Qed.

(** The store after the whole call: the mutants minted by the call under
    their ids, the aged survivors under every other id. *)
Lemma evolve_patterns_lookup draws self id :
  dict_wf (patterns self) ->
  dict_get String.eqb id (patterns (evolve_patterns draws self))
  = match dict_get String.eqb id (rev (minted draws self)) with
    | Some mutant => Some mutant
    | None => aged_survivor (min_pattern_usage self)
                (dict_get String.eqb id (patterns self))
    end.
Proof.
  intro Hwf. unfold evolve_patterns, _mutate_successful_patterns, minted.
  rewrite mutate_loop_patterns.
  rewrite (dict_get_set_all String.eqb String.eqb_spec).
  now rewrite prune_lookup.
Qed.






End EvolvePatternsFacts.

(* ================================================================= *)
(** ** save_patterns and load_patterns *)

Module PersistenceFacts.

Lemma ActionType_of_value_value (a : ActionType) :
  ActionType_of_value (JStr (action_value a)) = Ok a.
Proof. destruct a; reflexivity. Qed.

Lemma load_actions (acts : list ActionType) :
  map_result ActionType_of_value (map (fun a => JStr (action_value a)) acts)
  = Ok acts.
Proof.
  induction acts as [|a acts IH]; cbn [map map_result]; [reflexivity|].
  now rewrite ActionType_of_value_value, IH.
Qed.

(** Reading back what was stored for one pattern. *)
Lemma pattern_of_to_json (id : string) (p : BehaviorPattern) :
  pattern_of_json id (pattern_to_json p) = Ok (untyped (reloaded id p)).
Proof.
  unfold pattern_of_json, pattern_to_json.
  cbn [json_getitem dict_get String.eqb Ascii.eqb Bool.eqb rbind json_iter
       json_get].
  rewrite load_actions. reflexivity.
Qed.

Lemma set_all_fresh {V W} (f : string -> V -> W) (ps : dict string V)
    (acc : dict string W) :
  NoDup (dict_keys acc ++ dict_keys ps) ->
  fold_left (fun data kp => dict_set String.eqb (fst kp) (f (fst kp) (snd kp)) data)
            ps acc
  = acc ++ map (fun kp => (fst kp, f (fst kp) (snd kp))) ps.
Proof.
  revert acc. induction ps as [|[k v] ps IH]; simpl; intros acc Hnd.
  - now rewrite app_nil_r.
  - rewrite (dict_set_fresh String.eqb String.eqb_spec).
    + rewrite IH.
      * now rewrite <- app_assoc.
      * unfold dict_keys in *. rewrite map_app, <- app_assoc. exact Hnd.
    + apply NoDup_remove_2 in Hnd. intro Hin. apply Hnd.
      apply in_or_app. now left.
Qed.

Lemma pattern_data_of_wf (ps : dict string BehaviorPattern) :
  dict_wf ps ->
  pattern_data_of ps = map (fun kp => (fst kp, pattern_to_json (snd kp))) ps.
Proof.
  intro Hwf. unfold pattern_data_of.
  now rewrite (set_all_fresh (fun _ p => pattern_to_json p) ps []).
Qed.

Lemma load_items_saved (ps : dict string BehaviorPattern)
    (acc : dict string UntypedPattern) :
  load_items (map (fun kp => (fst kp, pattern_to_json (snd kp))) ps) acc
  = (fold_left
       (fun d kp =>
          dict_set String.eqb (fst kp) (untyped (reloaded (fst kp) (snd kp))) d)
       ps acc,
     Ok tt).
Proof.
  revert acc. induction ps as [|[k p] ps IH]; simpl; intro acc; [reflexivity|].
  now rewrite pattern_of_to_json, IH.
Qed.

Lemma dict_get_map_key {V W} (f : string -> V -> W) id (ps : dict string V) :
  dict_get String.eqb id (map (fun kp => (fst kp, f (fst kp) (snd kp))) ps)
  = option_map (f id) (dict_get String.eqb id ps).
Proof.
  induction ps as [|[k v] ps IH]; simpl; [reflexivity|].
  destruct (String.eqb_spec id k) as [->|_]; [reflexivity | exact IH].
Qed.

(** Saving and loading into a miner without patterns, as a whole. *)
Lemma load_saved self fresh fs filename :
  dict_wf (patterns self) ->
  patterns fresh = [] ->
  load_patterns fresh (save_patterns self fs filename) filename
  = (untyped_store
       (map (fun kp => (fst kp, reloaded (fst kp) (snd kp))) (patterns self)),
     Ok tt).
Proof.
  intros Hwf Hfresh.
  unfold load_patterns, load_try, save_patterns, json_dump, open_read.
  rewrite (dict_get_set String.eqb String.eqb_spec), String.eqb_refl.
  cbn [rbind json_load json_items].
  rewrite pattern_data_of_wf by assumption.
  rewrite load_items_saved, Hfresh. cbn [untyped_store map].
  rewrite (set_all_fresh (fun id p => untyped (reloaded id p)) (patterns self) []).
  - unfold untyped_store. now rewrite map_map.
  - exact Hwf.
Qed.

(** C9: saving a store and loading the file into a miner without
    patterns returns without error and yields, under every pattern id of
    the store, a pattern with the same conditions, actions, success rate
    and usage count, each of the type it had; no other id appears. *)
Theorem save_load_roundtrip
    (self fresh : GenerativeBehaviorModel) (fs : filesystem) (filename : string) :
  dict_wf (patterns self) ->
  patterns fresh = [] ->
  let outcome := load_patterns fresh (save_patterns self fs filename) filename in
  snd outcome = Ok tt
  /\ dict_keys (fst outcome) = dict_keys (patterns self)
  /\ forall id p,
       dict_get String.eqb id (patterns self) = Some p ->
       exists p',
         dict_get String.eqb id (fst outcome) = Some (untyped p')
         /\ conditions p' = conditions p
         /\ actions p' = actions p
         /\ success_rate p' = success_rate p
         /\ usage_count p' = usage_count p.
Proof.
  intros Hwf Hfresh outcome. subst outcome.
  rewrite load_saved by assumption. cbn [fst snd].
  split; [reflexivity|]. split.
  - unfold untyped_store, dict_keys. rewrite !map_map. reflexivity.
  - intros id p Hp. exists (reloaded id p).
    unfold untyped_store. rewrite map_map. cbn [fst snd].
    rewrite (dict_get_map_key (fun id p => untyped (reloaded id p))), Hp.
    simpl. repeat split.
Qed.

Lemma save_load_roundtrip_witness :
  let outcome :=
    load_patterns GenerativeBehaviorModel_init
      (save_patterns Scenario.miner [] "behavior_patterns.json")
      "behavior_patterns.json" in
  snd outcome = Ok tt
  /\ dict_keys (fst outcome) = dict_keys (patterns Scenario.miner)
  /\ forall id p,
       dict_get String.eqb id (patterns Scenario.miner) = Some p ->
       exists p',
         dict_get String.eqb id (fst outcome) = Some (untyped p')
         /\ conditions p' = conditions p
         /\ actions p' = actions p
         /\ success_rate p' = success_rate p
         /\ usage_count p' = usage_count p.
Proof.
  apply (save_load_roundtrip Scenario.miner GenerativeBehaviorModel_init []
           "behavior_patterns.json").
  - exact ScenarioFacts.miner_wf.
  - reflexivity.
Defined.

(** C6, as the code has it: a missing file is recovered from, a corrupt
    one is not.  Loading a missing file returns and leaves the store as it
    was.  Loading a file whose text does not decode raises
    [JSONDecodeError], and loading a document that is not a dict raises
    [AttributeError] at [.items()]; either way the store is as it was and
    the exception leaves [load_patterns], whose only handler is the one
    for [FileNotFoundError]. *)
Theorem load_patterns_corrupt_raises
    (self : GenerativeBehaviorModel) (fs : filesystem) (filename : string) :
  let store := untyped_store (patterns self) in
  (dict_get String.eqb filename fs = None ->
   load_patterns self fs filename = (store, Ok tt))
  /\ (forall text,
        dict_get String.eqb filename fs = Some (Undecodable text) ->
        load_patterns self fs filename = (store, Raise JSONDecodeError))
  /\ (forall v,
        dict_get String.eqb filename fs = Some (Document v) ->
        (forall d, v <> JDict d) ->
        exists cls,
          load_patterns self fs filename
          = (store, Raise (AttributeError cls "items"))).
Proof.
  intro store. subst store.
  unfold load_patterns, load_try, open_read.
  split; [|split].
  - intros ->. reflexivity.
  - intros text ->. reflexivity.
  - intros v -> Hv. cbn [rbind json_load].
    destruct v; cbn [json_items]; try (eexists; reflexivity).
    exfalso. now apply (Hv d).
Qed.

Lemma load_patterns_corrupt_raises_witness :
  load_patterns GenerativeBehaviorModel_init
    [("behavior_patterns.json"%string, Undecodable "{")]
    "behavior_patterns.json"
  = ([], Raise JSONDecodeError).
Proof.
  destruct (load_patterns_corrupt_raises GenerativeBehaviorModel_init
              [("behavior_patterns.json"%string, Undecodable "{")]
              "behavior_patterns.json") as (_ & H & _).
  apply (H "{"%string). reflexivity.
Defined.

End PersistenceFacts.

(* ================================================================= *)
(** ** The social phase *)

Module SocialFacts.

(** No agent has a need named ['social']. *)
Lemma no_social_need (n : Needs) :
  needs_getitem n "social" = Raise (KeyError "social").
Proof. reflexivity. Qed.

Lemma satisfy_need_social i amount s a :
  nth_error (agents s) i = Some a ->
  satisfy_need i "social" amount s = (s, Raise (KeyError "social")).
Proof.
  intro H. unfold satisfy_need, sim_bind, agent_at, sim_lift. now rewrite H.
Qed.

Lemma socialize_test a1 a2 :
  current_action a1 = SOCIALIZE \/ current_action a2 = SOCIALIZE ->
  action_eqb (current_action a1) SOCIALIZE
  || action_eqb (current_action a2) SOCIALIZE = true.
Proof.
  intros [H|H]; rewrite H; simpl; [reflexivity | apply orb_true_r].
Qed.

(** The engine after a draw. *)
Lemma interact_successful_roll s location i j agent1 agent2 :
  nth_error (agents s) i = Some agent1 ->
  nth_error (agents s) j = Some agent2 ->
  current_action agent1 = SOCIALIZE \/ current_action agent2 = SOCIALIZE ->
  rng s (draws s) < interaction_prob agent1 agent2 * (3#10) ->
  interact location (i, j) s
  = (with_environment (fst (random_random s))
       (create_social_connection (environment s) i j (5#100)),
     Raise (KeyError "social")).
Proof.
  intros H1 H2 Hact Hroll.
  apply socialize_test in Hact. apply Qltb_lt in Hroll.
  unfold interact, sim_bind, agent_at, random_random, sim_modify.
  rewrite H1, H2, Hact. cbn [rng draws]. rewrite Hroll.
  erewrite satisfy_need_social by (simpl; exact H1).
  reflexivity.
Qed.

(** C1 fails on the code: for two co-located agents of whom one is in
    SOCIALIZE, when the roll is below the interaction probability times
    0.3, the pair's turn strengthens the social-connection edge and then
    raises [KeyError: 'social'] at [agent1.needs['social']]: no agent's
    social need is satisfied, the interaction is not counted and no event
    is emitted. *)
Theorem interact_raises_KeyError
    (s : SimulationEngine) (location : Location) (i j : nat)
    (agent1 agent2 : VirtualHuman) :
  nth_error (agents s) i = Some agent1 ->
  nth_error (agents s) j = Some agent2 ->
  current_action agent1 = SOCIALIZE \/ current_action agent2 = SOCIALIZE ->
  rng s (draws s) < interaction_prob agent1 agent2 * (3#10) ->
  let s' := fst (interact location (i, j) s) in
  snd (interact location (i, j) s) = Raise (KeyError "social")
  /\ environment s' = create_social_connection (environment s) i j (5#100)
  /\ agents s' = agents s
  /\ social_interactions s' = social_interactions s
  /\ events s' = events s.
Proof.
  intros H1 H2 Hact Hroll s'. subst s'.
  rewrite (interact_successful_roll s location i j agent1 agent2) by assumption.
  repeat split.
Qed.

Lemma interact_raises_KeyError_witness :
  let s' := fst (interact Scenario.cafe (0%nat, 1%nat) Scenario.party) in
  snd (interact Scenario.cafe (0%nat, 1%nat) Scenario.party)
  = Raise (KeyError "social")
  /\ environment s'
     = create_social_connection (environment Scenario.party) 0 1 (5#100)
  /\ agents s' = agents Scenario.party
  /\ social_interactions s' = social_interactions Scenario.party
  /\ events s' = events Scenario.party.
Proof.
  apply (interact_raises_KeyError Scenario.party Scenario.cafe 0 1
           (with_current_action Scenario.alice SOCIALIZE 2) Scenario.bob).
  - reflexivity.
  - reflexivity.
  - left. reflexivity.
  - vm_compute. reflexivity.
Defined.

(** The whole phase on two co-located agents, one socializing, with a
    successful roll. *)
Lemma process_social_interactions_party :
  snd (process_social_interactions Scenario.party) = Raise (KeyError "social")
  /\ agents (fst (process_social_interactions Scenario.party))
     = agents Scenario.party
  /\ social_network (environment (fst (process_social_interactions Scenario.party)))
     = [(0%nat, [(1%nat, 5#100)]); (1%nat, [(0%nat, 5#100)])].
Proof. repeat split. Qed.

Lemma no_interaction_refl s : no_interaction s s (Ok tt).
Proof. unfold no_interaction. tauto. Qed.

Lemma no_interaction_trans s s1 s2 r :
  no_interaction s s1 (Ok tt) -> no_interaction s1 s2 r -> no_interaction s s2 r.
Proof.
  unfold no_interaction.
  intros (A1 & B1 & C1 & D1) (A2 & B2 & C2 & D2).
  repeat split; try congruence.
  intro E. rewrite (D2 E). now apply D1.
Qed.

Lemma interact_no_interaction location pair s :
  no_interaction s (fst (interact location pair s))
    (snd (interact location pair s)).
Proof.
  destruct pair as [i j].
  unfold interact, sim_bind, agent_at.
  destruct (nth_error (agents s) i) as [a1|] eqn:E1;
    [|unfold no_interaction; simpl; repeat split; discriminate].
  destruct (nth_error (agents s) j) as [a2|] eqn:E2;
    [|unfold no_interaction; simpl; repeat split; discriminate].
  destruct (_ || _); [|apply no_interaction_refl].
  unfold random_random.
  destruct (Qltb _ _).
  - unfold sim_modify.
    erewrite satisfy_need_social by (simpl; exact E1).
    unfold no_interaction; simpl; repeat split; discriminate.
  - unfold no_interaction, sim_ret; simpl. tauto.
Qed.

Lemma sim_for_no_interaction {A} (body : A -> Sim unit) :
  (forall x s, no_interaction s (fst (body x s)) (snd (body x s))) ->
  forall xs s,
    no_interaction s (fst (sim_for xs body s)) (snd (sim_for xs body s)).
Proof.
  intros Hbody xs. induction xs as [|x xs IH]; intro s; simpl.
  - apply no_interaction_refl.
  - unfold sim_bind. specialize (Hbody x s).
    destruct (body x s) as [s1 [[]|e]]; simpl in *.
    + eapply no_interaction_trans; [exact Hbody | apply IH].
    + exact Hbody.
Qed.

(** In no run does the phase satisfy a need, count an interaction or emit
    an event; and a run that returns has strengthened no edge. *)
Lemma process_social_interactions_no_interaction s :
  no_interaction s (fst (process_social_interactions s))
    (snd (process_social_interactions s)).
Proof.
  unfold process_social_interactions, sim_bind, sim_get.
  apply sim_for_no_interaction. intros location s0.
  destruct (Nat.ltb _ _).
  - apply sim_for_no_interaction. intros pair s1.
    apply interact_no_interaction.
  - apply no_interaction_refl.
Qed.

End SocialFacts.

(* ================================================================= *)
(** ** The suggestion phase *)

Module SuggestionPhaseFacts.

(** The engine has no attribute [perform_action]. *)
Lemma no_perform_action :
  engine_getattr "perform_action"
  = Raise (AttributeError "SimulationEngine" "perform_action").
Proof. reflexivity. Qed.

Lemma list_set_nth {A} i (x y : A) (l : list A) :
  nth_error l i = Some y -> nth_error (list_set i x l) i = Some x.
Proof.
  revert i. induction l as [|z l IH]; intros [|i]; simpl; try discriminate.
  - reflexivity.
  - apply IH.
Qed.

(** The engine at the raise. *)
Lemma apply_suggestion_raises s i agent model' suggested :
  nth_error (agents s) i = Some agent ->
  suggest_action (behavior_model s) agent (rng s (draws s)) (clock s)
  = (model', Some suggested) ->
  apply_suggestion i s
  = (mkSimulationEngine
       (list_set i
          (with_current_action agent suggested
             (uniform 1 3 (rng s (S (draws s)))))
          (agents s))
       (environment s) model' (time_step s) (social_interactions s)
       (total_time s) (events s) (metrics_rows s) (rng s)
       (S (S (draws s))) (clock s),
     Raise (AttributeError "SimulationEngine" "perform_action")).
Proof.
  intros Hi Hs.
  unfold apply_suggestion, sim_bind, agent_at, random_random, sim_get.
  rewrite Hi. cbn [rng draws behavior_model clock]. rewrite Hs.
  unfold update_agent, sim_modify, with_behavior_model, with_agents, sim_lift.
  cbn [agents environment behavior_model time_step social_interactions
       total_time events metrics_rows rng draws clock].
  rewrite Hi, no_perform_action. reflexivity.
Qed.

(** C2 fails on the code: for an agent to whom the miner suggests an
    action, the phase overrides [current_action] and the duration, and
    then raises [AttributeError] at [self.perform_action], an attribute
    the engine does not have: the action is not performed on the agent
    (needs, money, mood and memory are left as they were), no success
    flag exists, nothing is recorded and no event is emitted. *)
Theorem apply_suggestion_raises_AttributeError
    (s : SimulationEngine) (i : nat) (agent : VirtualHuman)
    (model' : GenerativeBehaviorModel) (suggested : ActionType) :
  nth_error (agents s) i = Some agent ->
  suggest_action (behavior_model s) agent (rng s (draws s)) (clock s)
  = (model', Some suggested) ->
  let s' := fst (apply_suggestion i s) in
  snd (apply_suggestion i s)
  = Raise (AttributeError "SimulationEngine" "perform_action")
  /\ (exists agent',
        nth_error (agents s') i = Some agent'
        /\ current_action agent' = suggested
        /\ needs agent' = needs agent
        /\ money agent' = money agent
        /\ mood agent' = mood agent
        /\ memory agent' = memory agent
        /\ total_actions agent' = total_actions agent)
  /\ events s' = events s
  /\ metrics_rows s' = metrics_rows s.
Proof.
  intros Hi Hs s'. subst s'.
  rewrite (apply_suggestion_raises s i agent model' suggested) by assumption.
  cbn [fst snd agents events metrics_rows].
  split; [reflexivity|]. split; [|split; reflexivity].
  eexists. split; [eapply list_set_nth; exact Hi|].
  repeat split.
Qed.

Lemma apply_suggestion_raises_AttributeError_witness :
  let s' := fst (apply_suggestion 0 Scenario.advised) in
  snd (apply_suggestion 0 Scenario.advised)
  = Raise (AttributeError "SimulationEngine" "perform_action")
  /\ (exists agent',
        nth_error (agents s') 0 = Some agent'
        /\ current_action agent' = SLEEP
        /\ needs agent' = needs Scenario.alice
        /\ money agent' = money Scenario.alice
        /\ mood agent' = mood Scenario.alice
        /\ memory agent' = memory Scenario.alice
        /\ total_actions agent' = total_actions Scenario.alice)
  /\ events s' = events Scenario.advised
  /\ metrics_rows s' = metrics_rows Scenario.advised.
Proof.
  apply (apply_suggestion_raises_AttributeError Scenario.advised 0
           Scenario.alice
           (fst (suggest_action Scenario.miner Scenario.alice (1#2) 0)) SLEEP).
  - reflexivity.
  - reflexivity.
Defined.

Lemma no_performance_refl s : no_performance s s (Ok tt).
Proof. unfold no_performance. tauto. Qed.

Lemma no_performance_trans s s1 s2 r :
  no_performance s s1 (Ok tt) -> no_performance s1 s2 r -> no_performance s s2 r.
Proof.
  unfold no_performance.
  intros (A1 & B1 & C1 & D1 & E1 & F1) (A2 & B2 & C2 & D2 & E2 & F2).
  repeat split; try congruence.
  intro E. rewrite (F2 E). now apply F1.
Qed.

Lemma map_list_set_same {A B} (f : A -> B) i (x y : A) (l : list A) :
  nth_error l i = Some y -> f x = f y ->
  map f (list_set i x l) = map f l.
Proof.
  revert i. induction l as [|z l IH]; intros [|i]; simpl; try discriminate.
  - intros E H. inversion E; subst. now rewrite H.
  - intros E H. now rewrite (IH i E H).
Qed.

Lemma apply_suggestion_no_performance i s :
  no_performance s (fst (apply_suggestion i s)) (snd (apply_suggestion i s)).
Proof.
  destruct (nth_error (agents s) i) as [agent|] eqn:Hi.
  - destruct (suggest_action (behavior_model s) agent (rng s (draws s)) (clock s))
      as [model' [suggested|]] eqn:Hs.
    + rewrite (apply_suggestion_raises s i agent model' suggested) by assumption.
      unfold no_performance. cbn [fst snd agents events metrics_rows].
      repeat split; try discriminate;
        now apply (map_list_set_same _ i _ agent).
    + unfold apply_suggestion, sim_bind, agent_at, random_random, sim_get.
      rewrite Hi. cbn [rng draws behavior_model clock]. rewrite Hs.
      unfold no_performance. simpl. tauto.
  - unfold apply_suggestion, sim_bind, agent_at. rewrite Hi.
    unfold no_performance. simpl. repeat split.
Qed.

Lemma sim_for_no_performance {A} (body : A -> Sim unit) :
  (forall x s, no_performance s (fst (body x s)) (snd (body x s))) ->
  forall xs s,
    no_performance s (fst (sim_for xs body s)) (snd (sim_for xs body s)).
Proof.
  intros Hbody xs. induction xs as [|x xs IH]; intro s; simpl.
  - apply no_performance_refl.
  - unfold sim_bind. specialize (Hbody x s).
    destruct (body x s) as [s1 [[]|e]]; simpl in *.
    + eapply no_performance_trans; [exact Hbody | apply IH].
    + exact Hbody.
Qed.

(** In no run does the phase perform a suggested action, record one or
    emit an event; and a run that returns has overridden no agent's
    action. *)
Lemma apply_behavior_model_suggestions_no_performance s :
  no_performance s (fst (apply_behavior_model_suggestions s))
    (snd (apply_behavior_model_suggestions s)).
Proof.
  unfold apply_behavior_model_suggestions, sim_bind, sim_get.
  apply sim_for_no_performance. intros i s0.
  apply apply_suggestion_no_performance.
Qed.

(** The whole phase on two idle agents and a miner holding an established
    pattern that matches the first of them. *)
Lemma apply_behavior_model_suggestions_advised :
  snd (apply_behavior_model_suggestions Scenario.advised)
  = Raise (AttributeError "SimulationEngine" "perform_action")
  /\ map current_action
       (agents (fst (apply_behavior_model_suggestions Scenario.advised)))
     = [SLEEP; IDLE]
  /\ map memory
       (agents (fst (apply_behavior_model_suggestions Scenario.advised)))
     = [[]; []]
  /\ events (fst (apply_behavior_model_suggestions Scenario.advised)) = [].
Proof. repeat split. Qed.

End SuggestionPhaseFacts.

(* ================================================================= *)
(** * Further properties of the code *)

(** ** Habits *)

Module HabitFacts.

Lemma count_true_acc (os : list bool) (n : Z) :
  fold_left (fun n (b : bool) => if b then (n + 1)%Z else n) os n
  = (n + count_true os)%Z.
Proof.
  unfold count_true. revert n.
  induction os as [|b os IH]; intro n; simpl; [lia|].
  rewrite IH. rewrite (IH (if b then 1%Z else 0%Z)).
  destruct b; lia.
Qed.

Lemma count_true_cons (b : bool) (os : list bool) :
  count_true (b :: os) = ((if b then 1 else 0) + count_true os)%Z.
Proof.
  unfold count_true at 1. simpl. rewrite count_true_acc. destruct b; lia.
Qed.

Lemma count_true_bounds (os : list bool) :
  (0 <= count_true os <= Z.of_nat (List.length os))%Z.
Proof.
  induction os as [|b os IH]; [unfold count_true; simpl; lia|].
  rewrite count_true_cons. cbn [List.length]. destruct b; lia.
Qed.

Lemma reinforce_strength (h : Habit) (b : bool) :
  unit_interval (strength h) -> unit_interval (strength (reinforce h b)).
Proof.
  unfold unit_interval. intros [Hlo Hhi]. destruct b; simpl; split.
  - apply py_min_glb; lra.
  - apply py_min_le_l.
  - apply py_max_ge_l.
  - apply py_max_lub; lra.
Qed.

Lemma reinforce_all_counts (outcomes : list bool) (h : Habit) :
  total_attempts (reinforce_all h outcomes)
  = (total_attempts h + Z.of_nat (List.length outcomes))%Z
  /\ success_count (reinforce_all h outcomes)
     = (success_count h + count_true outcomes)%Z
  /\ action (reinforce_all h outcomes) = action h
  /\ time_preference (reinforce_all h outcomes) = time_preference h.
Proof.
  unfold reinforce_all. revert h.
  induction outcomes as [|b os IH]; intro h.
  - unfold count_true. simpl. repeat split; lia.
  - cbn [fold_left]. destruct (IH (reinforce h b)) as (H2 & H3 & H4 & H5).
    rewrite count_true_cons, H2, H3, H4, H5.
    change (List.length (b :: os)) with (S (List.length os)).
    rewrite Nat2Z.inj_succ.
    destruct b; cbn [reinforce total_attempts success_count action
                     time_preference]; repeat split; lia.
Qed.

Lemma reinforce_all_strength (outcomes : list bool) (h : Habit) :
  unit_interval (strength h) ->
  unit_interval (strength (reinforce_all h outcomes)).
Proof.
  unfold reinforce_all. revert h.
  induction outcomes as [|b os IH]; intros h Hs; [exact Hs|].
  cbn [fold_left]. apply IH. now apply reinforce_strength.
Qed.

(** X1: a habit's strength stays in [0,1] through every run of
    [reinforce] calls, each call counts one attempt and each success one
    success. *)
Theorem reinforce_all_invariants (h : Habit) (outcomes : list bool) :
  unit_interval (strength h) ->
  unit_interval (strength (reinforce_all h outcomes))
  /\ total_attempts (reinforce_all h outcomes)
     = (total_attempts h + Z.of_nat (List.length outcomes))%Z
  /\ success_count (reinforce_all h outcomes)
     = (success_count h + count_true outcomes)%Z
  /\ action (reinforce_all h outcomes) = action h
  /\ time_preference (reinforce_all h outcomes) = time_preference h.
Proof.
  intro Hs. split.
  - now apply reinforce_all_strength.
  - apply reinforce_all_counts.
Qed.

Lemma reinforce_all_invariants_witness :
  unit_interval (strength (reinforce_all (Habit_init EAT (2#10)) [true; false; true]))
  /\ total_attempts (reinforce_all (Habit_init EAT (2#10)) [true; false; true]) = 3%Z.
Proof.
  destruct (reinforce_all_invariants (Habit_init EAT (2#10)) [true; false; true])
    as (H1 & H2 & _).
  - unfold unit_interval. simpl. lra.
  - split; [exact H1 | exact H2].
Defined.

Lemma ratio_in_unit_interval (c l : Z) :
  (0 <= c <= l)%Z -> (0 < l)%Z -> unit_interval (inject_Z c / inject_Z l).
Proof.
  intros Hc Hl. unfold unit_interval.
  assert (Hl' : 0 < inject_Z l) by (change 0 with (inject_Z 0); rewrite <- Zlt_Qlt; exact Hl).
  split.
  - apply Qle_shift_div_l; [exact Hl'|].
    rewrite Qmult_0_l. change 0 with (inject_Z 0). rewrite <- Zle_Qle. lia.
  - apply Qle_shift_div_r; [exact Hl'|].
    rewrite Qmult_1_l. rewrite <- Zle_Qle. lia.
Qed.

(** X2: after a non-empty run of outcomes on a new habit,
    [get_success_rate] is the share of successes among the outcomes, a
    number in [0,1]; on a new habit it is 0.5. *)
Theorem success_rate_is_share (a : ActionType) (s : Q) (outcomes : list bool) :
  outcomes <> [] ->
  get_success_rate (reinforce_all (Habit_init a s) outcomes)
  = inject_Z (count_true outcomes) / inject_Z (Z.of_nat (List.length outcomes))
  /\ unit_interval (get_success_rate (reinforce_all (Habit_init a s) outcomes))
  /\ get_success_rate (Habit_init a s) = 1#2.
Proof.
  intro Hne.
  assert (Hlen : (0 < Z.of_nat (List.length outcomes))%Z).
  { destruct outcomes; [congruence | cbn [List.length]; lia]. }
  assert (Heq :
    get_success_rate (reinforce_all (Habit_init a s) outcomes)
    = inject_Z (count_true outcomes)
      / inject_Z (Z.of_nat (List.length outcomes))).
  { unfold get_success_rate.
    destruct (reinforce_all_counts outcomes (Habit_init a s)) as (Ht & Hc & _).
    cbn [Habit_init total_attempts success_count] in Ht, Hc.
    rewrite Ht, Hc, !Z.add_0_l.
    destruct (Z.eqb_spec (Z.of_nat (List.length outcomes)) 0); [lia | reflexivity]. }
  split; [exact Heq|]. split; [|reflexivity].
  rewrite Heq. apply ratio_in_unit_interval; [|exact Hlen].
  apply count_true_bounds.
Qed.

Lemma success_rate_is_share_witness :
  get_success_rate (reinforce_all (Habit_init WORK (2#10)) [true; false; true; true])
  = inject_Z 3 / inject_Z 4.
Proof.
  destruct (success_rate_is_share WORK (2#10) [true; false; true; true])
    as (H & _).
  - discriminate.
  - exact H.
Defined.

End HabitFacts.

(* ================================================================= *)
(** ** Needs and mood over time *)

Module UpdateNeedsFacts.
Import NeedOps.

Lemma decay_up_in_range (v r dt : Q) :
  0 <= v -> v <= 100 -> 0 <= r -> 0 <= dt ->
  0 <= py_min 100 (v + r * dt) /\ py_min 100 (v + r * dt) <= 100.
Proof.
  intros Hlo Hhi Hr Hdt. pose proof (Qmult_le_0_compat _ _ Hr Hdt).
  split; [apply py_min_glb; lra | apply py_min_le_l].
Qed.

Lemma decay_down_in_range (v r dt : Q) :
  0 <= v -> v <= 100 -> 0 <= r -> 0 <= dt ->
  0 <= py_max 0 (v - r * dt) /\ py_max 0 (v - r * dt) <= 100.
Proof.
  intros Hlo Hhi Hr Hdt. pose proof (Qmult_le_0_compat _ _ Hr Hdt).
  split; [apply py_max_ge_l | apply py_max_lub; lra].
Qed.

(** X3: [update_needs] keeps the four needs in [0,100] and the mood in
    [0,1], for needs in range with non-negative decay rates, a mood in
    [0,1] and [dt >= 0]; it leaves money alone, and energy too while the
    agent sleeps. *)
Theorem update_needs_keeps_ranges (self : VirtualHuman) (dt : Q) :
  needs_in_range (needs self) ->
  rates_nonneg (needs self) ->
  unit_interval (mood self) ->
  0 <= dt ->
  needs_in_range (needs (update_needs self dt))
  /\ rates_nonneg (needs (update_needs self dt))
  /\ unit_interval (mood (update_needs self dt))
  /\ money (update_needs self dt) = money self
  /\ (current_action self = SLEEP ->
      energy (needs (update_needs self dt)) = energy (needs self)).
Proof.
  unfold needs_in_range, rates_nonneg, unit_interval, in_range.
  intros ([Hh0 Hh1] & [He0 He1] & [Hp0 Hp1] & [Hs0 Hs1])
         (Rh & Re & Rp & Rs) [Hm0 Hm1] Hdt.
  unfold update_needs.
  cbn [needs mood money with_needs_mood hunger energy happiness social_need
       with_value value decay_rate].
  destruct (decay_up_in_range _ _ _ Hh0 Hh1 Rh Hdt) as [A0 A1].
  destruct (decay_up_in_range _ _ _ Hs0 Hs1 Rs Hdt) as [B0 B1].
  destruct (decay_down_in_range _ _ _ Hp0 Hp1 Rp Hdt) as [C0 C1].
  destruct (decay_down_in_range _ _ _ He0 He1 Re Hdt) as [D0 D1].
  set (h' := py_min 100 (value (hunger (needs self)) + _)) in *.
  set (s' := py_min 100 (value (social_need (needs self)) + _)) in *.
  set (p' := py_max 0 (value (happiness (needs self)) - _)) in *.
  assert (Hdiv : forall x, 0 <= x -> x <= 400 -> 0 <= x / 400 /\ x / 400 <= 1).
  { intros x Hx0 Hx1. split.
    - apply Qle_shift_div_l; lra.
    - apply Qle_shift_div_r; lra. }
  destruct (action_eqb (current_action self) SLEEP) eqn:Ea;
    cbn [negb value decay_rate with_value].
  - destruct (Hdiv (100 - h' + value (energy (needs self)) + 100 - s' + p'))
      as [O0 O1]; [lra | lra |].
    repeat split; try assumption; lra.
  - set (e' := py_max 0 (value (energy (needs self)) - _)) in *.
    destruct (Hdiv (100 - h' + e' + 100 - s' + p')) as [O0 O1]; [lra | lra |].
    repeat split; try assumption; try lra.
    intro Hsl. rewrite Hsl in Ea. discriminate Ea.
Qed.

Lemma update_needs_keeps_ranges_witness :
  needs_in_range (needs (update_needs Scenario.alice (1#10)))
  /\ unit_interval (mood (update_needs Scenario.alice (1#10))).
Proof.
  destruct (update_needs_keeps_ranges Scenario.alice (1#10))
    as (H1 & _ & H2 & _).
  - unfold needs_in_range, in_range. repeat split; vm_compute; congruence.
  - unfold rates_nonneg. repeat split; vm_compute; congruence.
  - unfold unit_interval. split; vm_compute; congruence.
  - vm_compute; congruence.
  - split; [exact H1 | exact H2].
Defined.

End UpdateNeedsFacts.

(* ================================================================= *)
(** ** perform_action: ranges, failure, memory and counters *)

Module PerformInvariants.
Import NeedOps.

Ltac split_minmax :=
  unfold py_min, py_max;
  repeat match goal with
         | |- context [Qltb ?a ?b] => destruct (Qltb_spec a b)
         end.

(** X4: [perform_action] keeps the four needs in [0,100], whatever the
    action, for needs in range and [dt >= 0]; the decay rates of the four
    needs are the same after the call as before it. *)
Theorem perform_action_keeps_needs_in_range
    (self : VirtualHuman) (act : ActionType) (dt now : Q) :
  needs_in_range (needs self) ->
  0 <= dt ->
  let needs' := needs (fst (perform_action self act dt now)) in
  needs_in_range needs'
  /\ decay_rate (hunger needs') = decay_rate (hunger (needs self))
  /\ decay_rate (energy needs') = decay_rate (energy (needs self))
  /\ decay_rate (happiness needs') = decay_rate (happiness (needs self))
  /\ decay_rate (social_need needs') = decay_rate (social_need (needs self)).
Proof.
  intros Hrange Hdt needs'. subst needs'.
  unfold needs_in_range, in_range in *.
  destruct Hrange as ([Hh0 Hh1] & [He0 He1] & [Hp0 Hp1] & [Hs0 Hs1]).
  rewrite PerformFacts.perform_action_needs. unfold action_branch.
  destruct act; cbn zeta.
  - destruct (_ && _); cbn [e_needs hunger energy happiness social_need
                            with_value value decay_rate];
      (split; [repeat split; try assumption; split_minmax; lra
              | repeat split]).
  - destruct (Qltb 20 _); cbn [e_needs hunger energy happiness social_need
                               with_value value decay_rate];
      (split; [repeat split; try assumption; split_minmax; lra
              | repeat split]).
  - destruct (Qltb _ 90); cbn [e_needs hunger energy happiness social_need
                               with_value value decay_rate];
      (split; [repeat split; try assumption; split_minmax; lra
              | repeat split]).
  - destruct (_ && _); cbn [e_needs hunger energy happiness social_need
                            with_value value decay_rate];
      (split; [repeat split; try assumption; split_minmax; lra
              | repeat split]).
  - cbn [e_needs]. split; [tauto | repeat split].
Qed.

Lemma perform_action_keeps_needs_in_range_witness :
  needs_in_range (needs (fst (perform_action Scenario.alice WORK 3 0))).
Proof.
  pose proof (perform_action_keeps_needs_in_range Scenario.alice WORK 3 0)
    as H.
  cbv zeta in H. destruct H as [H _].
  - unfold needs_in_range, in_range. repeat split; vm_compute; congruence.
  - vm_compute; congruence.
  - exact H.
Defined.

Lemma strengths_update act f (hs : dict ActionType Habit) :
  (forall h, unit_interval (strength h) -> unit_interval (strength (f h))) ->
  strengths_in_range hs ->
  strengths_in_range (dict_update action_eqb act f hs).
Proof.
  intros Hf. unfold strengths_in_range.
  induction 1 as [|[k h] hs Hh Hall IH]; simpl; [constructor|].
  destruct (action_eqb act k).
  - constructor; [simpl in *; now apply Hf | exact Hall].
  - constructor; [exact Hh | exact IH].
Qed.

(** X5: [perform_action] keeps the mood in [0,1], every habit strength
    in [0,1] and the learned habit weight at most 0.5; the actions that
    have a habit stay the same. *)
Theorem perform_action_keeps_learned_ranges
    (self : VirtualHuman) (act : ActionType) (dt now : Q) :
  unit_interval (mood self) ->
  strengths_in_range (habits self) ->
  habit_strength (decision_weights self) <= 5#10 ->
  let self' := fst (perform_action self act dt now) in
  unit_interval (mood self')
  /\ strengths_in_range (habits self')
  /\ dict_keys (habits self') = dict_keys (habits self)
  /\ habit_strength (decision_weights self') <= 5#10
  /\ habit_strength (decision_weights self)
     <= habit_strength (decision_weights self').
Proof.
  intros [Hm0 Hm1] Hs Hw self'. subst self'. unfold unit_interval.
  unfold perform_action.
  cbn [fst mood habits decision_weights].
  split; [|split; [|split]].
  - destruct (e_success _); split; split_minmax; lra.
  - destruct (dict_mem action_eqb act (habits self)); [|exact Hs].
    apply strengths_update; [|exact Hs].
    intros h Hh. now apply HabitFacts.reinforce_strength.
  - destruct (dict_mem action_eqb act (habits self)); [|reflexivity].
    apply dict_keys_update.
  - destruct (e_success _ && Qltb _ _); cbn [habit_strength];
      split; split_minmax; lra.
Qed.

Lemma perform_action_keeps_learned_ranges_witness :
  unit_interval (mood (fst (perform_action Scenario.alice EAT (1#10) 0)))
  /\ strengths_in_range (habits (fst (perform_action Scenario.alice EAT (1#10) 0))).
Proof.
  destruct (perform_action_keeps_learned_ranges Scenario.alice EAT (1#10) 0)
    as (H1 & H2 & _).
  - split; vm_compute; congruence.
  - unfold strengths_in_range, unit_interval.
    repeat constructor; vm_compute; congruence.
  - vm_compute; congruence.
  - split; [exact H1 | exact H2].
Defined.

Lemma action_branch_success_iff self act dt :
  e_success (action_branch self act dt) = true <-> feasible self act.
Proof.
  unfold action_branch, feasible.
  destruct act; cbn zeta.
  - rewrite <- Qltb_lt, <- Qgeb_ge, <- andb_true_iff.
    destruct (_ && _); simpl; split; congruence.
  - rewrite <- Qltb_lt. destruct (Qltb 20 _); simpl; split; congruence.
  - rewrite <- Qltb_lt. destruct (Qltb _ 90); simpl; split; congruence.
  - rewrite <- Qltb_lt, <- Qgeb_ge, <- andb_true_iff.
    destruct (_ && _); simpl; split; congruence.
  - simpl. tauto.
Qed.

Lemma action_branch_failed self act dt :
  e_success (action_branch self act dt) = false ->
  action_branch self act dt = mkActionEffect (needs self) (money self) false 0 0.
Proof.
  unfold action_branch. destruct act; cbn zeta.
  - destruct (_ && _); simpl; congruence.
  - destruct (Qltb 20 _); simpl; congruence.
  - destruct (Qltb _ 90); simpl; congruence.
  - destruct (_ && _); simpl; congruence.
  - simpl. discriminate.
Qed.

Lemma pa_get_set {A} (t : PerAction A) (a b : ActionType) (x : A) :
  pa_get (pa_set t a x) b = if action_eqb b a then x else pa_get t b.
Proof. destruct a, b; reflexivity. Qed.

(** X6: [perform_action] returns success exactly when the guard of the
    action holds (IDLE always succeeds).  An infeasible action raises
    nothing and leaves needs and money as they were; it lowers the mood by
    0.05 (not below 0), charges the action 0.1 reward and is remembered
    with reward 0 and cost 0. *)
Theorem perform_action_failure (self : VirtualHuman) (act : ActionType)
    (dt now : Q) :
  let self' := fst (perform_action self act dt now) in
  (snd (perform_action self act dt now) = true <-> feasible self act)
  /\ (~ feasible self act ->
      needs self' = needs self
      /\ money self' = money self
      /\ mood self' = py_max 0 (mood self - (5#100))
      /\ pa_get (action_rewards self') act
         = pa_get (action_rewards self) act - (1#10)
      /\ decision_weights self' = decision_weights self
      /\ last (memory self')
              (mkMemoryRecord IDLE true 0 0 0 [] 0 0)
         = mkMemoryRecord act false 0 0 now (needs_values (needs self))
             (money self) (py_max 0 (mood self - (5#100)))).
Proof.
  intro self'. subst self'.
  split; [rewrite PerformFacts.perform_action_success; apply action_branch_success_iff|].
  intro Hnf.
  assert (Hf : e_success (action_branch self act dt) = false).
  { destruct (e_success (action_branch self act dt)) eqn:E; [|reflexivity].
    apply action_branch_success_iff in E. contradiction. }
  unfold perform_action. rewrite (action_branch_failed _ _ _ Hf).
  cbn [fst needs money mood action_rewards decision_weights memory
       e_needs e_money e_success e_reward e_cost andb].
  rewrite pa_get_set. destruct (action_eqb_spec act act); [|congruence].
  repeat split.
  unfold remember.
  destruct (memory self) as [|m0 ms]; [reflexivity|].
  destruct (Nat.ltb 100 _).
  - cbn [app tl]. destruct ms; [reflexivity | apply last_last].
  - apply last_last.
Qed.

Lemma perform_action_failure_witness :
  needs (fst (perform_action (Scenario.with_money Scenario.alice 2)
                SOCIALIZE (1#10) 0))
  = needs Scenario.alice
  /\ money (fst (perform_action (Scenario.with_money Scenario.alice 2)
                   SOCIALIZE (1#10) 0)) = 2.
Proof.
  destruct (perform_action_failure (Scenario.with_money Scenario.alice 2)
              SOCIALIZE (1#10) 0) as [_ H].
  destruct H as (H1 & H2 & _).
  - unfold feasible. intros [_ Hm]. vm_compute in Hm. now apply Hm.
  - split; [exact H1 | exact H2].
Defined.

End PerformInvariants.

Module MemoryFacts.

Lemma remember_length (mem : list MemoryRecord) (m : MemoryRecord) :
  (List.length mem <= 100)%nat ->
  List.length (remember mem m) = Nat.min 100 (S (List.length mem)).
Proof.
  intro H. unfold remember.
  rewrite length_app. cbn [List.length].
  destruct (Nat.ltb_spec 100 (List.length mem + 1)) as [Hfull|Hroom].
  - destruct mem as [|m0 ms]; cbn [List.length] in *; [lia|].
    cbn [app tl]. rewrite length_app. cbn [List.length]. lia.
  - rewrite length_app. cbn [List.length]. lia.
Qed.

Lemma remember_full (mem : list MemoryRecord) (m : MemoryRecord) :
  List.length mem = 100%nat -> remember mem m = tl mem ++ [m].
Proof.
  intro H. unfold remember. rewrite length_app, H. cbn [List.length].
  destruct mem as [|m0 ms]; [discriminate H | reflexivity].
Qed.

Lemma remember_room (mem : list MemoryRecord) (m : MemoryRecord) :
  (List.length mem < 100)%nat -> remember mem m = mem ++ [m].
Proof.
  intro H. unfold remember. rewrite length_app. cbn [List.length].
  destruct (Nat.ltb_spec 100 (List.length mem + 1)); [lia | reflexivity].
Qed.

(** X7: the memory is a window of the last 100 records: a memory of at
    most 100 records has [min(100, n+1)] records after [perform_action];
    below 100 the new record is appended, at 100 the oldest record is
    dropped and the new one appended.  The new record holds the action,
    the returned flag and the money and needs after the action. *)
Theorem perform_action_memory_window
    (self : VirtualHuman) (act : ActionType) (dt now : Q) :
  (List.length (memory self) <= 100)%nat ->
  let self' := fst (perform_action self act dt now) in
  exists record,
    List.length (memory self') = Nat.min 100 (S (List.length (memory self)))
    /\ ((List.length (memory self) < 100)%nat ->
        memory self' = memory self ++ [record])
    /\ (List.length (memory self) = 100%nat ->
        memory self' = tl (memory self) ++ [record])
    /\ m_action record = act
    /\ m_success record = snd (perform_action self act dt now)
    /\ m_money record = money self'
    /\ m_needs_state record = needs_values (needs self')
    /\ m_mood record = mood self'
    /\ m_timestamp record = now.
Proof.
  intros Hlen self'. subst self'. unfold perform_action.
  cbn [fst snd memory money needs mood].
  eexists. split; [apply remember_length; exact Hlen|].
  split; [apply remember_room|]. split; [apply remember_full|].
  repeat split.
Qed.

Lemma perform_action_memory_window_witness :
  List.length (memory (fst (perform_action Scenario.veteran EAT (1#10) 0)))
  = 11%nat.
Proof.
  destruct (perform_action_memory_window Scenario.veteran EAT (1#10) 0)
    as (record & H & _).
  - vm_compute. lia.
  - exact H.
Defined.

(** X8: [perform_action] counts one more attempt for the action performed
    and for no other; the accumulated rewards of the other actions are
    left as they were, and that of the action grows by the reward of the
    record on success and shrinks by 0.1 on failure. *)
Theorem perform_action_counters
    (self : VirtualHuman) (act : ActionType) (dt now : Q) :
  let self' := fst (perform_action self act dt now) in
  pa_get (action_counts self') act = (pa_get (action_counts self) act + 1)%Z
  /\ (forall other, other <> act ->
        pa_get (action_counts self') other = pa_get (action_counts self) other
        /\ pa_get (action_rewards self') other
           = pa_get (action_rewards self) other)
  /\ pa_get (action_rewards self') act
     = (if snd (perform_action self act dt now)
        then pa_get (action_rewards self) act
             + e_reward (action_branch self act dt)
        else pa_get (action_rewards self) act - (1#10))
  /\ total_actions self' = total_actions self
  /\ current_action self' = current_action self.
Proof.
  intro self'. subst self'. unfold perform_action.
  cbn [fst snd action_counts action_rewards total_actions current_action].
  split; [|split; [|split]].
  - rewrite PerformInvariants.pa_get_set.
    now destruct (action_eqb_spec act act).
  - intros other Hne. split.
    + rewrite PerformInvariants.pa_get_set.
      now destruct (action_eqb_spec other act).
    + destruct (e_success _); rewrite PerformInvariants.pa_get_set;
        now destruct (action_eqb_spec other act).
  - destruct (e_success _); rewrite PerformInvariants.pa_get_set;
      now destruct (action_eqb_spec act act).
  - split; reflexivity.
Qed.

End MemoryFacts.

(* ================================================================= *)
(** ** Utilities *)

Module UtilityFacts.

Lemma py_max_mono (a b : Q) : a <= b -> py_max 0 a <= py_max 0 b.
Proof.
  intro H. unfold py_max.
  destruct (Qltb_spec 0 a), (Qltb_spec 0 b); lra.
Qed.

(** X9: other things equal, the utility of EAT does not fall when hunger
    rises, for an agent with discipline >= 0 and mood >= 0; it is never
    negative. *)
Theorem eat_utility_rises_with_hunger
    (self : VirtualHuman) (h1 h2 now noise_roll : Q) :
  0 <= discipline (personality self) ->
  0 <= mood self ->
  h1 <= h2 ->
  calculate_action_utility (Scenario.with_hunger self h1) EAT now noise_roll
  <= calculate_action_utility (Scenario.with_hunger self h2) EAT now noise_roll
  /\ 0 <= calculate_action_utility (Scenario.with_hunger self h1) EAT now
            noise_roll.
Proof.
  intros Hd Hm Hh. split; [|apply py_max_ge_l].
  unfold calculate_action_utility. apply py_max_mono.
  unfold need_utility, habit_utility, personality_factor, learned_utility.
  cbn [Scenario.with_hunger with_needs needs hunger with_value value money
       habits personality mood decision_weights action_counts
       action_rewards].
  set (hab := match dict_get action_eqb EAT (habits self) with
              | Some habit => _ | None => 0 end).
  set (learned := if (0 <? pa_get (action_counts self) EAT)%Z then _ else 0).
  set (noise := uniform _ _ _).
  set (pf := (5 # 10) + discipline (personality self) * (5 # 10)).
  set (mf := (7 # 10) + mood self * (6 # 10)).
  assert (Hpf : 0 <= pf) by (subst pf; lra).
  assert (Hmf : 0 <= mf) by (subst mf; lra).
  assert (H1 : 0 + h1 / 100 * 3 - money self * (1 # 1000) + hab
               <= 0 + h2 / 100 * 3 - money self * (1 # 1000) + hab).
  { assert (h1 / 100 <= h2 / 100).
    { unfold Qdiv. apply Qmult_le_compat_r; [exact Hh | discriminate]. }
    lra. }
  assert (H2 := Qmult_le_compat_r _ _ pf H1 Hpf).
  assert (H3 := Qmult_le_compat_r _ _ mf H2 Hmf).
  lra.
Qed.

Lemma eat_utility_rises_with_hunger_witness :
  calculate_action_utility (Scenario.with_hunger Scenario.alice 20) EAT 0 (1#2)
  <= calculate_action_utility (Scenario.with_hunger Scenario.alice 95) EAT 0 (1#2).
Proof.
  apply (proj1 (eat_utility_rises_with_hunger Scenario.alice 20 95 0 (1#2)
                  ltac:(vm_compute; congruence) ltac:(vm_compute; congruence)
                  ltac:(vm_compute; congruence))).
Defined.

(** X10: other things equal, the utility of SLEEP does not rise when
    energy rises, for an agent with mood >= 0. *)
Theorem sleep_utility_falls_with_energy
    (self : VirtualHuman) (e1 e2 now noise_roll : Q) :
  0 <= mood self ->
  e1 <= e2 ->
  calculate_action_utility (with_energy self e2) SLEEP now noise_roll
  <= calculate_action_utility (with_energy self e1) SLEEP now noise_roll.
Proof.
  intros Hm He.
  unfold calculate_action_utility. apply py_max_mono.
  unfold need_utility, habit_utility, personality_factor, learned_utility.
  cbn [with_energy with_needs needs energy with_value value money
       habits personality mood decision_weights action_counts
       action_rewards].
  set (hab := match dict_get action_eqb SLEEP (habits self) with
              | Some habit => _ | None => 0 end).
  set (learned := if (0 <? pa_get (action_counts self) SLEEP)%Z then _ else 0).
  set (noise := uniform _ _ _).
  set (mf := (7 # 10) + mood self * (6 # 10)).
  assert (Hmf : 0 <= mf) by (subst mf; lra).
  assert (H1 : 0 + (100 - e2) / 100 * (25 # 10) + hab
               <= 0 + (100 - e1) / 100 * (25 # 10) + hab).
  { assert ((100 - e2) / 100 <= (100 - e1) / 100).
    { unfold Qdiv. apply Qmult_le_compat_r; [lra | discriminate]. }
    lra. }
  assert (H2 := Qmult_le_compat_r _ _ 1 H1 ltac:(lra)).
  assert (H3 := Qmult_le_compat_r _ _ mf H2 Hmf).
  lra.
Qed.

Lemma sleep_utility_falls_with_energy_witness :
  calculate_action_utility (with_energy Scenario.alice 90) SLEEP 0 (1#2)
  <= calculate_action_utility (with_energy Scenario.alice 10) SLEEP 0 (1#2).
Proof.
  apply (sleep_utility_falls_with_energy Scenario.alice 10 90 0 (1#2));
    vm_compute; congruence.
Defined.

End UtilityFacts.

(* ================================================================= *)
(** ** The update step *)

Module UpdateFacts.

Lemma Qleb_le a b : Qleb a b = true <-> a <= b.
Proof. unfold Qleb. rewrite negb_true_iff. apply Qltb_ge. Qed.

Lemma Qleb_gt a b : Qleb a b = false <-> b < a.
Proof. unfold Qleb. rewrite negb_false_iff. apply Qltb_lt. Qed.

(** X11: an agent is committed to its action.  While the remaining
    duration is positive, [update] only lets the needs and the mood drift
    and the duration run down by [dt]: nothing is decided, performed,
    paid or remembered.  When the duration is at most 0, exactly one
    action, the one decided, is performed and counted: needs, money, mood,
    habits, weights, rewards, counts and memory are those that
    [perform_action] leaves on the agent after its needs have drifted,
    the satisfaction recorded is the mean of the needs it leaves, and a
    new duration is drawn, of which [dt] is taken at once. *)
Theorem update_commits (self : VirtualHuman) (dt : Q) (decided : ActionType)
    (duration_roll now : Q) :
  let self' := update self dt decided duration_roll now in
  let performed :=
    fst (perform_action
           (with_current_action (update_needs self dt) decided
              (uniform 1 3 duration_roll))
           decided dt now) in
  (0 < action_duration self ->
     self' = with_action_duration (update_needs self dt)
               (action_duration self - dt)
     /\ current_action self' = current_action self
     /\ memory self' = memory self
     /\ money self' = money self
     /\ total_actions self' = total_actions self
     /\ action_history self' = action_history self)
  /\ (action_duration self <= 0 ->
        current_action self' = decided
        /\ action_duration self' = uniform 1 3 duration_roll - dt
        /\ total_actions self' = (total_actions self + 1)%Z
        /\ action_history self' = action_history self ++ [decided]
        /\ satisfaction_history self'
           = satisfaction_history self ++ [satisfaction_of (needs performed)]
        /\ needs self' = needs performed
        /\ money self' = money performed
        /\ mood self' = mood performed
        /\ habits self' = habits performed
        /\ decision_weights self' = decision_weights performed
        /\ action_rewards self' = action_rewards performed
        /\ action_counts self' = action_counts performed
        /\ memory self' = memory performed).
Proof.
  intros self' performed. subst self' performed. unfold update.
  change (action_duration (update_needs self dt)) with (action_duration self).
  split; intro H.
  - apply Qleb_gt in H. rewrite H. repeat split.
  - apply Qleb_le in H. rewrite H. repeat split.
Qed.

Lemma update_commits_witness :
  current_action (update (with_action_duration Scenario.alice 2) (1#10) EAT
                    (1#2) 0)
  = current_action Scenario.alice
  /\ current_action (update Scenario.alice (1#10) EAT (1#2) 0) = EAT.
Proof.
  split.
  - pose proof (update_commits (with_action_duration Scenario.alice 2)
                  (1#10) EAT (1#2) 0) as H.
    cbv zeta in H. destruct H as [H _].
    destruct H as (_ & H & _); [reflexivity | exact H].
  - pose proof (update_commits Scenario.alice (1#10) EAT (1#2) 0) as H.
    cbv zeta in H. destruct H as [_ H].
    destruct H as (H & _); [vm_compute; congruence | exact H].
Defined.

End UpdateFacts.

(* ================================================================= *)
(** ** Pattern effectiveness *)

Module EffectivenessFacts.




Lemma update_first_match_cons state suggested success k p ps :
  update_first_match state suggested success ((k, p) :: ps)
  = if credited state suggested p
    then (k, update_effectiveness p success) :: ps
    else (k, p) :: update_first_match state suggested success ps.
Proof. reflexivity. Qed.

(** X13: [update_pattern_effectiveness] updates the first pattern, in
    store order, that matches the agent's state and starts with the
    suggested action, and no other; when no pattern does, the store is
    left as it is.  Ids and their order never change. *)
Theorem update_pattern_effectiveness_first_match
    (self : GenerativeBehaviorModel) (agent : VirtualHuman)
    (suggested : ActionType) (success : bool) (now : Q) :
  let state := agent_state_of agent now in
  let self' := update_pattern_effectiveness self agent suggested success now in
  dict_keys (patterns self') = dict_keys (patterns self)
  /\ pattern_counter self' = pattern_counter self
  /\ (forallb (fun kp => negb (credited state suggested (snd kp)))
              (patterns self) = true ->
      self' = self)
  /\ (forall before k p after,
        patterns self = before ++ (k, p) :: after ->
        forallb (fun kp => negb (credited state suggested (snd kp))) before
        = true ->
        credited state suggested p = true ->
        patterns self'
        = before ++ (k, update_effectiveness p success) :: after).
Proof.
  intros state self'. subst state self'.
  unfold update_pattern_effectiveness. cbn [patterns pattern_counter with_patterns].
  set (state := agent_state_of agent now).
  assert (Hkeys : forall ps,
            dict_keys (update_first_match state suggested success ps)
            = dict_keys ps).
  { induction ps as [|[k p] ps IH]; [reflexivity|].
    rewrite update_first_match_cons.
    destruct (credited state suggested p); [reflexivity|].
    unfold dict_keys in *. cbn [map fst]. now rewrite IH. }
  assert (Hnone : forall ps,
            forallb (fun kp => negb (credited state suggested (snd kp))) ps = true ->
            update_first_match state suggested success ps = ps).
  { induction ps as [|[k p] ps IH]; [reflexivity|].
    rewrite update_first_match_cons. cbn [forallb snd].
    destruct (credited state suggested p); cbn [negb andb]; [discriminate|].
    intro H. now rewrite IH. }
  split; [apply Hkeys|]. split; [reflexivity|]. split.
  - intro H. rewrite Hnone by assumption. now destruct self.
  - intros before k p after Hps Hbefore Hp. rewrite Hps. clear Hps.
    induction before as [|[k0 p0] before IH].
    + cbn [app]. rewrite update_first_match_cons. now rewrite Hp.
    + cbn [forallb snd] in Hbefore. apply andb_true_iff in Hbefore.
      destruct Hbefore as [H0 Hrest].
      cbn [app]. rewrite update_first_match_cons.
      destruct (credited state suggested p0); [discriminate H0|].
      now rewrite IH.
Qed.

Lemma update_pattern_effectiveness_first_match_witness :
  patterns (update_pattern_effectiveness Scenario.miner Scenario.alice SLEEP
              true 0)
  = [("pattern_0_0"%string, Scenario.failing);
     ("pattern_1_1"%string, update_effectiveness Scenario.proven true)].
Proof.
  pose proof (update_pattern_effectiveness_first_match Scenario.miner
                Scenario.alice SLEEP true 0) as H.
  cbv zeta in H. destruct H as (_ & _ & _ & H).
  apply (H [("pattern_0_0"%string, Scenario.failing)] "pattern_1_1"%string
           Scenario.proven []); reflexivity.
Defined.

End EffectivenessFacts.

(* ================================================================= *)
(** ** What suggest_action suggests *)

Module SuggestSoundness.

Lemma py_max_by_max {A} (key : A -> Q) (rest : list A) (best : A) :
  key best <= key (py_max_by key best rest)
  /\ forall x, In x rest -> key x <= key (py_max_by key best rest).
Proof.
  revert best. induction rest as [|y rest IH]; intro best; simpl.
  - split; [lra | tauto].
  - destruct (IH (if Qltb (key best) (key y) then y else best)) as [H1 H2].
    destruct (Qltb_spec (key best) (key y)) as [Hlt|Hge].
    + split; [lra|]. intros x [->|Hx]; [exact H1 | now apply H2].
    + split; [exact H1|]. intros x [->|Hx]; [lra | now apply H2].
Qed.

(** X14: an action suggested by [suggest_action] is the first action of a
    stored pattern that matches the agent's state, has been used at least
    [min_pattern_usage] times and has a success rate above 0.6, and whose
    recency score is the highest among the stored patterns that pass
    these tests; and the roll was not below the exploration rate. *)
Theorem suggest_action_sound
    (self : GenerativeBehaviorModel) (agent : VirtualHuman)
    (roll now : Q) (a : ActionType) :
  snd (suggest_action self agent roll now) = Some a ->
  exploration_rate self <= roll
  /\ exists k p,
       In (k, p) (patterns self)
       /\ hd_error (actions p) = Some a
       /\ matches_conditions p (agent_state_of agent now) (8#10) = true
       /\ (min_pattern_usage self <= usage_count p)%Z
       /\ 6#10 < success_rate p
       /\ forall k' p',
            In (k', p') (patterns self) ->
            eligible self (agent_state_of agent now) p' = true ->
            recency_score p' <= recency_score p.
Proof.
  unfold suggest_action.
  destruct (Qltb_spec roll (exploration_rate self)) as [Hlt|Hge];
    [discriminate|].
  destruct (filter _ (patterns self)) as [|first rest] eqn:Ef; [discriminate|].
  set (key := fun kp : string * BehaviorPattern => recency_score (snd kp)).
  set (best := py_max_by key first rest).
  destruct (actions (snd best)) as [|a0 acts] eqn:Ea; [discriminate|].
  cbn [snd]. intro H. inversion H; subst a0. clear H.
  split; [now apply Qnot_lt_le|].
  assert (Hin : In best (first :: rest)) by apply SuggestFacts.py_max_by_In.
  rewrite <- Ef in Hin. apply filter_In in Hin. destruct Hin as [Hin Hel].
  exists (fst best), (snd best).
  split; [now destruct best|]. split; [now rewrite Ea|].
  unfold eligible in Hel. apply andb_true_iff in Hel. destruct Hel as [Hel H3].
  apply andb_true_iff in Hel. destruct Hel as [H1 H2].
  split; [exact H1|]. split; [now apply Z.leb_le|]. split; [now apply Qltb_lt|].
  intros k' p' Hin' Hel'.
  assert (Hf : In (k', p') (first :: rest)).
  { rewrite <- Ef. apply filter_In. split; [exact Hin' | exact Hel']. }
  destruct (py_max_by_max key rest first) as [Hfirst Hrest].
  destruct Hf as [E|Hf]; [|exact (Hrest _ Hf)].
  subst best. rewrite E in *. exact Hfirst.
Qed.

Lemma suggest_action_sound_witness :
  exists k p,
    In (k, p) (patterns Scenario.miner)
    /\ hd_error (actions p) = Some SLEEP
    /\ (5 <= usage_count p)%Z.
Proof.
  destruct (suggest_action_sound Scenario.miner Scenario.alice (1#2) 0 SLEEP)
    as (_ & k & p & H1 & H2 & _ & H3 & _).
  - reflexivity.
  - exists k, p. split; [exact H1|]. split; [exact H2 | exact H3].
Defined.

Lemma suggest_action_cold_start_aux
    (self : GenerativeBehaviorModel) (agent : VirtualHuman) (roll now : Q) :
  Forall (fun kp => (usage_count (snd kp) < min_pattern_usage self)%Z
                    \/ success_rate (snd kp) <= 6#10)
         (patterns self) ->
  suggest_action self agent roll now = (self, None).
Proof.
  intro Hcold. unfold suggest_action.
  destruct (Qltb roll (exploration_rate self)); [reflexivity|].
  assert (Hnil : filter (fun kp => eligible self (agent_state_of agent now) (snd kp))
                        (patterns self) = []).
  { induction Hcold as [|kp ps Hkp _ IH]; [reflexivity|].
    cbn [filter]. rewrite IH.
    assert (E : eligible self (agent_state_of agent now) (snd kp) = false).
    { unfold eligible. destruct Hkp as [Hu|Hs].
      - apply Z.leb_gt in Hu. rewrite Hu. now rewrite andb_false_r.
      - apply Qltb_ge in Hs. rewrite Hs. now rewrite andb_false_r. }
    now rewrite E. }
  now rewrite Hnil.
Qed.



End SuggestSoundness.

(* ================================================================= *)
(** ** The store through evolve_patterns *)

Section DictShape.
Context {K V : Type} (eqb : K -> K -> bool).
Hypothesis eqb_spec : forall a b, reflect (a = b) (eqb a b).

Lemma dict_keys_set k v (d : dict K V) :
  dict_keys (dict_set eqb k v d)
  = if dict_mem eqb k d then dict_keys d else dict_keys d ++ [k].
Proof.
  unfold dict_mem.
  induction d as [|[k0 v0] d IH]; simpl; [reflexivity|].
  destruct (eqb_spec k k0) as [->|Hne]; simpl; [reflexivity|].
  rewrite IH. now destruct (dict_get eqb k d).
Qed.

Lemma dict_wf_set k v (d : dict K V) :
  dict_wf d -> dict_wf (dict_set eqb k v d).
Proof.
  unfold dict_wf. intro Hwf. rewrite dict_keys_set.
  unfold dict_mem.
  destruct (dict_get eqb k d) eqn:E; [exact Hwf|].
  apply (dict_get_None eqb eqb_spec) in E.
  apply NoDup_app; [exact Hwf | repeat constructor; simpl; tauto |].
  intros x Hx [<-|[]]. contradiction.
Qed.

Lemma dict_keys_set_prefix k v (d : dict K V) :
  exists extra, dict_keys (dict_set eqb k v d) = dict_keys d ++ extra.
Proof.
  rewrite dict_keys_set. destruct (dict_mem eqb k d).
  - exists []. now rewrite app_nil_r.
  - now exists [k].
Qed.

Lemma length_dict_set k v (d : dict K V) :
  (List.length (dict_set eqb k v d) <= S (List.length d))%nat.
Proof.
  induction d as [|[k0 v0] d IH]; simpl; [lia|].
  destruct (eqb k k0); simpl; lia.
Qed.

Lemma length_dict_del k (d : dict K V) :
  (List.length (dict_del eqb k d) <= List.length d)%nat.
Proof.
  induction d as [|[k0 v0] d IH]; simpl; [lia|].
  destruct (eqb k k0); simpl; lia.
Qed.

Lemma dict_get_update k k' f (d : dict K V) :
  dict_get eqb k (dict_update eqb k' f d)
  = if eqb k k' then option_map f (dict_get eqb k d) else dict_get eqb k d.
Proof.
  induction d as [|[k0 v0] d IH]; simpl.
  - now destruct (eqb k k').
  - destruct (eqb_spec k' k0) as [->|Hne]; simpl.
    + destruct (eqb_spec k k0) as [->|Hne']; [reflexivity|].
      now destruct (eqb k k0).
    + destruct (eqb_spec k k0) as [->|Hne'].
      * destruct (eqb_spec k0 k'); [congruence | reflexivity].
      * exact IH.
Qed.

End DictShape.

Module EvolveInvariants.

Lemma set_all_wf (l : list (string * BehaviorPattern))
    (d : dict string BehaviorPattern) :
  dict_wf d ->
  dict_wf (fold_left (fun d kv => dict_set String.eqb (fst kv) (snd kv) d) l d).
Proof.
  revert d. induction l as [|kv l IH]; intros d Hd; [exact Hd|].
  simpl. apply IH. now apply (dict_wf_set String.eqb String.eqb_spec).
Qed.

Lemma set_all_length (l : list (string * BehaviorPattern))
    (d : dict string BehaviorPattern) :
  (List.length
     (fold_left (fun d kv => dict_set String.eqb (fst kv) (snd kv) d) l d)
   <= List.length d + List.length l)%nat.
Proof.
  revert d. induction l as [|kv l IH]; intro d; simpl; [lia|].
  specialize (IH (dict_set String.eqb (fst kv) (snd kv) d)).
  pose proof (length_dict_set String.eqb (fst kv) (snd kv) d). lia.
Qed.

Lemma del_all_wf (ids : list string) (d : dict string BehaviorPattern) :
  dict_wf d ->
  dict_wf (fold_left (fun d id => dict_del String.eqb id d) ids d).
Proof.
  revert d. induction ids as [|id ids IH]; intros d Hd; [exact Hd|].
  simpl. apply IH. now apply (dict_wf_del String.eqb).
Qed.

Lemma del_all_length (ids : list string) (d : dict string BehaviorPattern) :
  (List.length (fold_left (fun d id => dict_del String.eqb id d) ids d)
   <= List.length d)%nat.
Proof.
  revert d. induction ids as [|id ids IH]; intro d; simpl; [lia|].
  specialize (IH (dict_del String.eqb id d)).
  pose proof (length_dict_del String.eqb id d). lia.
Qed.

Lemma prune_wf self : dict_wf (patterns self) -> dict_wf (patterns (prune self)).
Proof.
  intro Hwf. unfold prune, remove_patterns. cbn [patterns with_patterns].
  apply del_all_wf. unfold dict_wf.
  now rewrite EvolvePatternsFacts.dict_keys_age_all.
Qed.

Lemma prune_length self :
  (List.length (patterns (prune self)) <= List.length (patterns self))%nat.
Proof.
  unfold prune, remove_patterns. cbn [patterns with_patterns].
  etransitivity; [apply del_all_length|].
  unfold age_all. now rewrite length_map.
Qed.

Lemma minted_from_length draws k counter todo :
  (List.length (minted_from draws k counter todo) <= List.length todo)%nat.
Proof.
  revert k counter. induction todo as [|p todo IH]; intros k counter; simpl;
    [lia|].
  destruct (Qltb _ _); simpl.
  - specialize (IH (S k) (S counter)). lia.
  - specialize (IH (S k) counter). lia.
Qed.

Lemma mutate_loop_counter draws k todo self :
  pattern_counter (mutate_loop draws k todo self)
  = (pattern_counter self
     + List.length (minted_from draws k (pattern_counter self) todo))%nat.
Proof.
  revert k self. induction todo as [|p todo IH]; intros k self; simpl; [lia|].
  destruct (Qltb (mutate_roll (draws k)) (1#10)).
  - rewrite IH. unfold _create_pattern_mutation.
    destruct (mutation_of (pattern_counter self) (draws k) p) as [mid mp].
    cbn [pattern_counter List.length]. lia.
  - apply IH.
Qed.

(** X16: [evolve_patterns] keeps the store a dict with unique ids, adds
    at most three patterns to it, and advances the pattern counter by the
    number of mutants it stores, at most three. *)
Theorem evolve_patterns_bounded_growth
    (draws : nat -> MutationDraws) (self : GenerativeBehaviorModel) :
  dict_wf (patterns self) ->
  let self' := evolve_patterns draws self in
  dict_wf (patterns self')
  /\ (List.length (patterns self') <= List.length (patterns self) + 3)%nat
  /\ pattern_counter self'
     = (pattern_counter self + List.length (minted draws self))%nat
  /\ (List.length (minted draws self) <= 3)%nat
  /\ min_pattern_usage self' = min_pattern_usage self.
Proof.
  intros Hwf self'. subst self'.
  unfold evolve_patterns, _mutate_successful_patterns, minted.
  assert (Hm : (List.length
                  (minted_from draws 0 (pattern_counter (prune self))
                     (firstn 3 (successful_patterns (prune self)))) <= 3)%nat).
  { etransitivity; [apply minted_from_length|]. apply firstn_le_length. }
  split; [|split; [|split; [|split]]].
  - rewrite EvolvePatternsFacts.mutate_loop_patterns.
    apply set_all_wf. now apply prune_wf.
  - rewrite EvolvePatternsFacts.mutate_loop_patterns.
    etransitivity; [apply set_all_length|].
    pose proof (prune_length self). lia.
  - rewrite mutate_loop_counter. reflexivity.
  - exact Hm.
  - now rewrite EvolvePatternsFacts.mutate_loop_min_usage.
Qed.

Lemma evolve_patterns_bounded_growth_witness :
  dict_wf (patterns (evolve_patterns Scenario.eager_draws Scenario.miner))
  /\ pattern_counter (evolve_patterns Scenario.eager_draws Scenario.miner) = 3%nat.
Proof.
  destruct (evolve_patterns_bounded_growth Scenario.eager_draws Scenario.miner
              ScenarioFacts.miner_wf) as (H1 & _ & H2 & _).
  split; [exact H1 | exact H2].
Defined.

Lemma mutant_not_removable min_usage counter d p :
  8#10 < success_rate p ->
  to_remove min_usage (snd (mutation_of counter d p)) = false.
Proof.
  intro Hs. unfold to_remove, ineffective, unused_old, mutation_of.
  cbn [snd BehaviorPattern_init success_rate usage_count last_used].
  assert (E : Qltb (success_rate p * (9#10)) (3#10) = false)
    by (apply Qltb_ge; lra).
  rewrite E, andb_false_r. reflexivity.
Qed.

Lemma minted_from_not_removable min_usage draws k counter todo :
  Forall (fun p => 8#10 < success_rate p) todo ->
  Forall (fun kv => to_remove min_usage (snd kv) = false)
         (minted_from draws k counter todo).
Proof.
  intro Hall. revert k counter.
  induction Hall as [|p todo Hp _ IH]; intros k counter; simpl; [constructor|].
  destruct (Qltb _ _); [|apply IH].
  constructor; [now apply mutant_not_removable | apply IH].
Qed.

Lemma successful_patterns_rate self :
  Forall (fun p => 8#10 < success_rate p) (successful_patterns self).
Proof.
  unfold successful_patterns. apply Forall_forall. intros p Hp.
  apply filter_In in Hp. destruct Hp as [_ Hp].
  apply andb_true_iff in Hp. destruct Hp as [Hp _]. now apply Qltb_lt.
Qed.

Lemma Forall_firstn {A} (P : A -> Prop) n (l : list A) :
  Forall P l -> Forall P (firstn n l).
Proof.
  intro H. revert n. induction H as [|x l Hx _ IH]; intros [|n]; simpl;
    constructor; auto.
Qed.

(** X17: after [evolve_patterns] no pattern in the store meets the
    removal test: the survivors have failed it and the mutants, with
    usage count 0, recency 0 and nine tenths of a success rate above 0.8,
    fail it too. *)
Theorem evolve_patterns_leaves_no_removable
    (draws : nat -> MutationDraws) (self : GenerativeBehaviorModel) :
  dict_wf (patterns self) ->
  forall id q,
    In (id, q) (patterns (evolve_patterns draws self)) ->
    ~ removal_condition (min_pattern_usage self) q.
Proof.
  intros Hwf id q Hin Hrem.
  apply EvolvePatternsFacts.to_remove_iff in Hrem.
  assert (Hwf' : dict_wf (patterns (evolve_patterns draws self))).
  { unfold evolve_patterns, _mutate_successful_patterns.
    rewrite EvolvePatternsFacts.mutate_loop_patterns.
    apply set_all_wf. now apply prune_wf. }
  apply (In_dict_get String.eqb String.eqb_spec _ _ _ Hwf') in Hin.
  rewrite EvolvePatternsFacts.evolve_patterns_lookup in Hin by assumption.
  destruct (dict_get String.eqb id (rev (minted draws self))) as [m|] eqn:Em.
  - inversion Hin; subst m.
    apply (dict_get_In String.eqb String.eqb_spec) in Em. apply in_rev in Em.
    pose proof (minted_from_not_removable (min_pattern_usage self) draws 0
                  (pattern_counter (prune self))
                  (firstn 3 (successful_patterns (prune self)))
                  (Forall_firstn _ 3 _ (successful_patterns_rate (prune self))))
      as Hall.
    rewrite Forall_forall in Hall. specialize (Hall _ Em). simpl in Hall.
    congruence.
  - unfold aged_survivor in Hin.
    destruct (dict_get String.eqb id (patterns self)) as [p|]; [|discriminate].
    destruct (to_remove (min_pattern_usage self) (age p)) eqn:E; [discriminate|].
    inversion Hin; subst q. congruence.
Qed.

Lemma evolve_patterns_leaves_no_removable_witness :
  ~ removal_condition 5 (age Scenario.proven).
Proof.
  apply (evolve_patterns_leaves_no_removable Scenario.eager_draws
           Scenario.miner ScenarioFacts.miner_wf "pattern_1_1"%string).
  vm_compute. left. reflexivity.
Defined.

End EvolveInvariants.

(* ================================================================= *)
(** ** Mutants *)

Module MutationFacts.

Lemma list_set_out {A} (j : nat) (x y : A) (t : list A) :
  nth_error t j = Some y -> Permutation (x :: t) (y :: list_set j x t).
Proof.
  revert j. induction t as [|z t IH]; intros [|j]; simpl; try discriminate.
  - intro E. inversion E; subst. apply perm_swap.
  - intro E. specialize (IH j E).
    eapply perm_trans; [apply perm_swap|].
    eapply perm_trans; [apply perm_skip; exact IH|].
    apply perm_swap.
Qed.

Lemma list_set_same {A} (i : nat) (x : A) (t : list A) :
  nth_error t i = Some x -> list_set i x t = t.
Proof.
  revert i. induction t as [|z t IH]; intros [|i]; simpl; try discriminate.
  - intro E. now inversion E.
  - intro E. now rewrite IH.
Qed.

Lemma swap_values {A} (i j : nat) (xi xj : A) (xs : list A) :
  nth_error xs i = Some xi -> nth_error xs j = Some xj ->
  Permutation xs (list_set j xi (list_set i xj xs)).
Proof.
  revert i j. induction xs as [|x xs IH]; intros [|i] [|j]; simpl;
    try discriminate.
  - intros E1 E2. inversion E1; inversion E2; subst. apply Permutation_refl.
  - intros E1 E2. inversion E1; subst. now apply list_set_out.
  - intros E1 E2. inversion E2; subst. now apply list_set_out.
  - intros E1 E2. apply perm_skip. now apply IH.
Qed.

Lemma swap_Permutation {A} (i j : nat) (xs : list A) :
  Permutation xs (swap i j xs).
Proof.
  unfold swap.
  destruct (nth_error xs i) eqn:Ei; [|apply Permutation_refl].
  destruct (nth_error xs j) eqn:Ej; [|apply Permutation_refl].
  now apply swap_values.
Qed.

Lemma perturb_conditions_shape rolls k conds :
  Forall2 (fun kv kv' => fst kv' = fst kv /\ perturbed (snd kv) (snd kv'))
          conds (perturb_conditions rolls k conds).
Proof.
  revert k. induction conds as [|[key v] conds IH]; intro k; simpl;
    [constructor|].
  destruct (json_number v) eqn:En.
  - constructor; [|apply IH].
    split; [reflexivity|]. unfold perturbed. cbn [snd]. rewrite En.
    eexists. split; [reflexivity|]. split.
    + apply py_max_ge_l.
    + apply py_max_lub; [lra | apply py_min_le_l].
  - constructor; [|apply IH].
    split; [reflexivity|]. unfold perturbed. cbn [snd]. now rewrite En.
Qed.

(** X18: the mutant of a pattern keeps the parent's condition names in
    order; every numeric condition becomes a float clamped to [0,1],
    whatever the scale of the parent's value, and any other value is
    kept.  The mutant's actions are a permutation of the parent's, its
    success rate is nine tenths of the parent's, and it starts unused,
    with recency 0 and an empty history, under the id
    [mutation_<counter>_<parent id>]. *)
Theorem mutation_shape (counter : nat) (d : MutationDraws)
    (parent : BehaviorPattern) :
  let id := fst (mutation_of counter d parent) in
  let mutant := snd (mutation_of counter d parent) in
  id = ("mutation_" ++ str_of_nat counter ++ "_" ++ pattern_id parent)%string
  /\ pattern_id mutant = id
  /\ Forall2 (fun kv kv' => fst kv' = fst kv /\ perturbed (snd kv) (snd kv'))
             (conditions parent) (conditions mutant)
  /\ Permutation (actions parent) (actions mutant)
  /\ success_rate mutant = success_rate parent * (9#10)
  /\ usage_count mutant = 0%Z
  /\ last_used mutant = 0%Z
  /\ effectiveness_history mutant = [].
Proof.
  intros id mutant. subst id mutant. unfold mutation_of.
  cbn [fst snd BehaviorPattern_init pattern_id conditions actions
       success_rate usage_count last_used effectiveness_history].
  repeat split.
  - apply perturb_conditions_shape.
  - destruct (_ && _); [apply swap_Permutation | apply Permutation_refl].
Qed.

End MutationFacts.

(* ================================================================= *)
(** ** Loading into a store that has patterns *)

Module LoadFacts.

Lemma untyped_store_keys (ps : dict string BehaviorPattern) :
  dict_keys (untyped_store ps) = dict_keys ps.
Proof. unfold untyped_store, dict_keys. now rewrite map_map. Qed.

Lemma load_items_keys (items : list (string * json))
    (ps : dict string UntypedPattern) :
  exists extra,
    dict_keys (fst (load_items items ps)) = dict_keys ps ++ extra.
Proof.
  revert ps. induction items as [|[id data] items IH]; intro ps; simpl.
  - exists []. now rewrite app_nil_r.
  - destruct (pattern_of_json id data) as [pattern|e].
    + destruct (IH (dict_set String.eqb id pattern ps)) as [extra He].
      destruct (dict_keys_set_prefix String.eqb String.eqb_spec id pattern ps)
        as [extra0 He0].
      exists (extra0 ++ extra). now rewrite He, He0, app_assoc.
    + exists []. now rewrite app_nil_r.
Qed.

(** X19: [load_patterns] never drops or reorders a pattern id of the
    miner, whatever the file holds and whether the call returns or
    raises: the ids after the call are the ids before it, in the same
    order, followed by the new ids loaded. *)
Theorem load_patterns_keeps_ids
    (self : GenerativeBehaviorModel) (fs : filesystem) (filename : string) :
  exists extra,
    dict_keys (fst (load_patterns self fs filename))
    = dict_keys (patterns self) ++ extra.
Proof.
  unfold load_patterns, load_try.
  destruct (rbind _ _) as [items|e].
  - destruct (load_items_keys items (untyped_store (patterns self)))
      as [extra He].
    rewrite untyped_store_keys in He.
    destruct (load_items items (untyped_store (patterns self))) as [ps r].
    cbn [fst] in He.
    exists extra. destruct r as [[]|[]]; exact He.
  - exists []. rewrite app_nil_r, <- untyped_store_keys. now destruct e.
Qed.

Lemma load_items_app good bad ps ps1 :
  load_items good ps = (ps1, Ok tt) ->
  load_items (good ++ bad) ps = load_items bad ps1.
Proof.
  revert ps. induction good as [|[id data] good IH]; intros ps H; simpl in *.
  - now inversion H.
  - destruct (pattern_of_json id data); [now apply IH | discriminate].
Qed.

Lemma ActionType_of_value_Ok (v : json) (a : ActionType) :
  ActionType_of_value v = Ok a -> v = JStr (action_value a).
Proof.
  destruct v; try discriminate. unfold ActionType_of_value.
  repeat (match goal with
          | |- context [String.eqb s ?lit] =>
              destruct (String.eqb_spec s lit) as [->|_]
          end; [intro H; inversion H; reflexivity|]).
  discriminate.
Qed.

Lemma ActionType_of_value_Raise (v : json) (e : exn) :
  ActionType_of_value v = Raise e ->
  e = ValueError "is not a valid ActionType".
Proof.
  destruct v; unfold ActionType_of_value;
    try (intro H; inversion H; reflexivity).
  repeat (match goal with
          | |- context [String.eqb s ?lit] =>
              destruct (String.eqb s lit); [discriminate|]
          end).
  intro H. now inversion H.
Qed.

Lemma actions_Raise (names : list json) (e : exn) :
  map_result ActionType_of_value names = Raise e ->
  e = ValueError "is not a valid ActionType".
Proof.
  induction names as [|v names IH]; cbn [map_result rbind]; [discriminate|].
  destruct (ActionType_of_value v) as [a|e0] eqn:Ev.
  - cbn [rbind].
    destruct (map_result ActionType_of_value names) as [acts|e1];
      cbn [rbind]; [discriminate|].
    intro H. inversion H; subst e1. now apply IH.
  - cbn [rbind]. intro H. inversion H; subst e0.
    now apply (ActionType_of_value_Raise v).
Qed.

(** A name that is no action makes the comprehension raise. *)
Lemma unknown_action_raises (names : list json) :
  Exists (fun v => forall a, v <> JStr (action_value a)) names ->
  map_result ActionType_of_value names
  = Raise (ValueError "is not a valid ActionType").
Proof.
  intro Hbad.
  destruct (map_result ActionType_of_value names) as [acts|e] eqn:E.
  - exfalso. revert acts E.
    induction Hbad as [v names Hv | v names _ IH]; intros acts;
      cbn [map_result rbind].
    + destruct (ActionType_of_value v) as [a|e0] eqn:Ev; [|discriminate].
      exfalso. apply (Hv a). now apply ActionType_of_value_Ok.
    + destruct (ActionType_of_value v) as [a|e0]; [|discriminate].
      cbn [rbind].
      destruct (map_result ActionType_of_value names) as [acts'|e1];
        [|discriminate].
      intros _. now apply (IH acts').
  - f_equal. exact (actions_Raise names e E).
Qed.

Lemma json_getitem_Raise (v : json) (key : string) (e : exn) :
  json_getitem v key = Raise e ->
  (exists k, e = KeyError k) \/ (exists what, e = TypeError what).
Proof.
  destruct v; cbn [json_getitem];
    try (intro H; inversion H; right; eexists; reflexivity).
  destruct (dict_get String.eqb key d); [discriminate|].
  intro H. inversion H. left. eexists; reflexivity.
Qed.

(** The exceptions one record can raise. *)
Lemma pattern_of_json_Raise (id : string) (data : json) (e : exn) :
  pattern_of_json id data = Raise e ->
  (exists k, e = KeyError k)
  \/ (exists what, e = TypeError what)
  \/ (exists what, e = ValueError what).
Proof.
  unfold pattern_of_json.
  destruct (json_getitem data "actions") as [stored|e0] eqn:E0; cbn [rbind].
  2:{ intro H. inversion H; subst e0.
      destruct (json_getitem_Raise _ _ _ E0); tauto. }
  destruct (json_iter stored) as [names|e1] eqn:E1; cbn [rbind].
  2:{ intro H. inversion H; subst e1. right; left.
      destruct stored; inversion E1; eexists; reflexivity. }
  destruct (map_result ActionType_of_value names) as [acts|e2] eqn:E2;
    cbn [rbind].
  2:{ intro H. inversion H; subst e2. right; right.
      apply actions_Raise in E2. eexists; exact E2. }
  destruct (json_getitem data "conditions") as [c|e3] eqn:E3; cbn [rbind].
  2:{ intro H. inversion H; subst e3.
      destruct (json_getitem_Raise _ _ _ E3); tauto. }
  destruct (json_getitem data "success_rate") as [r|e4] eqn:E4; cbn [rbind].
  2:{ intro H. inversion H; subst e4.
      destruct (json_getitem_Raise _ _ _ E4); tauto. }
  destruct (json_getitem data "usage_count") as [u|e5] eqn:E5; cbn [rbind].
  2:{ intro H. inversion H; subst e5.
      destruct (json_getitem_Raise _ _ _ E5); tauto. }
  discriminate.
Qed.

(** No field but the action names is tested: a record that holds the four
    keys and names of actions is stored with the values found under
    ['conditions'], ['success_rate'] and ['usage_count'], whatever their
    types. *)
Lemma pattern_of_json_stores_as_found
    (id : string) (d : dict string json) (names : list json)
    (acts : list ActionType) (c r u : json) :
  dict_get String.eqb "actions"%string d = Some (JList names) ->
  map_result ActionType_of_value names = Ok acts ->
  dict_get String.eqb "conditions"%string d = Some c ->
  dict_get String.eqb "success_rate"%string d = Some r ->
  dict_get String.eqb "usage_count"%string d = Some u ->
  pattern_of_json id (JDict d)
  = Ok (mkUntypedPattern id c acts r u 0
          (json_get (JDict d) "effectiveness_history" (JList []))).
Proof.
  intros Ha Hacts Hc Hr Hu. unfold pattern_of_json.
  cbn [json_getitem]. rewrite Ha. cbn [rbind json_iter].
  rewrite Hacts. cbn [rbind]. rewrite Hc. cbn [rbind].
  rewrite Hr. cbn [rbind]. rewrite Hu. reflexivity.
Qed.

(** X20: a record that raises aborts the load where it stands: the
    records before it are in the store, the records after it are not
    read, and the exception, a [KeyError], [TypeError] or [ValueError],
    leaves [load_patterns].  A record without ['actions'] raises
    [KeyError], a list of actions with a name that is no action raises
    [ValueError], a record that is no dict raises [TypeError]. *)
Theorem load_patterns_aborts_midway
    (self : GenerativeBehaviorModel) (fs : filesystem) (filename : string)
    (good rest : list (string * json)) (id : string) (data : json)
    (ps1 : dict string UntypedPattern) (e : exn) :
  dict_get String.eqb filename fs
  = Some (Document (JDict (good ++ (id, data) :: rest))) ->
  load_items good (untyped_store (patterns self)) = (ps1, Ok tt) ->
  pattern_of_json id data = Raise e ->
  load_patterns self fs filename = (ps1, Raise e)
  /\ ((exists key, e = KeyError key)
      \/ (exists what, e = TypeError what)
      \/ (exists what, e = ValueError what))
  /\ (forall d,
        dict_get String.eqb "actions"%string d = None ->
        pattern_of_json id (JDict d) = Raise (KeyError "actions"))
  /\ (forall d names,
        dict_get String.eqb "actions"%string d = Some (JList names) ->
        Exists (fun v => forall a, v <> JStr (action_value a)) names ->
        pattern_of_json id (JDict d)
        = Raise (ValueError "is not a valid ActionType"))
  /\ (forall v,
        (forall d, v <> JDict d) ->
        exists what, pattern_of_json id v = Raise (TypeError what)).
Proof.
  intros Hfile Hgood Hbad.
  pose proof (pattern_of_json_Raise id data e Hbad) as Hkind.
  split; [|split; [exact Hkind|split; [|split]]].
  - unfold load_patterns, load_try, open_read. rewrite Hfile.
    cbn [rbind json_load json_items].
    rewrite (load_items_app good _ _ ps1 Hgood).
    cbn [load_items]. rewrite Hbad.
    destruct Hkind as [[k ->]|[[w ->]|[w ->]]]; reflexivity.
  - intros d Hd. unfold pattern_of_json. cbn [json_getitem].
    now rewrite Hd.
  - intros d names Hd Hnames. unfold pattern_of_json. cbn [json_getitem].
    rewrite Hd. cbn [rbind json_iter].
    now rewrite (unknown_action_raises names Hnames).
  - intros v Hv. unfold pattern_of_json.
    destruct v; cbn [json_getitem rbind]; try (eexists; reflexivity).
    exfalso. now apply (Hv d).
Qed.

Lemma load_patterns_aborts_midway_witness :
  let fs :=
    [("behavior_patterns.json"%string,
      Document (JDict [("pattern_1_1"%string, pattern_to_json Scenario.proven);
                       ("pattern_2_0"%string, JDict []);
                       ("pattern_0_0"%string, pattern_to_json Scenario.failing)]))] in
  load_patterns GenerativeBehaviorModel_init fs "behavior_patterns.json"
  = ([("pattern_1_1"%string, untyped (reloaded "pattern_1_1" Scenario.proven))],
     Raise (KeyError "actions")).
Proof.
  intro fs.
  apply (load_patterns_aborts_midway GenerativeBehaviorModel_init fs
           "behavior_patterns.json"
           [("pattern_1_1"%string, pattern_to_json Scenario.proven)]
           [("pattern_0_0"%string, pattern_to_json Scenario.failing)]
           "pattern_2_0" (JDict [])).
  - reflexivity.
  - reflexivity.
  - reflexivity.
Defined.

Lemma set_all_in_place {V W} (g : V -> W) (f : string -> V -> W)
    (done : dict string W) (todo : dict string V) :
  NoDup (dict_keys done ++ dict_keys todo) ->
  fold_left (fun d kp => dict_set String.eqb (fst kp) (f (fst kp) (snd kp)) d)
            todo (done ++ map (fun kp => (fst kp, g (snd kp))) todo)
  = done ++ map (fun kp => (fst kp, f (fst kp) (snd kp))) todo.
Proof.
  revert done. induction todo as [|[k v] todo IH]; intros done Hnd; simpl.
  - reflexivity.
  - assert (Hk : ~ In k (dict_keys done)).
    { intro Hin. apply NoDup_remove_2 in Hnd. apply Hnd.
      apply in_or_app. now left. }
    assert (Hset : forall rest,
              dict_set String.eqb k (f k v) (done ++ (k, g v) :: rest)
              = (done ++ [(k, f k v)]) ++ rest).
    { clear -Hk. intro rest. induction done as [|[k0 v0] done IHd]; simpl.
      - now rewrite String.eqb_refl.
      - destruct (String.eqb_spec k k0) as [->|_].
        + exfalso. apply Hk. now left.
        + rewrite IHd; [reflexivity|]. intro H. apply Hk. now right. }
    rewrite Hset, IH.
    + now rewrite <- app_assoc.
    + unfold dict_keys in *. rewrite map_app. cbn [map fst].
      rewrite <- app_assoc. exact Hnd.
Qed.

(** X21: loading a miner's own save back into the miner keeps every id
    in place and every pattern's conditions, actions, success rate, usage
    count and history, and resets every recency counter to 0. *)
Theorem reload_resets_recency
    (self : GenerativeBehaviorModel) (fs : filesystem) (filename : string) :
  dict_wf (patterns self) ->
  load_patterns self (save_patterns self fs filename) filename
  = (untyped_store
       (map (fun kp => (fst kp, reloaded (fst kp) (snd kp))) (patterns self)),
     Ok tt).
Proof.
  intro Hwf.
  unfold load_patterns, load_try, save_patterns, json_dump, open_read.
  rewrite (dict_get_set String.eqb String.eqb_spec), String.eqb_refl.
  cbn [rbind json_load json_items].
  rewrite PersistenceFacts.pattern_data_of_wf by assumption.
  rewrite PersistenceFacts.load_items_saved.
  pose proof (set_all_in_place untyped (fun id p => untyped (reloaded id p))
                [] (patterns self) Hwf) as H.
  cbn [app] in H. unfold untyped_store. rewrite H, map_map. reflexivity.
Qed.

Lemma reload_resets_recency_witness :
  dict_get String.eqb "pattern_0_0"%string
    (fst (load_patterns Scenario.miner
            (save_patterns Scenario.miner [] "p.json") "p.json"))
  = Some (untyped (with_last_used Scenario.failing 0)).
Proof.
  rewrite (reload_resets_recency Scenario.miner [] "p.json"
             ScenarioFacts.miner_wf).
  reflexivity.
Defined.

End LoadFacts.

(* ================================================================= *)
(** ** Locations and the social network *)

Module EnvironmentFacts.

Lemma is_occupant_In l id : is_occupant l id = true <-> In id (current_occupants l).
Proof.
  unfold is_occupant. rewrite existsb_exists. split.
  - intros (x & Hx & E). apply Nat.eqb_eq in E. now subst.
  - intro H. exists id. split; [exact H | apply Nat.eqb_refl].
Qed.

(** X22: [add_occupant] never overfills a location and never lists an
    agent twice: a location within its capacity and without duplicates
    stays so; the agent is an occupant afterwards exactly when it was one
    or there was room, and a full location is left as it is. *)
Theorem add_occupant_respects_capacity (l : Location) (agent_id : nat) :
  (List.length (current_occupants l) <= capacity l)%nat ->
  NoDup (current_occupants l) ->
  let l' := add_occupant l agent_id in
  (List.length (current_occupants l') <= capacity l')%nat
  /\ NoDup (current_occupants l')
  /\ capacity l' = capacity l
  /\ (In agent_id (current_occupants l')
      <-> In agent_id (current_occupants l)
          \/ (List.length (current_occupants l) < capacity l)%nat)
  /\ ((capacity l <= List.length (current_occupants l))%nat -> l' = l).
Proof.
  intros Hcap Hnd l'. subst l'. unfold add_occupant, can_accommodate.
  destruct (Nat.ltb_spec (List.length (current_occupants l)) (capacity l))
    as [Hroom|Hfull];
    destruct (is_occupant l agent_id) eqn:Eo; cbn [andb negb].
  - apply is_occupant_In in Eo.
    split; [exact Hcap|]. split; [exact Hnd|]. split; [reflexivity|].
    split; [tauto | lia].
  - assert (Hnot : ~ In agent_id (current_occupants l)).
    { intro H. apply is_occupant_In in H. congruence. }
    cbn [with_occupants current_occupants capacity].
    rewrite length_app. cbn [List.length].
    split; [lia|]. split; [|split; [reflexivity|split; [|lia]]].
    + apply NoDup_app; [exact Hnd | repeat constructor; simpl; tauto |].
      intros x Hx [<-|[]]. contradiction.
    + split; [intros _; now right|].
      intros _. apply in_or_app. right. now left.
  - apply is_occupant_In in Eo.
    split; [exact Hcap|]. split; [exact Hnd|]. split; [reflexivity|].
    split; [tauto | reflexivity].
  - assert (Hnot : ~ In agent_id (current_occupants l)).
    { intro H. apply is_occupant_In in H. congruence. }
    split; [exact Hcap|]. split; [exact Hnd|]. split; [reflexivity|].
    split; [|reflexivity].
    split; [tauto|]. intros [H|H]; [contradiction | lia].
Qed.

Lemma add_occupant_respects_capacity_witness :
  add_occupant (mkLocation "Cafe Corner" RESTAURANT 2 [0%nat; 1%nat]) 2
  = mkLocation "Cafe Corner" RESTAURANT 2 [0%nat; 1%nat].
Proof.
  destruct (add_occupant_respects_capacity
              (mkLocation "Cafe Corner" RESTAURANT 2 [0%nat; 1%nat]) 2)
    as (_ & _ & _ & _ & H).
  - simpl. lia.
  - repeat constructor; simpl; intuition discriminate.
  - apply H. simpl. lia.
Defined.




End EnvironmentFacts.

Module SocialNetworkFacts.

Lemma dict_mem_set_same {V} k (v : V) (d : dict nat V) :
  dict_mem Nat.eqb k (dict_set Nat.eqb k v d) = true.
Proof.
  unfold dict_mem. rewrite (dict_get_set Nat.eqb Nat.eqb_spec).
  now rewrite Nat.eqb_refl.
Qed.

Lemma dict_mem_set_other {V} k k' (v : V) (d : dict nat V) :
  dict_mem Nat.eqb k d = true ->
  dict_mem Nat.eqb k (dict_set Nat.eqb k' v d) = true.
Proof.
  unfold dict_mem. rewrite (dict_get_set Nat.eqb Nat.eqb_spec).
  now destruct (Nat.eqb k k').
Qed.

Lemma dict_mem_update {V} k k' (f : V -> V) (d : dict nat V) :
  dict_mem Nat.eqb k (dict_update Nat.eqb k' f d) = dict_mem Nat.eqb k d.
Proof.
  unfold dict_mem. rewrite (dict_get_update Nat.eqb Nat.eqb_spec).
  destruct (Nat.eqb k k'); [|reflexivity].
  now destruct (dict_get Nat.eqb k d).
Qed.

(** Giving an agent without a row an empty row changes no strength. *)
Lemma row_ensure (n : dict nat (dict nat Q)) (a x : nat) :
  row (if dict_mem Nat.eqb a n then n else dict_set Nat.eqb a [] n) x = row n x.
Proof.
  unfold row, dict_mem.
  destruct (dict_get Nat.eqb a n) eqn:Ea; [reflexivity|].
  rewrite (dict_get_set Nat.eqb Nat.eqb_spec).
  destruct (Nat.eqb_spec x a) as [->|_]; [now rewrite Ea | reflexivity].
Qed.

Lemma mem_ensure (n : dict nat (dict nat Q)) (a : nat) :
  dict_mem Nat.eqb a (if dict_mem Nat.eqb a n then n else dict_set Nat.eqb a [] n)
  = true.
Proof.
  destruct (dict_mem Nat.eqb a n) eqn:E; [exact E | apply dict_mem_set_same].
Qed.

Lemma mem_ensure_other (n : dict nat (dict nat Q)) (a b : nat) :
  dict_mem Nat.eqb a n = true ->
  dict_mem Nat.eqb a (if dict_mem Nat.eqb b n then n else dict_set Nat.eqb b [] n)
  = true.
Proof.
  intro H. destruct (dict_mem Nat.eqb b n); [exact H|].
  now apply dict_mem_set_other.
Qed.

Lemma row_update (n : dict nat (dict nat Q)) (a x : nat) f :
  dict_mem Nat.eqb a n = true ->
  row (dict_update Nat.eqb a f n) x = if Nat.eqb x a then f (row n a) else row n x.
Proof.
  unfold row, dict_mem. intro H.
  rewrite (dict_get_update Nat.eqb Nat.eqb_spec).
  destruct (Nat.eqb_spec x a) as [->|_]; [|reflexivity].
  now destruct (dict_get Nat.eqb a n).
Qed.

Lemma get_or_zero_set (r : dict nat Q) (y y' : nat) (v : Q) :
  get_or_zero (dict_set Nat.eqb y v r) y'
  = if Nat.eqb y' y then v else get_or_zero r y'.
Proof.
  unfold get_or_zero. rewrite (dict_get_set Nat.eqb Nat.eqb_spec).
  now destruct (Nat.eqb y' y).
Qed.

(** X24: [create_social_connection] raises the strength from the first
    agent to the second and from the second to the first by [strength],
    capped at 1, counts one interaction, and changes no other strength
    and no location. *)
Theorem create_social_connection_effect
    (env : SimulationEnvironment) (a b : nat) (strength : Q) :
  let env' := create_social_connection env a b strength in
  connection env' a b = py_min 1 (connection env a b + strength)
  /\ connection env' b a = py_min 1 (connection env b a + strength)
  /\ connection env' a b <= 1
  /\ (forall x y,
        ~ (x = a /\ y = b) -> ~ (x = b /\ y = a) ->
        connection env' x y = connection env x y)
  /\ total_interactions env' = (total_interactions env + 1)%Z
  /\ locations env' = locations env.
Proof.
  intro env'. subst env'.
  unfold connection, get_social_connections, create_social_connection.
  cbn [social_network total_interactions locations].
  set (n0 := social_network env).
  set (n1 := if dict_mem Nat.eqb a n0 then n0 else dict_set Nat.eqb a [] n0).
  set (n2 := if dict_mem Nat.eqb b n1 then n1 else dict_set Nat.eqb b [] n1).
  assert (Hrow : forall x, row n2 x = row n0 x).
  { intro x. subst n2 n1. now rewrite !row_ensure. }
  assert (Ha : dict_mem Nat.eqb a n2 = true).
  { subst n2. apply mem_ensure_other. subst n1. apply mem_ensure. }
  assert (Hb : dict_mem Nat.eqb b n2 = true).
  { subst n2. apply mem_ensure. }
  rewrite !Hrow.
  set (v1 := py_min 1 (get_or_zero (row n0 a) b + strength)).
  set (v2 := py_min 1 (get_or_zero (row n0 b) a + strength)).
  set (n3 := dict_update Nat.eqb a (dict_set Nat.eqb b v1) n2).
  assert (Hb3 : dict_mem Nat.eqb b n3 = true).
  { subst n3. now rewrite dict_mem_update. }
  assert (Hconn : forall x y,
            get_or_zero (row (dict_update Nat.eqb b (dict_set Nat.eqb a v2) n3) x) y
            = if Nat.eqb x b && Nat.eqb y a then v2
              else if Nat.eqb x a && Nat.eqb y b then v1
              else get_or_zero (row n0 x) y).
  { intros x y. rewrite (row_update n3 b x _ Hb3).
    subst n3. rewrite !(row_update n2 a _ _ Ha), !Hrow.
    destruct (Nat.eqb_spec x b) as [->|Hxb]; cbn [andb].
    - rewrite get_or_zero_set.
      destruct (Nat.eqb_spec y a) as [->|Hya]; [reflexivity|].
      destruct (Nat.eqb_spec b a) as [->|Hba]; cbn [andb].
      + now rewrite get_or_zero_set.
      + reflexivity.
    - destruct (Nat.eqb_spec x a) as [->|Hxa]; cbn [andb]; [|reflexivity].
      now rewrite get_or_zero_set. }
  split; [|split; [|split; [|split; [|split]]]]; try reflexivity.
  - rewrite Hconn, !Nat.eqb_refl. cbn [andb].
    destruct (Nat.eqb_spec a b) as [->|Hab]; cbn [andb].
    + now rewrite Nat.eqb_refl.
    + reflexivity.
  - rewrite Hconn, !Nat.eqb_refl. reflexivity.
  - rewrite Hconn, !Nat.eqb_refl. cbn [andb].
    destruct (Nat.eqb a b && Nat.eqb b a); [subst v2 | subst v1];
      apply py_min_le_l.
  - intros x y H1 H2. rewrite Hconn.
    destruct (Nat.eqb_spec x b), (Nat.eqb_spec y a); cbn [andb]; try tauto;
      destruct (Nat.eqb_spec x a), (Nat.eqb_spec y b); cbn [andb]; tauto.
Qed.

End SocialNetworkFacts.

(* ================================================================= *)
(** ** The two phases as a whole *)

Module PhaseFacts.

Lemma after_draws_refl s : after_draws 0 s s.
Proof. unfold after_draws. repeat split. lia. Qed.

Lemma after_draws_trans k1 k2 s s1 s2 :
  after_draws k1 s s1 -> after_draws k2 s1 s2 -> after_draws (k1 + k2) s s2.
Proof.
  unfold after_draws.
  intros (A1 & B1 & C1 & D1 & E1 & F1 & G1 & H1 & I1 & J1 & K1)
         (A2 & B2 & C2 & D2 & E2 & F2 & G2 & H2 & I2 & J2 & K2).
  repeat split; try congruence. lia.
Qed.

Lemma after_draws_random s : after_draws 1 s (fst (random_random s)).
Proof. unfold after_draws. simpl. repeat split. lia. Qed.

Lemma pairs_after_In (xs : list nat) (i j : nat) :
  In (i, j) (pairs_after xs) -> In i xs /\ In j xs.
Proof.
  induction xs as [|x xs IH]; simpl; [tauto|].
  intro H. apply in_app_or in H. destruct H as [H|H].
  - apply in_map_iff in H. destruct H as (y & E & Hy).
    inversion E; subst. tauto.
  - destruct (IH H). tauto.
Qed.

Lemma known_agent s i :
  (i < List.length (agents s))%nat -> exists a, nth_error (agents s) i = Some a.
Proof.
  intro H. destruct (nth_error (agents s) i) eqn:E; [eauto|].
  apply nth_error_None in E. lia.
Qed.

(** One pair in which nobody socializes. *)
Lemma interact_idle location i j s :
  Forall (fun a => current_action a <> SOCIALIZE) (agents s) ->
  (i < List.length (agents s))%nat -> (j < List.length (agents s))%nat ->
  interact location (i, j) s = (s, Ok tt).
Proof.
  intros Hidle Hi Hj.
  destruct (known_agent s i Hi) as [a1 E1].
  destruct (known_agent s j Hj) as [a2 E2].
  rewrite Forall_forall in Hidle.
  pose proof (Hidle a1 (nth_error_In _ _ E1)) as N1.
  pose proof (Hidle a2 (nth_error_In _ _ E2)) as N2.
  unfold interact, sim_bind, agent_at. rewrite E1, E2.
  destruct (action_eqb_spec (current_action a1) SOCIALIZE); [contradiction|].
  destruct (action_eqb_spec (current_action a2) SOCIALIZE); [contradiction|].
  reflexivity.
Qed.

Lemma sim_for_noop {A} (body : A -> Sim unit) (xs : list A) s :
  (forall x, In x xs -> body x s = (s, Ok tt)) ->
  sim_for xs body s = (s, Ok tt).
Proof.
  induction xs as [|x xs IH]; intro H; simpl; [reflexivity|].
  unfold sim_bind. rewrite (H x (or_introl eq_refl)).
  apply IH. intros y Hy. apply H. now right.
Qed.

(** X25: when no agent is in SOCIALIZE, and the occupants of the
    locations are agents of the engine, [process_social_interactions]
    returns and changes nothing: no roll is drawn, no edge strengthened,
    no event emitted. *)
Theorem social_phase_idle (s : SimulationEngine) :
  Forall (fun a => current_action a <> SOCIALIZE) (agents s) ->
  occupants_known s ->
  process_social_interactions s = (s, Ok tt).
Proof.
  intros Hidle Hknown.
  unfold process_social_interactions, sim_bind, sim_get.
  apply sim_for_noop. intros location Hloc.
  destruct (Nat.ltb 1 _); [|reflexivity].
  apply sim_for_noop. intros [i j] Hpair.
  apply pairs_after_In in Hpair. destruct Hpair as [Hi Hj].
  unfold dict_values in Hloc. apply in_map_iff in Hloc.
  destruct Hloc as (kl & <- & Hkl).
  unfold occupants_known in Hknown. rewrite Forall_forall in Hknown.
  specialize (Hknown kl Hkl). rewrite Forall_forall in Hknown.
  apply interact_idle; auto.
Qed.

Lemma social_phase_idle_witness :
  process_social_interactions
    (with_agents Scenario.party [Scenario.alice; Scenario.bob])
  = (with_agents Scenario.party [Scenario.alice; Scenario.bob], Ok tt).
Proof.
  apply social_phase_idle.
  - repeat constructor; discriminate.
  - unfold occupants_known. simpl. repeat constructor.
Defined.



End PhaseFacts.

Module SuggestionPhaseOutcomes.

Lemma apply_suggestion_none i s agent :
  nth_error (agents s) i = Some agent ->
  suggest_action (behavior_model s) agent (rng s (draws s)) (clock s)
  = (behavior_model s, None) ->
  apply_suggestion i s = (fst (random_random s), Ok tt).
Proof.
  intros Hi Hs.
  unfold apply_suggestion, sim_bind, agent_at, random_random, sim_get.
  rewrite Hi. cbn [rng draws behavior_model clock]. rewrite Hs.
  reflexivity.
Qed.



Lemma seq_below (n : nat) : Forall (fun i => (i < n)%nat) (seq 0 n).
Proof. apply Forall_forall. intros i Hi. apply in_seq in Hi. lia. Qed.


Lemma cold_loop (l : list nat) (s : SimulationEngine) :
  Forall (fun i => (i < List.length (agents s))%nat) l ->
  cold (behavior_model s) ->
  snd (sim_for l apply_suggestion s) = Ok tt
  /\ after_draws (List.length l) s (fst (sim_for l apply_suggestion s)).
Proof.
  revert s. induction l as [|i l IH]; intros s Hl Hcold.
  - split; [reflexivity | apply PhaseFacts.after_draws_refl].
  - inversion Hl as [|? ? Hi Hl']; subst.
    destruct (PhaseFacts.known_agent s i Hi) as [agent Ei].
    cbn [sim_for]. unfold sim_bind.
    rewrite (apply_suggestion_none i s agent Ei
               (SuggestSoundness.suggest_action_cold_start_aux
                  (behavior_model s) agent _ _ Hcold)).
    pose proof (PhaseFacts.after_draws_random s) as H1.
    set (s1 := fst (random_random s)) in *.
    assert (Hl1 : Forall (fun i => (i < List.length (agents s1))%nat) l).
    { destruct H1 as (A & _). now rewrite A. }
    assert (Hcold1 : cold (behavior_model s1)).
    { destruct H1 as (_ & _ & C & _). now rewrite C. }
    destruct (IH s1 Hl1 Hcold1) as [Hr H2].
    split; [exact Hr|].
    change (List.length (i :: l)) with (1 + List.length l)%nat.
    eapply PhaseFacts.after_draws_trans; eauto.
Qed.

(** X28: while the store holds no pattern that is both established and
    successful, as in every run that starts without a pattern file,
    [apply_behavior_model_suggestions] returns: it draws one roll per
    agent and leaves the agents, the miner, the events and the metrics as
    they were. *)
Theorem suggestion_phase_cold (s : SimulationEngine) :
  cold (behavior_model s) ->
  snd (apply_behavior_model_suggestions s) = Ok tt
  /\ after_draws (List.length (agents s)) s
       (fst (apply_behavior_model_suggestions s)).
Proof.
  intro Hcold.
  unfold apply_behavior_model_suggestions, sim_bind, sim_get.
  pose proof (cold_loop (seq 0 (List.length (agents s))) s (seq_below _) Hcold)
    as H.
  rewrite length_seq in H. exact H.
Qed.

Lemma suggestion_phase_cold_witness :
  snd (apply_behavior_model_suggestions
         (with_behavior_model Scenario.advised GenerativeBehaviorModel_init))
  = Ok tt.
Proof.
  apply (suggestion_phase_cold
           (with_behavior_model Scenario.advised GenerativeBehaviorModel_init)).
  constructor.
Defined.

End SuggestionPhaseOutcomes.

(* ================================================================= *)
(** ** From a cluster to a pattern *)

Module ClusterFacts.

Lemma nth_error_map_seq {A} (g : nat -> A) (n i : nat) :
  (i < n)%nat -> nth_error (map g (seq 0 n)) i = Some (g i).
Proof.
  intro H. rewrite nth_error_map, nth_error_seq.
  destruct (Nat.ltb_spec i n); [reflexivity | lia].
Qed.

Lemma column_of_states (st : list Q) (rest : list (list Q)) (i : nat) :
  (i < List.length st)%nat ->
  column (mean_axis0 (st :: rest)) i
  = Ok (mean (map (fun state => nth i state 0) (st :: rest))).
Proof.
  intro H. unfold column, mean_axis0. now rewrite nth_error_map_seq.
Qed.

Lemma actions_eqb_spec xs ys : reflect (xs = ys) (actions_eqb xs ys).
Proof.
  revert ys. induction xs as [|x xs IH]; intros [|y ys]; simpl;
    try (constructor; congruence).
  destruct (action_eqb_spec x y) as [->|Hne]; simpl.
  - destruct (IH ys) as [->|Hne]; constructor; congruence.
  - constructor. congruence.
Qed.

Lemma occurrences_snoc s x done :
  occurrences s (done ++ [x])
  = (occurrences s done + if actions_eqb s x then 1 else 0)%Z.
Proof.
  unfold occurrences. rewrite filter_app, length_app. cbn [filter].
  destruct (actions_eqb s x); cbn [List.length]; lia.
Qed.

Lemma occurrences_pos s xs : (0 < occurrences s xs)%Z -> In s xs.
Proof.
  unfold occurrences. intro H.
  destruct (filter (actions_eqb s) xs) as [|y l] eqn:E; [simpl in H; lia|].
  assert (Hy : In y (filter (actions_eqb s) xs)) by (rewrite E; now left).
  apply filter_In in Hy. destruct Hy as [Hy Es].
  destruct (actions_eqb_spec s y); [now subst | discriminate].
Qed.

Lemma In_occurrences s xs : In s xs -> (0 < occurrences s xs)%Z.
Proof.
  unfold occurrences. intro H.
  assert (Hf : In s (filter (actions_eqb s) xs)).
  { apply filter_In. split; [exact H|].
    now destruct (actions_eqb_spec s s). }
  destruct (filter (actions_eqb s) xs); [contradiction | cbn [List.length]; lia].
Qed.

Lemma counts_step c done x :
  counts c done ->
  counts (dict_set actions_eqb x
            (match dict_get actions_eqb x c with
             | Some n => n
             | None => 0%Z
             end + 1)%Z c)
         (done ++ [x]).
Proof.
  intros [Hwf Hget]. split.
  - now apply (dict_wf_set actions_eqb actions_eqb_spec).
  - intro s. rewrite (dict_get_set actions_eqb actions_eqb_spec).
    rewrite occurrences_snoc.
    assert (Hnn : (0 <= occurrences s done)%Z) by (unfold occurrences; lia).
    destruct (actions_eqb_spec s x) as [->|Hne].
    + rewrite Hget.
      destruct (Z.eqb_spec (occurrences x done) 0) as [E|E].
      * rewrite E. reflexivity.
      * destruct (Z.eqb_spec (occurrences x done + 1) 0); [lia | reflexivity].
    + rewrite Z.add_0_r. apply Hget.
Qed.

Lemma count_sequences_counts seqs : counts (count_sequences seqs) seqs.
Proof.
  unfold count_sequences.
  assert (G : forall todo c done,
            counts c done ->
            counts (fold_left
                      (fun counter seq_key =>
                         dict_set actions_eqb seq_key
                           (match dict_get actions_eqb seq_key counter with
                            | Some n => n
                            | None => 0%Z
                            end + 1)%Z counter)
                      todo c)
                   (done ++ todo)).
  { induction todo as [|x todo IH]; intros c done Hc; simpl.
    - now rewrite app_nil_r.
    - replace (done ++ x :: todo) with ((done ++ [x]) ++ todo)
        by (now rewrite <- app_assoc).
      apply IH. now apply counts_step. }
  apply (G seqs [] []). split; [constructor | reflexivity].
Qed.

(** X29: a pattern made from a cluster of agents' state vectors, each
    taken at the clock its agent read, has for conditions the means of
    the members' hunger, energy, happiness and social need and of their
    times of day: the columns 0 to 3 and 9 that
    [_create_pattern_from_cluster] reads are these features in the layout
    of [extract_agent_state_vector].  The pattern is stored under
    [pattern_<counter>_<cluster>] with success rate 0.5 and no use, and
    the counter advances by one. *)
Theorem cluster_pattern_conditions
    (self : GenerativeBehaviorModel) (cluster_id : nat)
    (member : VirtualHuman * Q) (others : list (VirtualHuman * Q))
    (action_sequences : list (list ActionType)) :
  action_sequences <> [] ->
  let members := member :: others in
  let states :=
    map (fun m => extract_agent_state_vector (fst m) (snd m)) members in
  let id := ("pattern_" ++ str_of_nat (pattern_counter self) ++ "_"
               ++ str_of_nat cluster_id)%string in
  exists self' p,
    _create_pattern_from_cluster self cluster_id states action_sequences
    = Ok self'
    /\ dict_get String.eqb id (patterns self') = Some p
    /\ conditions p
       = [("hunger"%string,
           JFloat (mean (map (fun m => value (hunger (needs (fst m))))
                             members)));
          ("energy"%string,
           JFloat (mean (map (fun m => value (energy (needs (fst m))))
                             members)));
          ("happiness"%string,
           JFloat (mean (map (fun m => value (happiness (needs (fst m))))
                             members)));
          ("social_need"%string,
           JFloat (mean (map (fun m => value (social_need (needs (fst m))))
                             members)));
          ("time_of_day"%string,
           JFloat (mean (map (fun m => get_time_of_day (snd m)) members)))]
    /\ success_rate p = 1#2
    /\ usage_count p = 0%Z
    /\ pattern_id p = id
    /\ pattern_counter self' = S (pattern_counter self).
Proof.
  intros Hne members states id. subst members states id.
  unfold _create_pattern_from_cluster. cbn [map].
  rewrite !column_of_states by (cbn; lia).
  cbn [rbind].
  destruct (count_sequences action_sequences) as [|first rest] eqn:Ec.
  - exfalso. destruct action_sequences as [|x xs]; [congruence|].
    destruct (count_sequences_counts (x :: xs)) as [_ Hget].
    specialize (Hget x). rewrite Ec in Hget. cbn [dict_get] in Hget.
    pose proof (In_occurrences x (x :: xs) (or_introl eq_refl)).
    destruct (Z.eqb_spec (occurrences x (x :: xs)) 0); [lia | discriminate].
  - eexists. eexists. split; [reflexivity|].
    cbn [patterns pattern_counter].
    rewrite (dict_get_set String.eqb String.eqb_spec), String.eqb_refl.
    split; [reflexivity|].
    cbn [conditions success_rate usage_count pattern_id BehaviorPattern_init].
    split; [|repeat split].
    change (extract_agent_state_vector (fst member) (snd member)
            :: map (fun m => extract_agent_state_vector (fst m) (snd m)) others)
      with (map (fun m => extract_agent_state_vector (fst m) (snd m))
                (member :: others)).
    rewrite !map_map. reflexivity.
Qed.

Lemma cluster_pattern_conditions_witness :
  exists self' p,
    _create_pattern_from_cluster GenerativeBehaviorModel_init 2
      (map (fun m => extract_agent_state_vector (fst m) (snd m))
           [(Scenario.alice, 43200); (Scenario.bob, 64800)])
      [[EAT; WORK; SLEEP]; [EAT; WORK; SLEEP]]
    = Ok self'
    /\ dict_get String.eqb "pattern_0_2"%string (patterns self') = Some p
    /\ usage_count p = 0%Z.
Proof.
  destruct (cluster_pattern_conditions GenerativeBehaviorModel_init 2
              (Scenario.alice, 43200) [(Scenario.bob, 64800)]
              [[EAT; WORK; SLEEP]; [EAT; WORK; SLEEP]])
    as (self' & p & H1 & H2 & _ & _ & H3 & _).
  - discriminate.
  - exists self', p. split; [exact H1|]. split; [exact H2 | exact H3].
Defined.

(** X30: for state vectors of one length with at least ten columns, the
    action sequence of a pattern made from a cluster is one of the
    members' sequences, and none of them occurs more often among the
    members than it does. *)
Theorem cluster_pattern_actions
    (self : GenerativeBehaviorModel) (cluster_id : nat)
    (state : list Q) (states : list (list Q))
    (action_sequences : list (list ActionType)) :
  (10 <= List.length state)%nat ->
  Forall (fun s => List.length s = List.length state) states ->
  action_sequences <> [] ->
  let id := ("pattern_" ++ str_of_nat (pattern_counter self) ++ "_"
               ++ str_of_nat cluster_id)%string in
  exists self' p,
    _create_pattern_from_cluster self cluster_id (state :: states)
      action_sequences = Ok self'
    /\ dict_get String.eqb id (patterns self') = Some p
    /\ In (actions p) action_sequences
    /\ forall s, In s action_sequences ->
         (occurrences s action_sequences
          <= occurrences (actions p) action_sequences)%Z.
Proof.
  intros Hlen _ Hne id. subst id.
  unfold _create_pattern_from_cluster.
  rewrite !column_of_states by lia.
  cbn [rbind].
  destruct (count_sequences_counts action_sequences) as [Hwf Hget].
  destruct (count_sequences action_sequences) as [|first rest] eqn:Ec.
  - exfalso. destruct action_sequences as [|x xs]; [congruence|].
    specialize (Hget x). cbn [dict_get] in Hget.
    pose proof (In_occurrences x (x :: xs) (or_introl eq_refl)).
    destruct (Z.eqb_spec (occurrences x (x :: xs)) 0); [lia | discriminate].
  - set (key := fun kv : list ActionType * Z => inject_Z (snd kv)).
    set (best := py_max_by key first rest).
    eexists. eexists. split; [reflexivity|].
    cbn [patterns].
    rewrite (dict_get_set String.eqb String.eqb_spec), String.eqb_refl.
    split; [reflexivity|].
    cbn [actions BehaviorPattern_init].
    assert (Hentry : forall k n,
              In (k, n) (first :: rest) ->
              n = occurrences k action_sequences /\ (0 < n)%Z).
    { intros k n Hin.
      apply (In_dict_get actions_eqb actions_eqb_spec _ _ _ Hwf) in Hin.
      rewrite Hget in Hin.
      assert (0 <= occurrences k action_sequences)%Z
        by (unfold occurrences; lia).
      destruct (Z.eqb_spec (occurrences k action_sequences) 0);
        [discriminate|].
      inversion Hin. split; [reflexivity | lia]. }
    assert (Hbest : In best (first :: rest)) by apply SuggestFacts.py_max_by_In.
    destruct best as [kb nb] eqn:Eb.
    destruct (Hentry kb nb Hbest) as [Hnb Hpos].
    cbn [fst]. split.
    + apply occurrences_pos. lia.
    + intros s Hs. apply In_occurrences in Hs.
      assert (Hs_entry : In (s, occurrences s action_sequences) (first :: rest)).
      { apply (dict_get_In actions_eqb actions_eqb_spec).
        rewrite Hget.
        destruct (Z.eqb_spec (occurrences s action_sequences) 0);
          [lia | reflexivity]. }
      destruct (SuggestSoundness.py_max_by_max key rest first) as [Hf Hr].
      assert (Hle : key (s, occurrences s action_sequences) <= key best).
      { subst best. destruct Hs_entry as [E|Hin].
        - rewrite <- E. exact Hf.
        - now apply Hr. }
      rewrite Eb in Hle. unfold key in Hle. cbn [snd] in Hle.
      rewrite <- Zle_Qle in Hle. lia.
Qed.

Lemma cluster_pattern_actions_witness :
  exists self' p,
    _create_pattern_from_cluster GenerativeBehaviorModel_init 0
      [extract_agent_state_vector Scenario.alice 0;
       extract_agent_state_vector Scenario.bob 0]
      [[EAT; WORK]; [SLEEP; SLEEP]; [SLEEP; SLEEP]] = Ok self'
    /\ dict_get String.eqb "pattern_0_0"%string (patterns self') = Some p
    /\ In (actions p) [[EAT; WORK]; [SLEEP; SLEEP]; [SLEEP; SLEEP]].
Proof.
  destruct (cluster_pattern_actions GenerativeBehaviorModel_init 0
              (extract_agent_state_vector Scenario.alice 0)
              [extract_agent_state_vector Scenario.bob 0]
              [[EAT; WORK]; [SLEEP; SLEEP]; [SLEEP; SLEEP]])
    as (self' & p & H1 & H2 & H3 & _).
  - cbn. lia.
  - repeat constructor.
  - discriminate.
  - exists self', p. split; [exact H1|]. split; [exact H2 | exact H3].
Defined.

End ClusterFacts.
